(** * Verification of the multi-prompt analysis pipeline agents

    A shallow embedding of the pattern-based question classifier
    (agents/question_analyzer.py), the exclude-list field selection
    (enhanced_guidance_reference_file__schema.py), the schema discovery
    agent (agents/schema_discovery.py) and the data filter agent
    (agents/data_filter.py), with the properties their specification
    states about them.

    Conventions of the embedding:
    - Python [str] is [string]; [str.lower] is modelled on the ASCII
      range (every pattern of the classifier is ASCII).
    - Python / numpy floats are modelled by exact rationals extended
      with the infinities and a not-a-number value ([pyfloat]). A value
      [Fin q] stands for the double nearest to [q]. Arithmetic on
      values is exact, so it agrees with the code up to rounding, and
      only on magnitudes that neither overflow a double nor wrap
      around in a 64-bit integer. The one threshold test that the code
      takes on the result of a subtraction is decided on doubles
      ([Double], IEEE 754 binary64).
    - A [dict] used only for lookups is a [gmap]; a [dict] whose
      iteration order reaches the output is an association list.
    - Objects mutated in place live in an explicit store, and dicts hold
      references into it. *)

From Stdlib Require Import Ascii String QArith Qabs Qminmax Lqa SpecFloat.
From stdpp Require Import base gmap strings list sorting.

Local Open Scope string_scope.
Local Open Scope list_scope.

(** ** Strings *)

Module PyStr.

(** [c.lower()] for one ASCII character. *)
Definition lower_ascii (c : ascii) : ascii :=
  let n := nat_of_ascii c in
  if (65 <=? n)%nat && (n <=? 90)%nat then ascii_of_nat (n + 32) else c.

(** [s.lower()]. *)
Fixpoint lower (s : string) : string :=
  match s with
  | EmptyString => EmptyString
  | String c s' => String (lower_ascii c) (lower s')
  end.

(** [s.startswith(p)]. *)
Fixpoint startswith (p s : string) : bool :=
  match p, s with
  | EmptyString, _ => true
  | String _ _, EmptyString => false
  | String a p', String b s' => if Ascii.eqb a b then startswith p' s' else false
  end.

(** [p in s]: [p] occurs in [s] as a contiguous substring. *)
Fixpoint contains (s p : string) : bool :=
  startswith p s ||
  match s with
  | EmptyString => false
  | String _ s' => contains s' p
  end.

(** [c in s] for a single character [c]. *)
Fixpoint has_char (c : ascii) (s : string) : bool :=
  match s with
  | EmptyString => false
  | String a s' => Ascii.eqb a c || has_char c s'
  end.

End PyStr.

(** ** agents/question_analyzer.py *)

Module QuestionAnalyzer.

(** [class QuestionType(Enum)]. *)
Inductive QuestionType : Type :=
| PERFORMANCE_ANALYSIS
| LOCATION_COMPARISON
| TREND_IDENTIFICATION
| RECOMMENDATION_GENERATION
| ROOT_CAUSE_ANALYSIS
| UNSUPPORTED.

(** [class AnalyticalApproach(Enum)]. *)
Inductive AnalyticalApproach : Type :=
| COMPARATIVE_ANALYSIS
| TREND_ANALYSIS
| RANKING_ANALYSIS
| CORRELATION_ANALYSIS
| THRESHOLD_ANALYSIS.

(** [_load_question_patterns]: the dict literal it returns. *)
Definition _load_question_patterns : gmap string (list string) :=
  <["performance_analysis" :=
      [ "which locations need attention";
        "underperforming locations";
        "performance issues";
        "locations with problems" ]]>
  (<["location_comparison" :=
      [ "compare locations";
        "top vs bottom";
        "differences between";
        "best and worst" ]]>
  (<["trend_identification" :=
      [ "trends";
        "patterns over time";
        "changes in";
        "declining performance" ]]>
  (<["recommendation_generation" :=
      [ "what should I do";
        "recommendations";
        "actions to take";
        "how to improve" ]]> ∅))).

(** [self.question_patterns.get(key, [])]. *)
Definition patterns_get (question_patterns : gmap string (list string))
    (key : string) : list string :=
  default [] (question_patterns !! key).

(** [any(pattern in question_lower for pattern in ps)]. *)
Definition any_pattern_in (question_lower : string) (ps : list string) : bool :=
  existsb (fun pattern => PyStr.contains question_lower pattern) ps.

(** [_classify_question_type], with [self.question_patterns] explicit. *)
Definition _classify_question_type
    (question_patterns : gmap string (list string))
    (question : string) : QuestionType :=
  let question_lower := PyStr.lower question in
  if any_pattern_in question_lower
       (patterns_get question_patterns "performance_analysis")
  then PERFORMANCE_ANALYSIS
  else if any_pattern_in question_lower
       (patterns_get question_patterns "location_comparison")
  then LOCATION_COMPARISON
  else if any_pattern_in question_lower
       (patterns_get question_patterns "trend_identification")
  then TREND_IDENTIFICATION
  else if any_pattern_in question_lower
       (patterns_get question_patterns "recommendation_generation")
  then RECOMMENDATION_GENERATION
  else PERFORMANCE_ANALYSIS.

(** [_determine_analytical_approach]: the lookup table with its
    [.get] default. *)
Definition _determine_analytical_approach (question_type : QuestionType)
    : AnalyticalApproach :=
  match question_type with
  | PERFORMANCE_ANALYSIS => RANKING_ANALYSIS
  | LOCATION_COMPARISON => COMPARATIVE_ANALYSIS
  | TREND_IDENTIFICATION => TREND_ANALYSIS
  | RECOMMENDATION_GENERATION => THRESHOLD_ANALYSIS
  | ROOT_CAUSE_ANALYSIS => CORRELATION_ANALYSIS
  | UNSUPPORTED => COMPARATIVE_ANALYSIS
  end.

(** The classifier of an agent built by [__init__]. *)
Definition classify (question : string) : QuestionType :=
  _classify_question_type _load_question_patterns question.

End QuestionAnalyzer.

(** ** Exceptions *)

(** The exception classes that the modelled code raises or catches.
    [EmptyDatasetError] and [InvalidWeightsError] are the names used by
    the specification's error taxonomy; no statement of the four source
    files constructs either of them. *)
Inductive exn : Type :=
| ValueError
| KeyError
| ZeroDivisionError
| TypeError
| AttributeError
| OSError
| FileNotFoundError
| EmptyDataError
| ParserError
| EmptyDatasetError
| InvalidWeightsError.

Inductive outcome (A : Type) : Type :=
| Returned (a : A)
| Raised (e : exn).
Arguments Returned {A} a.
Arguments Raised {A} e.

Definition obind {A B} (m : outcome A) (k : A -> outcome B) : outcome B :=
  match m with
  | Returned a => k a
  | Raised e => Raised e
  end.

Notation "'do!' x <- m ; k" := (obind m (fun x => k))
  (at level 10, x name, m at level 100, k at level 200).

(** ** Floating-point values

    Exact rationals extended with the two infinities and not-a-number.
    Arithmetic follows IEEE 754 as numpy applies it to arrays and
    scalars (division by zero yields an infinity or [NaN], never an
    exception); rounding and signed zeros are not modelled. *)

Inductive pyfloat : Type :=
| Fin (q : Q)
| Inf (negative : bool)
| NaN.

Module Float.

Definition Qlt_bool (x y : Q) : bool := negb (Qle_bool y x).
Definition Qis_zero (x : Q) : bool := Qeq_bool x 0.
Definition Qis_neg (x : Q) : bool := Qlt_bool x 0.

Definition neg (x : pyfloat) : pyfloat :=
  match x with
  | Fin q => Fin (- q)
  | Inf s => Inf (negb s)
  | NaN => NaN
  end.

Definition add (x y : pyfloat) : pyfloat :=
  match x, y with
  | NaN, _ | _, NaN => NaN
  | Fin a, Fin b => Fin (a + b)
  | Fin _, Inf s | Inf s, Fin _ => Inf s
  | Inf s, Inf t => if Bool.eqb s t then Inf s else NaN
  end.

Definition sub (x y : pyfloat) : pyfloat := add x (neg y).

Definition mul (x y : pyfloat) : pyfloat :=
  match x, y with
  | NaN, _ | _, NaN => NaN
  | Fin a, Fin b => Fin (a * b)
  | Fin a, Inf s | Inf s, Fin a =>
      if Qis_zero a then NaN else Inf (xorb s (Qis_neg a))
  | Inf s, Inf t => Inf (xorb s t)
  end.

Definition div (x y : pyfloat) : pyfloat :=
  match x, y with
  | NaN, _ | _, NaN => NaN
  | Fin a, Fin b =>
      if Qis_zero b then (if Qis_zero a then NaN else Inf (Qis_neg a))
      else Fin (a / b)
  | Fin _, Inf _ => Fin 0
  | Inf s, Fin b => Inf (xorb s (Qis_neg b))
  | Inf _, Inf _ => NaN
  end.

Definition abs (x : pyfloat) : pyfloat :=
  match x with
  | Fin q => Fin (Qabs q)
  | Inf _ => Inf false
  | NaN => NaN
  end.

(** [x < y]; every comparison with [NaN] is false. *)
Definition lt (x y : pyfloat) : bool :=
  match x, y with
  | NaN, _ | _, NaN => false
  | Fin a, Fin b => Qlt_bool a b
  | Fin _, Inf s => negb s
  | Inf s, Fin _ => s
  | Inf s, Inf t => s && negb t
  end.

Definition gt (x y : pyfloat) : bool := lt y x.

(** [x >= y]. *)
Definition ge (x y : pyfloat) : bool :=
  match x, y with
  | NaN, _ | _, NaN => false
  | Fin a, Fin b => Qle_bool b a
  | Fin _, Inf s => s
  | Inf s, Fin _ => negb s
  | Inf s, Inf t => negb s || t
  end.

Definition is_nan (x : pyfloat) : bool :=
  match x with NaN => true | _ => false end.

Definition of_nat (n : nat) : pyfloat := Fin (inject_Z (Z.of_nat n)).

(** Python's builtin [min(x, y)]: the first argument unless the second
    is strictly smaller. *)
Definition py_min (x y : pyfloat) : pyfloat := if lt y x then y else x.

(** Python's builtin [sum] over floats, starting from [0]. *)
Definition py_sum (l : list pyfloat) : pyfloat := foldl add (Fin 0) l.

(** Equality of values: rationals up to [Qeq]. *)
Definition eqv (x y : pyfloat) : Prop :=
  match x, y with
  | Fin a, Fin b => (a == b)%Q
  | Inf s, Inf t => s = t
  | NaN, NaN => True
  | _, _ => False
  end.

(** [x] is a number between [lo] and [hi]. *)
Definition within (lo hi : Q) (x : pyfloat) : Prop :=
  match x with
  | Fin q => (lo <= q /\ q <= hi)%Q
  | _ => False
  end.

End Float.

(** ** Doubles

    IEEE 754 binary64 with rounding to nearest, ties to even, as the
    standard library specifies it ([SpecFloat]). [of_Q] is the double
    nearest to a rational: the quotient of numerator and denominator
    is developed far enough for one correct rounding, whatever their
    size. *)

Module Double.

Definition prec : Z := 53.
Definition emax : Z := 1024.

Definition of_Q (q : Q) : spec_float :=
  match Qnum q with
  | Z0 => S754_zero false
  | Zpos n =>
      let '(m, e, l) := SFdiv_core_binary prec emax (Zpos n) 0 (Zpos (Qden q)) 0 in
      binary_round_aux prec emax false m e l
  | Zneg n =>
      let '(m, e, l) := SFdiv_core_binary prec emax (Zpos n) 0 (Zpos (Qden q)) 0 in
      binary_round_aux prec emax true m e l
  end.

(** The double that a value stands for. *)
Definition of_float (x : pyfloat) : spec_float :=
  match x with
  | Fin q => of_Q q
  | Inf s => S754_infinity s
  | NaN => S754_nan
  end.

Definition sub (x y : spec_float) : spec_float := SFsub prec emax x y.
Definition abs (x : spec_float) : spec_float := SFabs x.

(** [x > y]; every comparison with a not-a-number is false. *)
Definition gt (x y : spec_float) : bool := SFltb y x.

End Double.

(** ** enhanced_guidance_reference_file__schema.py *)

Module SchemaReference.

(** *** [fnmatch.fnmatch] on a case-sensitive platform

    [fnmatch.translate] turns the pattern into a regular expression
    made of four kinds of pieces, and the name has to match all of it.
    Bracket expressions have their documented meaning: [[seq]] accepts
    the characters and ranges listed in [seq], [[!seq]] the others, and
    a range whose ends are out of order is empty. *)
Inductive glob_token : Type :=
| GStar                                            (* [*] *)
| GAny                                             (* [?] *)
| GClass (negated : bool) (items : list (ascii * ascii))  (* [[seq]] *)
| GLit (c : ascii).

Definition ascii_le (a b : ascii) : bool :=
  (nat_of_ascii a <=? nat_of_ascii b)%nat.

(** The index of the first closing bracket of [s], counted from [j]. *)
Fixpoint scan_close (s : string) (j : nat) : option nat :=
  match s with
  | EmptyString => None
  | String c s' => if Ascii.eqb c "]" then Some j else scan_close s' (S j)
  end.

Definition skip_if (c : ascii) (s : string) (j : nat) : string * nat :=
  match s with
  | String a s' => if Ascii.eqb a c then (s', S j) else (s, j)
  | EmptyString => (s, j)
  end.

(** The index of the bracket that closes an expression whose body
    starts at index 0 of [s]: after an optional [!] and an optional
    closing bracket taken as a member, the first closing bracket.
    [None] when there is none, and the opening bracket is then an
    ordinary character. *)
Definition bracket_end (s : string) : option nat :=
  let '(s1, j1) := skip_if "!" s 0 in
  let '(s2, j2) := skip_if "]" s1 j1 in
  scan_close s2 j2.

(** The members of a bracket body, read left to right: [a-b] is a
    range when a character follows the hyphen, anything else is a
    single character. A range whose ends are out of order is empty. *)
Fixpoint class_items (skip : nat) (s : string) : list (ascii * ascii) :=
  match s with
  | EmptyString => []
  | String a s' =>
      match skip with
      | S k => class_items k s'
      | O =>
          match s' with
          | String h (String b _) =>
              if Ascii.eqb h "-" then (a, b) :: class_items 2 s'
              else (a, a) :: class_items 0 s'
          | _ => (a, a) :: class_items 0 s'
          end
      end
  end.

Definition parse_class (stuff : string) : glob_token :=
  match stuff with
  | String c rest =>
      if Ascii.eqb c "!" then GClass true (class_items 0 rest)
      else GClass false (class_items 0 stuff)
  | EmptyString => GClass false []
  end.

Definition compress_star (ts : list glob_token) : list glob_token :=
  match ts with
  | GStar :: _ => ts
  | _ => GStar :: ts
  end.

(** [fnmatch.translate]: [skip] counts characters already consumed by
    a bracket expression. *)
Fixpoint translate_from (skip : nat) (pat : string) : list glob_token :=
  match pat with
  | EmptyString => []
  | String c rest =>
      match skip with
      | S k => translate_from k rest
      | O =>
          if Ascii.eqb c "*" then compress_star (translate_from 0 rest)
          else if Ascii.eqb c "?" then GAny :: translate_from 0 rest
          else if Ascii.eqb c "[" then
            match bracket_end rest with
            | None => GLit "[" :: translate_from 0 rest
            | Some j =>
                parse_class (substring 0 j rest) :: translate_from (S j) rest
            end
          else GLit c :: translate_from 0 rest
      end
  end.

Definition translate (pat : string) : list glob_token := translate_from 0 pat.

Definition in_class (items : list (ascii * ascii)) (c : ascii) : bool :=
  existsb (fun '(lo, hi) => ascii_le lo c && ascii_le c hi) items.

Definition token_accepts (t : glob_token) (c : ascii) : bool :=
  match t with
  | GStar => true
  | GAny => true
  | GClass negated items => xorb negated (in_class items c)
  | GLit a => Ascii.eqb a c
  end.

Fixpoint match_tokens (ts : list glob_token) : string -> bool :=
  match ts with
  | [] => fun s => match s with EmptyString => true | _ => false end
  | GStar :: ts' =>
      fix star (s : string) : bool :=
        match_tokens ts' s ||
        match s with
        | EmptyString => false
        | String _ s' => star s'
        end
  | t :: ts' =>
      fun s =>
        match s with
        | EmptyString => false
        | String c s' => token_accepts t c && match_tokens ts' s'
        end
  end.

(** [fnmatch.fnmatch(name, pat)]. *)
Definition fnmatch (name pat : string) : bool :=
  match_tokens (translate pat) name.

(** *** The frame, as far as field selection looks at it *)
Record Frame : Type := {
  frame_columns : list string;   (* [df.columns] *)
  frame_rows : nat               (* [len(df)] *)
}.

(** [df.empty]: some axis has length zero. *)
Definition frame_empty (df : Frame) : bool :=
  match frame_columns df, frame_rows df with
  | [], _ => true
  | _, O => true
  | _, _ => false
  end.

Definition str_le (a b : string) : Prop := String.leb a b = true.

#[global] Instance str_le_dec (a b : string) : Decision (str_le a b).
Proof. unfold str_le. apply _. Defined.

(** The columns that one pass of the [for exclude_pattern] loop adds
    to [excluded_columns]. *)
Definition excluded_by (all_df_columns : gset string)
    (exclude_pattern : string) : gset string :=
  if decide (exclude_pattern ∈ all_df_columns) then {[ exclude_pattern ]}
  else if PyStr.has_char "*" exclude_pattern then
    filter (fun col => fnmatch col exclude_pattern = true) all_df_columns
  else ∅.

(** [_get_all_available_fields], with
    [self.field_config.get('exclude_columns', [])] explicit. [None] is
    Python's [None]. *)
Definition _get_all_available_fields (exclude_columns : list string)
    (df : option Frame) : outcome (list string) :=
  match df with
  | None => Raised ValueError
  | Some df =>
      if frame_empty df then Raised ValueError
      else
        let all_df_columns : gset string := list_to_set (frame_columns df) in
        let exclude_columns_from_config : gset string :=
          list_to_set exclude_columns in
        let excluded_columns : gset string :=
          set_bind (excluded_by all_df_columns) exclude_columns_from_config in
        Returned (merge_sort str_le
                    (elements (all_df_columns ∖ excluded_columns)))
  end.

(** The exclusion rule in the words of the specification: a column is
    excluded when some entry of the exclude list equals it, or is a
    [*]-pattern that matches it. *)
Definition spec_excluded (exclude_columns : list string) (col : string) : Prop :=
  exists entry, entry ∈ exclude_columns /\
    (entry = col \/
     (PyStr.has_char "*" entry = true /\ fnmatch col entry = true)).

(** The exclusion rule of the loop: an entry that is itself a column
    name excludes that column only; any other entry excludes what it
    matches as a [*]-pattern. *)
Definition loop_excluded (df_columns exclude_columns : list string)
    (col : string) : Prop :=
  exists entry, entry ∈ exclude_columns /\
    (entry = col \/
     ((entry ∉ df_columns) /\
      PyStr.has_char "*" entry = true /\ fnmatch col entry = true)).

(** The built-in exclude list of [_load_field_config]. *)
Definition default_exclude_columns : list string :=
  [ "ROW_ID"; "REPORT_DATE"; "DATA_DATE"; "SOURCE_SYSTEM"; "IS_TEST_DATA";
    "CREATED_BY"; "CREATED_AT"; "UPDATED_BY"; "UPDATED_AT"; "DELETED_AT";
    "IS_DELETED"; "VERSION" ].

End SchemaReference.

(** ** agents/schema_discovery.py *)

Module SchemaDiscovery.

(** [@dataclass FieldMetadata]. *)
Record FieldMetadata : Type := {
  name : string;
  data_type : string;
  business_purpose : string;
  importance_tier : Z;
  completeness : pyfloat;
  unique_values : nat;
  sample_values : list string;
  business_rules : list string;
  relationships : list string
}.

(** *** What [pd.read_csv] hands to the agent

    A column has a dtype class and its cells; a cell is [None] when it
    is null and otherwise carries the value as [astype(str)] renders
    it. [is_numeric_dtype] holds of integer, float and boolean
    columns. *)
Inductive dtype : Type := DNumeric | DDatetime | DObject.

Record Column : Type := {
  col_name : string;
  col_dtype : dtype;
  col_cells : list (option string)
}.

Record CsvFrame : Type := {
  csv_columns : list Column;    (* [df.columns], in order *)
  csv_rows : nat                (* [len(df)] *)
}.

Inductive log_record : Type :=
| LogAnalyzing (file_path : string) (rows columns : nat)
| LogCouldNotAnalyze (file_path : string) (e : exn).

(** A [dict] whose iteration order is observable: keys are unique and
    kept in insertion order. *)
Definition dict_has {V} (d : list (string * V)) (k : string) : bool :=
  existsb (fun kv => String.eqb (fst kv) k) d.

Definition non_null (cells : list (option string)) : list string :=
  omap id cells.

(** [df[column].isnull().sum()]. *)
Definition isnull_sum (cells : list (option string)) : nat :=
  length (filter (fun c => c = None) cells).

(** [df[column].nunique()]. *)
Definition nunique (cells : list (option string)) : nat :=
  length (remove_dups (non_null cells)).

(** The body of the [if column not in discovered_fields] branch. *)
Definition analyze_column (df : CsvFrame) (column : Column) : FieldMetadata :=
  let completeness :=
    Float.sub (Fin 1)
      (Float.div (Float.of_nat (isnull_sum (col_cells column)))
                 (Float.of_nat (csv_rows df))) in
  let unique_values := nunique (col_cells column) in
  let sample_values := take 5 (non_null (col_cells column)) in
  let data_type :=
    match col_dtype column with
    | DNumeric => "numeric"
    | DDatetime => "datetime"
    | DObject =>
        (* unique_values < len(df) * 0.5 *)
        if (2 * unique_values <? csv_rows df)%nat then "categorical"
        else "text"
    end in
  {| name := col_name column;
     data_type := data_type;
     business_purpose := "";
     importance_tier := 3;
     completeness := completeness;
     unique_values := unique_values;
     sample_values := sample_values;
     business_rules := [];
     relationships := [] |}.

(** The [for column in df.columns] loop. *)
Definition analyze_frame (df : CsvFrame)
    (discovered_fields : list (string * FieldMetadata))
    : list (string * FieldMetadata) :=
  foldl (fun discovered column =>
           if dict_has discovered (col_name column) then discovered
           else discovered ++ [(col_name column, analyze_column df column)])
        discovered_fields (csv_columns df).

(** One pass of the [for file_path in data_paths] loop: the [try]
    block, whose only raising statement is the read, and its
    [except Exception] handler. *)
Definition analyze_path (read_csv : string -> outcome CsvFrame)
    (state : list (string * FieldMetadata) * list log_record)
    (file_path : string)
    : list (string * FieldMetadata) * list log_record :=
  let '(discovered_fields, log) := state in
  match read_csv file_path with
  | Returned df =>
      (analyze_frame df discovered_fields,
       log ++ [LogAnalyzing file_path (csv_rows df)
                 (length (csv_columns df))])
  | Raised e =>
      (discovered_fields, log ++ [LogCouldNotAnalyze file_path e])
  end.

(** [_discover_fresh_schema]: the discovered fields and the log
    records written on the way. *)
Definition _discover_fresh_schema (read_csv : string -> outcome CsvFrame)
    (data_paths : list string)
    : outcome (list (string * FieldMetadata) * list log_record) :=
  Returned (foldl (analyze_path read_csv) ([], []) data_paths).

(** *** The knowledge base ([config/field_metadata.yaml]) *)

(** One entry of a section of the configuration, with the keys the
    agent reads. The merge, the learning step and the confidence score
    are modelled on sections that are mappings of such entries; what
    the agent does with a document of another shape is modelled with
    [discover_schema]. *)
Record config_field : Type := {
  cf_purpose : option string;
  cf_tier : option Z;
  cf_business_rules : option (list string);
  cf_relationships : option (list string);
  cf_completeness : option pyfloat
}.

(** The loaded document: the [field_definitions] section read by the
    merge, the [fields] section read by the learning step and the
    confidence score, and the names of its other top-level keys. *)
Record config_knowledge : Type := {
  field_definitions : option (gmap string config_field);
  fields : option (gmap string config_field);
  other_sections : list string
}.

(** [{}], returned when no configuration file is found. *)
Definition no_config : config_knowledge :=
  {| field_definitions := None; fields := None; other_sections := [] |}.

(** *** Merge: objects are shared between the two dicts

    [discovered_fields.copy()] is a shallow copy, so the merge mutates
    the very [FieldMetadata] objects that [discovered_fields] holds.
    The objects live in a store and both dicts map names to
    references into it. *)
Abbreviation store := (list FieldMetadata).
Abbreviation pydict := (list (string * nat)).

(** The four attribute assignments of the merge loop. *)
Definition enrich (config_field : config_field) (field_metadata : FieldMetadata)
    : FieldMetadata :=
  {| name := name field_metadata;
     data_type := data_type field_metadata;
     business_purpose :=
       default (business_purpose field_metadata) (cf_purpose config_field);
     importance_tier :=
       default (importance_tier field_metadata) (cf_tier config_field);
     completeness := completeness field_metadata;
     unique_values := unique_values field_metadata;
     sample_values := sample_values field_metadata;
     business_rules :=
       default (business_rules field_metadata) (cf_business_rules config_field);
     relationships :=
       default (relationships field_metadata) (cf_relationships config_field) |}.

Definition merge_step (config_fields : gmap string config_field)
    (st : store) (item : string * nat) : store :=
  let '(field_name, ref) := item in
  match config_fields !! field_name, st !! ref with
  | Some config_field, Some field_metadata =>
      <[ ref := enrich config_field field_metadata ]> st
  | _, _ => st
  end.

(** [_merge_discovery_with_config]: the returned dict and the store
    after the in-place updates. *)
Definition _merge_discovery_with_config (discovered_fields : pydict)
    (config_knowledge : config_knowledge) (st : store) : pydict * store :=
  let enriched_fields := discovered_fields in
  let config_fields := default ∅ (field_definitions config_knowledge) in
  (enriched_fields, foldl (merge_step config_fields) st enriched_fields).

(** [d.items()] with the references followed. *)
Definition items (st : store) (d : pydict) : list (string * FieldMetadata) :=
  omap (fun '(k, ref) => pair k <$> st !! ref) d.

(** Allocation of freshly built objects. *)
Definition alloc (fresh : list (string * FieldMetadata)) : pydict * store :=
  (imap (fun i kv => (fst kv, i)) fresh, map snd fresh).

(** [_assess_data_quality]. *)
Definition _assess_data_quality (field_metadata : list (string * FieldMetadata))
    : pyfloat :=
  match field_metadata with
  | [] => Fin 0
  | _ =>
      let completeness_scores := map (fun kv => completeness (snd kv)) field_metadata in
      let avg_completeness :=
        Float.div (Float.py_sum completeness_scores)
                  (Float.of_nat (length completeness_scores)) in
      let context_coverage :=
        Float.div
          (Float.of_nat (length (filter
             (fun kv => business_purpose (snd kv) <> "") field_metadata)))
          (Float.of_nat (length field_metadata)) in
      let quality_score :=
        Float.add (Float.mul avg_completeness (Fin 0.7))
                  (Float.mul context_coverage (Fin 0.3)) in
      Float.py_min quality_score (Fin 1)
  end.

(** Entries of the learning-insight lists. *)
Record new_field : Type := {
  nf_field_name : string;
  nf_data_type : string;
  nf_completeness : pyfloat;
  nf_unique_values : nat;
  nf_sample_values : list string
}.

Record updated_statistic : Type := {
  us_field_name : string;
  us_old_completeness : pyfloat;
  us_new_completeness : pyfloat
}.

Record learning_insights : Type := {
  new_fields : list new_field;
  updated_statistics : list updated_statistic;
  potential_relationships : list string;
  data_quality_insights : list string
}.

(** [config_field.get('completeness', 1.0)]. *)
Definition stored_completeness (config_field : config_field) : pyfloat :=
  default (Fin 1) (cf_completeness config_field).

(** [abs(fresh - stored) > 0.1] on doubles: the difference is rounded
    before it is compared with the double nearest to 0.1. *)
Definition differs_by_more_than_a_tenth (fresh stored : pyfloat) : bool :=
  Double.gt
    (Double.abs (Double.sub (Double.of_float fresh) (Double.of_float stored)))
    (Double.of_float (Fin 0.1)).

(** The test of the [else] branch:
    [abs(field_metadata.completeness - config_field.get('completeness', 1.0)) > 0.1]. *)
Definition completeness_changed (field_metadata : FieldMetadata)
    (config_field : config_field) : bool :=
  differs_by_more_than_a_tenth (completeness field_metadata)
                               (stored_completeness config_field).

Definition learning_step (config_fields : gmap string config_field)
    (acc : learning_insights) (item : string * FieldMetadata)
    : learning_insights :=
  let '(field_name, field_metadata) := item in
  match config_fields !! field_name with
  | None =>
      {| new_fields := new_fields acc ++
           [ {| nf_field_name := field_name;
                nf_data_type := data_type field_metadata;
                nf_completeness := completeness field_metadata;
                nf_unique_values := unique_values field_metadata;
                nf_sample_values := sample_values field_metadata |} ];
         updated_statistics := updated_statistics acc;
         potential_relationships := potential_relationships acc;
         data_quality_insights := data_quality_insights acc |}
  | Some config_field =>
      if completeness_changed field_metadata config_field then
        {| new_fields := new_fields acc;
           updated_statistics := updated_statistics acc ++
             [ {| us_field_name := field_name;
                  us_old_completeness := stored_completeness config_field;
                  us_new_completeness := completeness field_metadata |} ];
           potential_relationships := potential_relationships acc;
           data_quality_insights := data_quality_insights acc |}
      else acc
  end.

(** [_identify_config_learning_opportunities]. *)
Definition _identify_config_learning_opportunities
    (discovered_fields : list (string * FieldMetadata))
    (config_knowledge : config_knowledge) : learning_insights :=
  let config_fields := default ∅ (fields config_knowledge) in
  foldl (learning_step config_fields)
    {| new_fields := []; updated_statistics := [];
       potential_relationships := []; data_quality_insights := [] |}
    discovered_fields.

(** [_calculate_discovery_confidence]. *)
Definition _calculate_discovery_confidence
    (discovered_fields : list (string * FieldMetadata))
    (config_knowledge : config_knowledge) : pyfloat :=
  match discovered_fields with
  | [] => Fin 0
  | _ =>
      let avg_completeness :=
        Float.div
          (Float.py_sum (map (fun kv => completeness (snd kv)) discovered_fields))
          (Float.of_nat (length discovered_fields)) in
      let config_fields := default ∅ (fields config_knowledge) in
      let enriched_count :=
        length (filter (fun kv => is_Some (config_fields !! fst kv))
                       discovered_fields) in
      let enrichment_ratio :=
        Float.div (Float.of_nat enriched_count)
                  (Float.of_nat (length discovered_fields)) in
      let confidence :=
        Float.add (Float.mul avg_completeness (Fin 0.6))
                  (Float.mul enrichment_ratio (Fin 0.4)) in
      Float.py_min confidence (Fin 0.95)
  end.

(** The discovery loop in closed form: the fields depend on the
    readable sources only, and every path leaves one log record. *)
Definition fields_after (read_csv : string -> outcome CsvFrame)
    (data_paths : list string) (discovered_fields : list (string * FieldMetadata))
    : list (string * FieldMetadata) :=
  foldl (fun discovered file_path =>
           match read_csv file_path with
           | Returned df => analyze_frame df discovered
           | Raised _ => discovered
           end) discovered_fields data_paths.

Definition log_record_of (read_csv : string -> outcome CsvFrame)
    (file_path : string) : log_record :=
  match read_csv file_path with
  | Returned df =>
      LogAnalyzing file_path (csv_rows df) (length (csv_columns df))
  | Raised e => LogCouldNotAnalyze file_path e
  end.

(** The learning loop in closed form: what one discovered field
    contributes to each list. *)
Definition as_new_field (config_fields : gmap string config_field)
    (item : string * FieldMetadata) : option new_field :=
  match config_fields !! fst item with
  | None =>
      Some {| nf_field_name := fst item;
              nf_data_type := data_type (snd item);
              nf_completeness := completeness (snd item);
              nf_unique_values := unique_values (snd item);
              nf_sample_values := sample_values (snd item) |}
  | Some _ => None
  end.

Definition as_updated_statistic (config_fields : gmap string config_field)
    (item : string * FieldMetadata) : option updated_statistic :=
  match config_fields !! fst item with
  | Some config_field =>
      if completeness_changed (snd item) config_field then
        Some {| us_field_name := fst item;
                us_old_completeness := stored_completeness config_field;
                us_new_completeness := completeness (snd item) |}
      else None
  | None => None
  end.



(** The statistics of a field: what discovery measures on the data. *)
Definition statistics (f : FieldMetadata)
    : string * string * pyfloat * nat * list string :=
  (name f, data_type f, completeness f, unique_values f, sample_values f).

(** The invariant of the data model: a completeness is a fraction. *)
Definition unit_completeness (kv : string * FieldMetadata) : Prop :=
  Float.within 0 1 (completeness (snd kv)).

(** The confidence formula in the words of the specification: the
    mean completeness and the fraction of fields that the knowledge
    base knows, as rationals. *)
Definition to_Q (x : pyfloat) : Q :=
  match x with Fin q => q | _ => 0%Q end.

Definition count_Q (n : nat) : Q := inject_Z (Z.of_nat n).

Definition mean_completeness (discovered_fields : list (string * FieldMetadata)) : Q :=
  (fold_right Qplus 0 (map (fun kv => to_Q (completeness (snd kv))) discovered_fields)
   / count_Q (length discovered_fields))%Q.


(** [@dataclass SchemaDiscoveryOutput], without its timestamp. *)
Record SchemaDiscoveryOutput : Type := {
  data_sources : list string;
  total_fields : nat;
  field_metadata : list (string * FieldMetadata);
  data_quality_score : pyfloat;
  business_context_available : bool;
  recommended_next_stage : string;
  confidence_score : pyfloat
}.

End SchemaDiscovery.

(** ** agents/data_filter.py *)

Module DataFilter.

(** *** Frames and series

    A frame is its row labels and its columns, each column holding one
    cell per row. Row labels are unique, so assigning a series built
    on [data.index] to a column is positional. *)
Record DataFrame : Type := {
  index : list nat;
  columns : list (string * list pyfloat)
}.

(** [len(df)]. *)
Definition len (df : DataFrame) : nat := length (index df).

(** [df[name]] when [name in df.columns]. *)
Definition column (name : string) (df : DataFrame) : option (list pyfloat) :=
  snd <$> List.find (fun kv => String.eqb (fst kv) name) (columns df).

Definition keep_masked {A} (mask : list bool) (l : list A) : list A :=
  map snd (filter (fun bx => fst bx = true) (zip mask l)).

(** [df[mask]] for a boolean series [mask]. *)
Definition select_rows (mask : list bool) (df : DataFrame) : DataFrame :=
  {| index := keep_masked mask (index df);
     columns := map (fun kv => (fst kv, keep_masked mask (snd kv))) (columns df) |}.

(** [df[name] = values]: replaces the column in place when it exists,
    appends it otherwise. *)
Definition set_column (name : string) (values : list pyfloat) (df : DataFrame)
    : DataFrame :=
  {| index := index df;
     columns :=
       if existsb (fun kv => String.eqb (fst kv) name) (columns df)
       then map (fun kv => if String.eqb (fst kv) name then (name, values) else kv)
                (columns df)
       else columns df ++ [(name, values)] |}.

(** [df.drop(columns=names)] for names that are all present. *)
Definition drop_columns (names : list string) (df : DataFrame) : DataFrame :=
  {| index := index df;
     columns := filter (fun kv => negb (existsb (String.eqb (fst kv)) names) = true)
                       (columns df) |}.

Definition pick {A} (positions : list nat) (l : list A) : list A :=
  omap (fun i => l !! i) positions.

(** [df.take(positions)]. *)
Definition take_rows (positions : list nat) (df : DataFrame) : DataFrame :=
  {| index := pick positions (index df);
     columns := map (fun kv => (fst kv, pick positions (snd kv))) (columns df) |}.

Definition drop_nan (col : list pyfloat) : list pyfloat :=
  filter (fun v => Float.is_nan v = false) col.

(** [Series.min()] and [Series.max()]: nulls are skipped, and the
    result is null when nothing is left. *)
Definition series_min (col : list pyfloat) : pyfloat :=
  match drop_nan col with
  | [] => NaN
  | x :: xs => foldl (fun m v => if Float.lt v m then v else m) x xs
  end.

Definition series_max (col : list pyfloat) : pyfloat :=
  match drop_nan col with
  | [] => NaN
  | x :: xs => foldl (fun m v => if Float.lt m v then v else m) x xs
  end.

(** [x] ranks strictly before [y] in descending order, nulls last. *)
Definition ranks_before (x y : pyfloat) : bool :=
  match x, y with
  | NaN, _ => false
  | _, NaN => true
  | _, _ => Float.gt x y
  end.

Fixpoint insert_ranked (p : nat * pyfloat) (sorted : list (nat * pyfloat))
    : list (nat * pyfloat) :=
  match sorted with
  | [] => [p]
  | q :: rest =>
      if ranks_before (snd q) (snd p) then q :: insert_ranked p rest
      else p :: q :: rest
  end.

(** Row positions by descending score; equal scores keep their
    original order. *)
Definition rank_desc (scores : list pyfloat) : list nat :=
  map fst (foldr insert_ranked [] (imap (fun i v => (i, v)) scores)).

(** [df.nlargest(n, name)] with the default [keep='first']: the first
    [n] rows in descending order of the column, the first occurrences
    winning among equal values. *)
Definition nlargest (n : Z) (name : string) (df : DataFrame) : outcome DataFrame :=
  match column name df with
  | None => Raised KeyError
  | Some scores => Returned (take_rows (take (Z.to_nat n) (rank_desc scores)) df)
  end.

(** *** Configuration and criteria *)

(** The dict returned by [_load_config], with the keys the agent
    reads. *)
Record agent_config : Type := {
  max_rows : Z;
  selection_weights : gmap string Q;
  min_priority_score : pyfloat;
  min_sales_volume : pyfloat
}.

Definition _load_config : agent_config :=
  {| max_rows := 25;
     selection_weights :=
       <["representative" := 0.4%Q]>
       (<["priority_score" := 0.4%Q]>
       (<["sales_volume" := 0.2%Q]> ∅));
     min_priority_score := Fin 100;
     min_sales_volume := Fin 500 |}.

(** The [filtering_criteria] dict, with the keys the agent looks up;
    [None] is an absent key. *)
Record criteria : Type := {
  c_max_rows : option Z;
  c_selection_weights : option (gmap string Q);
  c_min_priority_score : option pyfloat;
  c_min_sales_volume : option pyfloat
}.

(** [{}]. *)
Definition empty_criteria : criteria :=
  {| c_max_rows := None; c_selection_weights := None;
     c_min_priority_score := None; c_min_sales_volume := None |}.

(** *** The random number generator

    The state of numpy's global generator is the stream of its
    upcoming draws, each in [0, 1). *)
Definition rng := nat -> Q.

(** [np.random.random(n)]. *)
Definition np_random_random (n : nat) (g : rng) : list pyfloat * rng :=
  (map (fun i => Fin (g i)) (seq 0 n), fun i => g (n + i)%nat).

(** *** The agent *)
Section Agent.

(** [self.config]. *)
Variable config : agent_config.

Definition threshold_rows (name : string) (minimum : pyfloat) (df : DataFrame)
    : DataFrame :=
  match column name df with
  | Some col => select_rows (map (fun v => Float.ge v minimum) col) df
  | None => df
  end.

(** [_apply_basic_filters]. *)
Definition _apply_basic_filters (data : DataFrame) (criteria : criteria)
    : DataFrame :=
  let filtered_data := data in
  let min_priority :=
    default (min_priority_score config) (c_min_priority_score criteria) in
  let min_volume :=
    default (min_sales_volume config) (c_min_sales_volume criteria) in
  let filtered_data := threshold_rows "priority_score" min_priority filtered_data in
  let filtered_data := threshold_rows "sales_volume" min_volume filtered_data in
  filtered_data.

(** [_calculate_representative_score]. *)
Definition _calculate_representative_score (data : DataFrame) (g : rng)
    : list pyfloat * rng :=
  np_random_random (len data) g.

(** [(col - col.min()) / (col.max() - col.min())], in exact
    arithmetic: the code's result up to rounding, as long as neither
    difference overflows (a column of doubles) or wraps around (a
    column of 64-bit integers). *)
Definition min_max (col : list pyfloat) : list pyfloat :=
  let lo := series_min col in
  let hi := series_max col in
  map (fun v => Float.div (Float.sub v lo) (Float.sub hi lo)) col.

(** [_normalize_priority_score]. *)
Definition _normalize_priority_score (data : DataFrame) : list pyfloat :=
  match column "priority_score" data with
  | Some priority_col => min_max priority_col
  | None => repeat (Fin 0.5) (len data)
  end.

(** [_normalize_volume_score]. *)
Definition _normalize_volume_score (data : DataFrame) : list pyfloat :=
  match column "sales_volume" data with
  | Some volume_col => min_max volume_col
  | None => repeat (Fin 0.5) (len data)
  end.

(** [weights[key]]. *)
Definition weight (weights : gmap string Q) (key : string) : outcome pyfloat :=
  match weights !! key with
  | Some w => Returned (Fin w)
  | None => Raised KeyError
  end.

Definition scale (w : pyfloat) (col : list pyfloat) : list pyfloat :=
  map (Float.mul w) col.

Definition add_series (a b : list pyfloat) : list pyfloat :=
  zip_with Float.add a b.

(** [_calculate_selection_scores]. *)
Definition _calculate_selection_scores (data : DataFrame) (criteria : criteria)
    (g : rng) : outcome DataFrame * rng :=
  let scored_data := data in
  let weights :=
    default (selection_weights config) (c_selection_weights criteria) in
  let '(representative_score, g) := _calculate_representative_score data g in
  let scored_data := set_column "representative_score" representative_score scored_data in
  let scored_data :=
    set_column "priority_score_norm" (_normalize_priority_score data) scored_data in
  let scored_data :=
    set_column "volume_score_norm" (_normalize_volume_score data) scored_data in
  let get name := default [] (column name scored_data) in
  (do! w_rep <- weight weights "representative";
   do! w_pri <- weight weights "priority_score";
   do! w_vol <- weight weights "sales_volume";
   Returned
     (set_column "selection_score"
        (add_series
           (add_series (scale w_rep (get "representative_score"))
                       (scale w_pri (get "priority_score_norm")))
           (scale w_vol (get "volume_score_norm")))
        scored_data),
   g).

Definition score_columns : list string :=
  [ "representative_score"; "priority_score_norm"; "volume_score_norm";
    "selection_score" ].

(** [_select_representative_subset]. *)
Definition _select_representative_subset (scored_data : DataFrame)
    (criteria : criteria) : outcome DataFrame :=
  let max_rows := default (max_rows config) (c_max_rows criteria) in
  do! selected_data <- nlargest max_rows "selection_score" scored_data;
  Returned (drop_columns score_columns selected_data).

(** The rationale dict; the formatted ratio is kept as its two
    counts and their quotient. *)
Record rationale : Type := {
  selection_method : string;
  reduction_ratio : nat * nat * Q;
  key_factors : string;
  quality_assurance : string
}.

(** [_generate_selection_rationale]: the quotient is a division of
    Python integers. *)
Definition _generate_selection_rationale (selected_data : DataFrame)
    (original_count : nat) : outcome rationale :=
  match original_count with
  | O => Raised ZeroDivisionError
  | _ =>
      Returned
        {| selection_method :=
             "Weighted scoring based on representativeness, priority, and volume";
           reduction_ratio :=
             (len selected_data, original_count,
              (inject_Z (Z.of_nat (len selected_data))
               / inject_Z (Z.of_nat original_count))%Q);
           key_factors :=
             "Geographic diversity, performance variance, business priority";
           quality_assurance := "Minimum thresholds applied for data quality" |}
  end.

Definition _calculate_coverage_score (filtered_data original_data : DataFrame)
    : pyfloat := Fin 0.85.

Definition _calculate_efficiency_score (filtered_data : DataFrame)
    (criteria : criteria) : pyfloat := Fin 0.90.

(** [@dataclass DataFilterOutput], without its timestamp. *)
Record DataFilterOutput : Type := {
  original_row_count : nat;
  filtered_row_count : nat;
  selection_criteria : criteria;
  filtered_data : DataFrame;
  selection_rationale : rationale;
  data_coverage_score : pyfloat;
  efficiency_score : pyfloat;
  recommended_next_stage : string
}.

(** [filter_data]; [filtering_criteria] is
    [question_analysis.get("filtering_criteria", {})]. *)
Definition filter_data (data : DataFrame) (filtering_criteria : option criteria)
    (g : rng) : outcome DataFilterOutput * rng :=
  let original_count := len data in
  let filtering_criteria := default empty_criteria filtering_criteria in
  let filtered_data := _apply_basic_filters data filtering_criteria in
  let '(scored, g) := _calculate_selection_scores filtered_data filtering_criteria g in
  (do! scored_data <- scored;
   do! final_data <- _select_representative_subset scored_data filtering_criteria;
   do! rationale <- _generate_selection_rationale final_data original_count;
   let coverage_score := _calculate_coverage_score final_data data in
   let efficiency_score := _calculate_efficiency_score final_data filtering_criteria in
   Returned
     {| original_row_count := original_count;
        filtered_row_count := len final_data;
        selection_criteria := filtering_criteria;
        filtered_data := final_data;
        selection_rationale := rationale;
        data_coverage_score := coverage_score;
        efficiency_score := efficiency_score;
        recommended_next_stage := "output_generation" |},
   g).

End Agent.

End DataFilter.

(** ** Further string operations *)

Module PyStrExt.

(** [c.upper()] for one ASCII character. *)
Definition upper_ascii (c : ascii) : ascii :=
  let n := nat_of_ascii c in
  if (97 <=? n)%nat && (n <=? 122)%nat then ascii_of_nat (n - 32) else c.

(** [s.upper()]. *)
Fixpoint upper (s : string) : string :=
  match s with
  | EmptyString => EmptyString
  | String c s' => String (upper_ascii c) (upper s')
  end.

(** [c] is one of [A] ... [Z]. *)
Definition is_upper_ascii (c : ascii) : bool :=
  let n := nat_of_ascii c in (65 <=? n)%nat && (n <=? 90)%nat.

(** Some character of [s] is an upper-case letter. *)
Fixpoint has_upper (s : string) : bool :=
  match s with
  | EmptyString => false
  | String c s' => is_upper_ascii c || has_upper s'
  end.

(** [s.replace(a, b)] for single characters [a] and [b]. *)
Fixpoint replace_char (a b : ascii) (s : string) : string :=
  match s with
  | EmptyString => EmptyString
  | String c s' =>
      String (if Ascii.eqb c a then b else c) (replace_char a b s')
  end.

(** [s[n:]]. *)
Fixpoint drop_chars (n : nat) (s : string) : string :=
  match n, s with
  | O, _ => s
  | S _, EmptyString => EmptyString
  | S k, String _ s' => drop_chars k s'
  end.

(** [any(x in s for x in xs)]. *)
Definition any_in (s : string) (xs : list string) : bool :=
  existsb (fun x => PyStr.contains s x) xs.

End PyStrExt.

(** ** enhanced_guidance_reference_file__schema.py: field helpers *)

Module SchemaReferenceFields.
Import PyStrExt.

(** [_map_pandas_dtype_to_json_type]; [dtype] is [str(dtype)]. *)
Definition _map_pandas_dtype_to_json_type (dtype : string) : string :=
  let dtype := PyStr.lower dtype in
  if PyStr.contains dtype "int" || PyStr.contains dtype "float" then "number"
  else if PyStr.contains dtype "bool" then "boolean"
  else if PyStr.contains dtype "datetime" || PyStr.contains dtype "timestamp"
  then "datetime"
  else "string".

Definition numeric_keywords : list string :=
  [ "SALES"; "PRICE"; "SCORE"; "PCT"; "RANK"; "COUNT"; "QTY" ].

(** [_get_field_type_fallback]. *)
Definition _get_field_type_fallback (field_name : string) : string :=
  let field_name := upper field_name in
  if any_in field_name numeric_keywords then "number"
  else if PyStr.startswith "IS_" field_name then "boolean"
  else if PyStr.contains field_name "DATE" || PyStr.contains field_name "WEEK"
          || PyStr.contains field_name "TIME"
  then "datetime"
  else "string".

(** [_get_field_interpretation]. *)
Definition _get_field_interpretation (field_name : string) : string :=
  let field_name := upper field_name in
  if PyStr.contains field_name "SALES" then
    "Dollar value. Higher values indicate better sales performance."
  else if PyStr.contains field_name "WOW" || PyStr.contains field_name "PCT" then
    "Percentage change. Positive values indicate growth, negative values indicate decline."
  else if PyStr.contains field_name "PRIORITY" then
    "Priority score from 0-100. Higher values indicate more urgent attention needed."
  else if PyStr.contains field_name "SCORE" then
    "Confidence score from 0-100. Higher values indicate more confidence."
  else if PyStr.contains field_name "RANK" then
    "Ranking position. Lower values (closer to 1) indicate higher importance."
  else
    "Numeric value. Higher values generally indicate stronger performance.".

(** The pattern-based defaults of [_get_field_description], on the
    upper-cased name. *)
Definition description_fallback (field_name : string) : string :=
  if PyStr.contains field_name "SALES" then "Sales metric in dollars"
  else if PyStr.contains field_name "WOW" then "Week over week comparison"
  else if PyStr.contains field_name "PCT" then "Percentage metric"
  else if PyStr.contains field_name "RANK" then "Ranking position"
  else if PyStr.contains field_name "TOP" then "Top-performing item or category"
  else if PyStr.startswith "IS_" field_name then
    "Flag indicating if the location "
    ++ replace_char "_" " " (PyStr.lower (drop_chars 3 field_name))
  else "Metric related to " ++ replace_char "_" " " (PyStr.lower field_name).

(** [_get_field_description]; [field_descs] is
    [self.field_config.get('field_descriptions', {})], each entry
    reduced to its [description] key ([None] when the key is absent). *)
Definition _get_field_description (field_descs : gmap string (option string))
    (field_name : string) : string :=
  let field_name := upper field_name in
  let fallback := description_fallback field_name in
  match field_descs !! field_name with
  | Some entry =>
      let desc := default "" entry in
      if String.eqb desc "" then fallback else desc
  | None => fallback
  end.

End SchemaReferenceFields.

(** ** agents/question_analyzer.py: the analysis record *)

Module QuestionAnalysis.
Import QuestionAnalyzer.

(** The values that occur in a criteria dict. *)
Inductive pyvalue : Type :=
| VInt (z : Z)
| VFloat (x : pyfloat)
| VStr (s : string)
| VBool (b : bool)
| VWeights (w : gmap string Q).

(** [_identify_required_fields]. *)
Definition _identify_required_fields (question_type : QuestionType)
    : list string :=
  [ "location_name"; "sales_volume"; "priority_score"; "trend_indicators" ].

(** [_generate_filtering_criteria]: the dict literal, in source order. *)
Definition _generate_filtering_criteria (question_type : QuestionType)
    (approach : AnalyticalApproach) (question : string)
    : list (string * pyvalue) :=
  [ ("max_rows", VInt 25);
    ("selection_strategy", VStr "mixed");
    ("priority_weight", VFloat (Fin 0.4));
    ("representative_weight", VFloat (Fin 0.4));
    ("volume_weight", VFloat (Fin 0.2));
    ("geographic_diversity", VBool true);
    ("performance_variance", VBool true) ].

(** [_identify_business_context_needs]. *)
Definition _identify_business_context_needs (question_type : QuestionType)
    (approach : AnalyticalApproach) : list string :=
  [ "org_benchmarks"; "industry_standards"; "seasonal_patterns" ].

(** [_calculate_confidence]. *)
Definition _calculate_confidence (question_type : QuestionType)
    (approach : AnalyticalApproach) : pyfloat := Fin 0.85.

(** [@dataclass QuestionAnalysisOutput], without its timestamp. *)
Record QuestionAnalysisOutput : Type := {
  original_question : string;
  question_type : QuestionType;
  analytical_approach : AnalyticalApproach;
  confidence_score : pyfloat;
  required_fields : list string;
  filtering_criteria : list (string * pyvalue);
  expected_output_format : string;
  business_context_needed : list string;
  recommended_next_stage : string
}.

(** [analyze_question], with [self.question_patterns] explicit; the
    schema output is passed on to [_identify_required_fields], which
    does not read it. *)
Definition analyze_question (question_patterns : gmap string (list string))
    (question : string) : QuestionAnalysisOutput :=
  let question_type := _classify_question_type question_patterns question in
  let approach := _determine_analytical_approach question_type in
  let required_fields := _identify_required_fields question_type in
  let filtering_criteria :=
    _generate_filtering_criteria question_type approach question in
  let business_context := _identify_business_context_needs question_type approach in
  {| original_question := question;
     question_type := question_type;
     analytical_approach := approach;
     confidence_score := _calculate_confidence question_type approach;
     required_fields := required_fields;
     filtering_criteria := filtering_criteria;
     expected_output_format := "structured_recommendations";
     business_context_needed := business_context;
     recommended_next_stage := "data_filtering" |}.

(** [d.get(key)] on a dict kept in insertion order. *)
Definition dict_get (d : list (string * pyvalue)) (key : string) : option pyvalue :=
  snd <$> List.find (fun kv => String.eqb (fst kv) key) d.

(** The four lookups of the data filter on a criteria dict, as the
    record the filter is modelled on. [None] when a key that is present
    holds a value of another type than the filter computes with. *)
Definition criteria_of_dict (d : list (string * pyvalue))
    : option DataFilter.criteria :=
  match dict_get d "max_rows" with
  | Some (VInt _) | None =>
    match dict_get d "selection_weights" with
    | Some (VWeights _) | None =>
      match dict_get d "min_priority_score" with
      | Some (VFloat _) | None =>
        match dict_get d "min_sales_volume" with
        | Some (VFloat _) | None =>
            Some
              {| DataFilter.c_max_rows :=
                   match dict_get d "max_rows" with
                   | Some (VInt z) => Some z | _ => None end;
                 DataFilter.c_selection_weights :=
                   match dict_get d "selection_weights" with
                   | Some (VWeights w) => Some w | _ => None end;
                 DataFilter.c_min_priority_score :=
                   match dict_get d "min_priority_score" with
                   | Some (VFloat x) => Some x | _ => None end;
                 DataFilter.c_min_sales_volume :=
                   match dict_get d "min_sales_volume" with
                   | Some (VFloat x) => Some x | _ => None end |}
        | _ => None
        end
      | _ => None
      end
    | _ => None
    end
  | _ => None
  end.

End QuestionAnalysis.

(** ** Well-formed frames and saved insights *)

Module Frames.
Import DataFilter.

(** Every column of a frame has one cell per row. *)
Definition wf_frame (df : DataFrame) : Prop :=
  Forall (fun kv => length (snd kv) = length (index df)) (columns df).

(** The row labels of a frame are distinct. *)
Definition unique_labels (df : DataFrame) : Prop := NoDup (index df).

(** The cell of column [name] in the row labelled [label]. *)
Definition cell (df : DataFrame) (name : string) (label : nat) : option pyfloat :=
  match column name df with
  | Some col => snd <$> List.find (fun lv => Nat.eqb (fst lv) label) (zip (index df) col)
  | None => None
  end.

(** The frame selected by a run of [filter_data], or the exception it
    raised. *)
Definition selected_frame (run : outcome DataFilterOutput * rng)
    : outcome DataFrame :=
  match fst run with
  | Returned output => Returned (filtered_data output)
  | Raised e => Raised e
  end.

(** The names of the columns of a frame, in order. *)
Definition column_names (df : DataFrame) : list string := map fst (columns df).

(** The weighted sum of the three component series, as
    [_calculate_selection_scores] writes it. *)
Definition composite (a b c : Q) (representative priority volume : list pyfloat)
    : list pyfloat :=
  add_series
    (add_series (scale (Fin a) representative) (scale (Fin b) priority))
    (scale (Fin c) volume).

(** [p] may stand before [q] in the ranking: the score of [q] does not
    beat the score of [p], and when neither beats the other [p] is the
    earlier row. *)
Definition ranked_before (p q : nat * pyfloat) : Prop :=
  ranks_before (snd q) (snd p) = false /\
  (ranks_before (snd p) (snd q) = true \/ (fst p < fst q)%nat).



(** Two ranked entries for the same row with scores equal as numbers. *)
Definition same_rank (p q : nat * pyfloat) : Prop :=
  fst p = fst q /\ Float.eqv (snd p) (snd q).

(** The first [n] draws of a generator state. *)
Definition draws (n : nat) (g : rng) : list pyfloat := fst (np_random_random n g).

End Frames.

Module SchemaDiscoverySave.
Import SchemaDiscovery.

(** The guard of [_save_learning_insights]: a file is written unless
    [any(learning_insights.values())] is false, that is unless all four
    lists are empty. *)
Definition insights_saved (insights : learning_insights) : bool :=
  negb (match new_fields insights with [] => true | _ => false end
        && match updated_statistics insights with [] => true | _ => false end
        && match potential_relationships insights with [] => true | _ => false end
        && match data_quality_insights insights with [] => true | _ => false end).

(** The fields that discovery builds carry their key as name and the
    defaults of an unenriched field. *)
Definition fresh_field (kv : string * FieldMetadata) : Prop :=
  name (snd kv) = fst kv /\ business_purpose (snd kv) = "" /\
  importance_tier (snd kv) = 3%Z /\
  business_rules (snd kv) = [] /\ relationships (snd kv) = [].

(** Every column of a frame has one cell per row. *)
Definition wf_csv (df : CsvFrame) : Prop :=
  Forall (fun c => length (col_cells c) = csv_rows df) (csv_columns df).

(** [df.columns]. *)
Definition csv_column_names (df : CsvFrame) : list string :=
  map col_name (csv_columns df).

(** A field after the merge: overlaid with its entry of the
    [field_definitions] section when there is one. *)
Definition with_knowledge (config_knowledge : config_knowledge)
    (kv : string * FieldMetadata) : string * FieldMetadata :=
  (fst kv,
   match default ∅ (field_definitions config_knowledge) !! fst kv with
   | Some config_field => enrich config_field (snd kv)
   | None => snd kv
   end).

(** The fraction of fields with a non-empty business purpose. *)
Definition purpose_fraction (field_metadata : list (string * FieldMetadata)) : Q :=
  (count_Q (length (filter (fun kv => business_purpose (snd kv) <> "")
                           field_metadata))
   / count_Q (length field_metadata))%Q.

End SchemaDiscoverySave.

(** ** agents/schema_discovery.py: the entry point

    [discover_schema] hands whatever [yaml.safe_load] returned to the
    merge, the learning step and the confidence score, and then writes
    the learning insights to a file. Neither the shape of the document
    nor the write is guarded, so this is where the agent can raise. *)

Module SchemaDiscoveryPipeline.
Import SchemaDiscovery SchemaDiscoverySave.

(** *** The document as loaded

    An entry of a section is a mapping or anything else (null, a
    scalar, a string, a sequence). A mapping is read with [.get]; its
    stored completeness is absent or a number, or it is null or a
    string, which cannot be subtracted from a float. (A stored
    completeness that is itself a sequence or a mapping is left out
    of the model.) *)
Inductive yaml_entry : Type :=
| EntryMapping (config_field : config_field)
| EntryTextCompleteness (config_field : config_field)
| EntryOther.

(** A section is a mapping from names to entries, a sequence (of
    which only the string items can equal a field name), a string, or
    a value that is no container: null, a number or a boolean. *)
Inductive yaml_section : Type :=
| SectionMapping (entries : gmap string yaml_entry)
| SectionSequence (items : list string)
| SectionString (text : string)
| SectionScalar.

(** A document whose top level is a mapping; [None] is an absent
    key. *)
Record yaml_document : Type := {
  doc_field_definitions : option yaml_section;
  doc_fields : option yaml_section;
  doc_other_sections : list string
}.

(** [{}]. *)
Definition empty_document : yaml_document :=
  {| doc_field_definitions := None; doc_fields := None;
     doc_other_sections := [] |}.

(** [_load_config_knowledge]. [config_file] is what [yaml.safe_load]
    returned, [None] when there is no file, when it cannot be parsed
    or when its top level is not a mapping (then [config.get] raises
    inside the [try] block). The log line takes [len(field_defs)]
    inside the same [try] block, so a [field_definitions] section
    without a length makes the agent fall back to [{}] as well. *)
Definition _load_config_knowledge (config_file : option yaml_document)
    : yaml_document :=
  match config_file with
  | None => empty_document
  | Some config =>
      match doc_field_definitions config with
      | Some SectionScalar => empty_document
      | _ => config
      end
  end.

(** [len(config_knowledge)]. *)
Definition document_len (document : yaml_document) : nat :=
  match doc_field_definitions document with Some _ => 1 | None => 0 end
  + match doc_fields document with Some _ => 1 | None => 0 end
  + length (doc_other_sections document).

(** What goes wrong when a loop looks [field_name] up in a section:
    [field_name in config_fields] raises [TypeError] on a value that
    is no container; [config_fields[field_name]] raises [TypeError] on
    a sequence or a string that contains the name; [config_field.get]
    raises [AttributeError] on an entry that is no mapping; and the
    learning step, which reads the stored completeness, raises
    [TypeError] when that is null or a string. *)
Definition lookup_error (reads_completeness : bool) (section : yaml_section)
    (field_name : string) : option exn :=
  match section with
  | SectionScalar => Some TypeError
  | SectionSequence items =>
      if bool_decide (field_name ∈ items) then Some TypeError else None
  | SectionString text =>
      if PyStr.contains text field_name then Some TypeError else None
  | SectionMapping entries =>
      match entries !! field_name with
      | None => None
      | Some (EntryMapping _) => None
      | Some (EntryTextCompleteness _) =>
          if reads_completeness then Some TypeError else None
      | Some EntryOther => Some AttributeError
      end
  end.

(** The exception that ends a loop over the discovered names, if
    any: that of the first name whose lookup goes wrong. *)
Definition section_error (reads_completeness : bool)
    (section : option yaml_section) (names : list string) : option exn :=
  match section with
  | None => None
  | Some section => head (omap (lookup_error reads_completeness section) names)
  end.

Definition raise_if_any (e : option exn) : outcome unit :=
  match e with
  | Some e => Raised e
  | None => Returned tt
  end.

(** The entries that a loop can read. *)
Definition readable_entry (reads_completeness : bool) (entry : yaml_entry)
    : option config_field :=
  match entry with
  | EntryMapping config_field => Some config_field
  | EntryTextCompleteness config_field =>
      if reads_completeness then None else Some config_field
  | EntryOther => None
  end.

Definition readable_entries (reads_completeness : bool)
    (section : option yaml_section) : gmap string config_field :=
  match section with
  | Some (SectionMapping entries) => omap (readable_entry reads_completeness) entries
  | _ => ∅
  end.

(** The document as the loops see it when no lookup goes wrong. *)
Definition knowledge (document : yaml_document) : config_knowledge :=
  {| field_definitions :=
       Some (readable_entries false (doc_field_definitions document));
     fields := Some (readable_entries true (doc_fields document));
     other_sections := doc_other_sections document |}.

(** A section is absent or a mapping of readable entries. *)
Definition well_formed (reads_completeness : bool)
    (section : option yaml_section) : Prop :=
  match section with
  | None => True
  | Some (SectionMapping entries) =>
      map_Forall (fun _ entry => is_Some (readable_entry reads_completeness entry))
                 entries
  | Some _ => False
  end.

(** [_save_learning_insights]: nothing is written when all four lists
    are empty; otherwise the directory is created and the file
    written, which raises [OSError] when the file system refuses
    ([writable] is false). *)
Definition _save_learning_insights (writable : bool) (insights : learning_insights)
    : outcome unit :=
  if insights_saved insights then
    if writable then Returned tt else Raised OSError
  else Returned tt.

(** [discover_schema]: the output, the insights handed to
    [_save_learning_insights], and the log. *)
Definition discover_schema (read_csv : string -> outcome CsvFrame)
    (config_file : option yaml_document) (writable : bool)
    (data_paths : list string)
    : outcome (SchemaDiscoveryOutput * learning_insights * list log_record) :=
  do! fresh <- _discover_fresh_schema read_csv data_paths;
  let '(discovered_fields, st0) := alloc (fst fresh) in
  let document := _load_config_knowledge config_file in
  let config_knowledge := knowledge document in
  do! _ <- raise_if_any
             (section_error false (doc_field_definitions document)
                (map fst discovered_fields));
  let '(enriched_metadata, st) :=
    _merge_discovery_with_config discovered_fields config_knowledge st0 in
  let quality_score := _assess_data_quality (items st enriched_metadata) in
  do! _ <- raise_if_any
             (section_error true (doc_fields document)
                (map fst discovered_fields));
  let insights :=
    _identify_config_learning_opportunities (items st discovered_fields)
      config_knowledge in
  let output :=
    {| data_sources := data_paths;
       total_fields := length enriched_metadata;
       field_metadata := items st enriched_metadata;
       data_quality_score := quality_score;
       business_context_available := (0 <? document_len document)%nat;
       recommended_next_stage := "question_analysis";
       confidence_score :=
         _calculate_discovery_confidence (items st discovered_fields)
           config_knowledge |} in
  do! _ <- _save_learning_insights writable insights;
  Returned (output, insights, snd fresh).

End SchemaDiscoveryPipeline.

(** ** Scenarios used by the examples *)

Module Scenarios.
Import SchemaDiscovery.

Definition sales_fresh : FieldMetadata :=
  {| name := "SALES"; data_type := "numeric"; business_purpose := "";
     importance_tier := 3; completeness := Fin 0.75; unique_values := 40;
     sample_values := ["10"; "20"]; business_rules := []; relationships := [] |}.

Definition sales_entry : config_field :=
  {| cf_purpose := Some "Weekly sales in dollars"; cf_tier := Some 1%Z;
     cf_business_rules := None; cf_relationships := Some ["REGION"];
     cf_completeness := Some (Fin 0.9) |}.

Definition sales_config : config_knowledge :=
  {| field_definitions := Some {[ "SALES" := sales_entry ]};
     fields := Some {[ "SALES" := sales_entry ]};
     other_sections := [] |}.

(** A freshly discovered [SALES] field with the given completeness. *)
Definition sales_with (c : Q) : FieldMetadata :=
  {| name := "SALES"; data_type := "numeric"; business_purpose := "";
     importance_tier := 3; completeness := Fin c; unique_values := 40;
     sample_values := ["10"; "20"]; business_rules := []; relationships := [] |}.


Definition stores_frame : CsvFrame :=
  {| csv_columns :=
       [ {| col_name := "STORE"; col_dtype := DObject;
            col_cells := [Some "A"; Some "B"; Some "A"; Some "C"] |};
         {| col_name := "SALES"; col_dtype := DNumeric;
            col_cells := [Some "10.0"; None; Some "30.0"; Some "10.0"] |} ];
     csv_rows := 4 |}.

(** A header line and no data rows. *)
Definition header_only_frame : CsvFrame :=
  {| csv_columns :=
       [ {| col_name := "STORE"; col_dtype := DObject; col_cells := [] |} ];
     csv_rows := 0 |}.

(** Only [stores.csv] exists. *)
Definition one_readable (file_path : string) : outcome CsvFrame :=
  if String.eqb file_path "stores.csv" then Returned stores_frame
  else Raised FileNotFoundError.

Import DataFilter.

(** Three stores that pass both default thresholds. *)
Definition three_stores : DataFrame :=
  {| index := [0; 1; 2]%nat;
     columns :=
       [ ("priority_score", [Fin 150; Fin 200; Fin 175]);
         ("sales_volume", [Fin 600; Fin 750; Fin 900]) ] |}.

(** Every store has the same priority score. *)
Definition constant_priority : DataFrame :=
  {| index := [0; 1; 2]%nat;
     columns := [ ("priority_score", [Fin 150; Fin 150; Fin 150]) ] |}.

(** A single store. *)
Definition single_store : DataFrame :=
  {| index := [0]%nat;
     columns :=
       [ ("priority_score", [Fin 150]); ("sales_volume", [Fin 600]) ] |}.

(** Criteria that ask for the single best row. *)
Definition top_one : criteria :=
  {| c_max_rows := Some 1%Z; c_selection_weights := None;
     c_min_priority_score := None; c_min_sales_volume := None |}.

(** Criteria whose three weights are all 1. *)
Definition unit_weights : criteria :=
  {| c_max_rows := None;
     c_selection_weights :=
       Some (<["representative" := 1%Q]>
             (<["priority_score" := 1%Q]>
             (<["sales_volume" := 1%Q]> ∅)));
     c_min_priority_score := None; c_min_sales_volume := None |}.

(** Criteria whose weights lack the key [sales_volume]. *)
Definition two_weights : criteria :=
  {| c_max_rows := None;
     c_selection_weights :=
       Some (<["representative" := 0.5%Q]> (<["priority_score" := 0.5%Q]> ∅));
     c_min_priority_score := None; c_min_sales_volume := None |}.

(** Two states of the generator: the draws 0.5, 0, 0.9 and the draws
    0.5, 0.9, 0, each followed by zeros. *)
Definition draws_first (i : nat) : Q :=
  match i with
  | 0%nat => 0.5
  | 1%nat => 0
  | 2%nat => 0.9
  | _ => 0
  end.

Definition draws_second (i : nat) : Q :=
  match i with
  | 0%nat => 0.5
  | 1%nat => 0.9
  | 2%nat => 0
  | _ => 0
  end.

(** The row labels of the selection, when [filter_data] returns. *)
Definition selected_index (run : outcome DataFilterOutput * rng)
    : option (list nat) :=
  match fst run with
  | Returned output => Some (index (filtered_data output))
  | Raised _ => None
  end.

End Scenarios.

(** ** Further scenarios *)

Module MoreScenarios.
Import DataFilter Frames SchemaDiscovery.

(** Three stores after scoring. *)
Definition scored_stores : DataFrame :=
  {| index := [0; 1; 2]%nat;
     columns :=
       [ ("priority_score", [Fin 150; Fin 200; Fin 175]);
         ("selection_score", [Fin 0.2; Fin 0.5; Fin 0.76]) ] |}.

(** Criteria whose representativeness weight is zero. *)
Definition priority_only : criteria :=
  {| c_max_rows := Some 2%Z;
     c_selection_weights :=
       Some (<["representative" := 0%Q]>
             (<["priority_score" := 1%Q]>
             (<["sales_volume" := 0%Q]> ∅)));
     c_min_priority_score := None; c_min_sales_volume := None |}.

(** A second source that repeats [SALES] and adds [REGION]. *)
Definition regions_frame : CsvFrame :=
  {| csv_columns :=
       [ {| col_name := "SALES"; col_dtype := DObject;
            col_cells := [Some "high"; Some "low"] |};
         {| col_name := "REGION"; col_dtype := DObject;
            col_cells := [Some "north"; Some "north"] |} ];
     csv_rows := 2 |}.

Import SchemaDiscoveryPipeline.

(** A knowledge base with an entry for [SALES] in both sections. *)
Definition sales_document : yaml_document :=
  {| doc_field_definitions :=
       Some (SectionMapping {[ "SALES" := EntryMapping Scenarios.sales_entry ]});
     doc_fields :=
       Some (SectionMapping {[ "SALES" := EntryMapping Scenarios.sales_entry ]});
     doc_other_sections := [] |}.

(** A file whose [fields:] key has no value. *)
Definition null_fields_document : yaml_document :=
  {| doc_field_definitions := None; doc_fields := Some SectionScalar;
     doc_other_sections := [] |}.

(** A file whose [field_definitions:] key has no value. *)
Definition null_definitions_document : yaml_document :=
  {| doc_field_definitions := Some SectionScalar;
     doc_fields :=
       Some (SectionMapping {[ "SALES" := EntryMapping Scenarios.sales_entry ]});
     doc_other_sections := [] |}.

(** A file whose [field_definitions] list the field names. *)
Definition listed_definitions_document : yaml_document :=
  {| doc_field_definitions := Some (SectionSequence ["STORE"; "SALES"]);
     doc_fields := None; doc_other_sections := [] |}.

(** A file whose entry for [SALES] is a string. *)
Definition text_entry_document : yaml_document :=
  {| doc_field_definitions :=
       Some (SectionMapping {[ "SALES" := EntryOther ]});
     doc_fields := None; doc_other_sections := [] |}.

(** [stores.csv] and [regions.csv] exist. *)
Definition two_readable (file_path : string) : outcome CsvFrame :=
  if String.eqb file_path "stores.csv" then Returned Scenarios.stores_frame
  else if String.eqb file_path "regions.csv" then Returned regions_frame
  else Raised FileNotFoundError.

End MoreScenarios.

(** * Properties *)

(** ** The question classifier *)

Module QuestionAnalyzerProps.
Import QuestionAnalyzer.

Lemma any_pattern_in_false question_lower ps :
  Forall (fun p => PyStr.contains question_lower p = false) ps ->
  any_pattern_in question_lower ps = false.
Proof.
  unfold any_pattern_in.
  induction 1 as [|p ps Hp _ IH]; simpl; [reflexivity|].
  rewrite Hp, IH. reflexivity.
Qed.

Lemma patterns_get_unmatched question_lower
    (question_patterns : gmap string (list string)) key :
  map_Forall (fun _ ps =>
      Forall (fun p => PyStr.contains question_lower p = false) ps)
    question_patterns ->
  any_pattern_in question_lower (patterns_get question_patterns key) = false.
Proof.
  intros Hall. unfold patterns_get.
  destruct (question_patterns !! key) as [ps|] eqn:Hk; simpl.
  - apply any_pattern_in_false. exact (Hall key ps Hk).
  - reflexivity.
Qed.

(** C6. The classifier is a total function of the question, and a
    question whose lower-cased text contains none of the configured
    patterns is classified as performance analysis. *)
Theorem classify_total_with_default
    (question_patterns : gmap string (list string)) (question : string) :
  (exists t, _classify_question_type question_patterns question = t) /\
  (map_Forall (fun _ ps =>
       Forall (fun p => PyStr.contains (PyStr.lower question) p = false) ps)
     question_patterns ->
   _classify_question_type question_patterns question = PERFORMANCE_ANALYSIS).
Proof.
  split; [eexists; reflexivity|].
  intros Hall. unfold _classify_question_type.
  rewrite !(patterns_get_unmatched _ _ _ Hall). reflexivity.
Qed.

Lemma classify_total_with_default_witness :
  classify "How many stores opened last year?" = PERFORMANCE_ANALYSIS.
Proof.
  apply (classify_total_with_default _load_question_patterns
           "How many stores opened last year?").
  apply (bool_decide_unpack _). vm_compute. reflexivity.
Defined.

(** C10. Whatever the question and the configured patterns, the
    classifier answers with one of four types; root-cause analysis and
    unsupported are never returned. *)
Theorem classify_range
    (question_patterns : gmap string (list string)) (question : string) :
  let t := _classify_question_type question_patterns question in
  (t = PERFORMANCE_ANALYSIS \/ t = LOCATION_COMPARISON \/
   t = TREND_IDENTIFICATION \/ t = RECOMMENDATION_GENERATION) /\
  t <> ROOT_CAUSE_ANALYSIS /\ t <> UNSUPPORTED.
Proof.
  cbv zeta. unfold _classify_question_type.
  repeat match goal with
         | |- context [if ?b then _ else _] => destruct b
         end;
    (split; [tauto | split; discriminate]).
Qed.

End QuestionAnalyzerProps.

(** ** Exclude-list field selection *)

Module SchemaReferenceProps.
Import SchemaReference.

Lemma elem_of_excluded_by (all_df_columns : gset string) entry col :
  col ∈ all_df_columns ->
  col ∈ excluded_by all_df_columns entry <->
  entry = col \/
  ((entry ∉ all_df_columns) /\
   PyStr.has_char "*" entry = true /\ fnmatch col entry = true).
Proof.
  intros Hcol. unfold excluded_by.
  destruct (decide (entry ∈ all_df_columns)) as [Hin|Hnin].
  - rewrite elem_of_singleton. split; [intros ->; by left|].
    intros [->|[? _]]; [done|contradiction].
  - destruct (PyStr.has_char "*" entry) eqn:Hstar.
    + rewrite elem_of_filter. split.
      * intros [Hm _]. right. done.
      * intros [->|(_ & _ & Hm)]; [contradiction|done].
    + split; [set_solver|].
      intros [->|(_ & Hfalse & _)]; [contradiction|discriminate].
Qed.

Lemma available_fields_spec exclude_columns df :
  frame_empty df = false ->
  exists fields,
    _get_all_available_fields exclude_columns (Some df) = Returned fields /\
    forall col,
      col ∈ fields <->
      col ∈ frame_columns df /\
      ~ loop_excluded (frame_columns df) exclude_columns col.
Proof.
  intros Hne. unfold _get_all_available_fields. rewrite Hne.
  eexists; split; [reflexivity|]. intros col.
  rewrite merge_sort_Permutation, elem_of_elements, elem_of_difference.
  rewrite elem_of_list_to_set, elem_of_set_bind.
  split.
  - intros [Hcol Hnex]. split; [done|].
    intros (entry & Hentry & Hcase). apply Hnex.
    exists entry. split; [by apply elem_of_list_to_set|].
    apply elem_of_excluded_by; [by apply elem_of_list_to_set|].
    rewrite elem_of_list_to_set. exact Hcase.
  - intros [Hcol Hnex]. split; [done|].
    intros (entry & Hentry & Hin). apply Hnex.
    exists entry. split; [by apply elem_of_list_to_set in Hentry|].
    apply elem_of_excluded_by in Hin; [|by apply elem_of_list_to_set].
    rewrite elem_of_list_to_set in Hin. exact Hin.
Qed.

(** C5, as stated, fails: an exclude entry that is itself a column
    name is never tried as a pattern, so with the columns [CREATED_*]
    and [CREATED_AT] the entry [CREATED_*] leaves [CREATED_AT] in. *)
Lemma exact_entry_is_not_a_pattern :
  ~ (forall exclude_columns df fields,
       _get_all_available_fields exclude_columns (Some df) = Returned fields ->
       forall col,
         col ∈ fields <->
         col ∈ frame_columns df /\ ~ spec_excluded exclude_columns col).
Proof.
  intros H.
  assert (Hrun : _get_all_available_fields ["CREATED_*"]
            (Some {| frame_columns := ["CREATED_*"; "CREATED_AT"];
                     frame_rows := 1 |}) = Returned ["CREATED_AT"])
    by (vm_compute; reflexivity).
  destruct (H _ _ _ Hrun "CREATED_AT") as [Hkept _].
  destruct (Hkept ltac:(apply list_elem_of_singleton; reflexivity)) as [_ Hnot].
  apply Hnot. exists "CREATED_*".
  split; [apply list_elem_of_singleton; reflexivity|].
  right. split; reflexivity.
Qed.

(** C5, amended. On a non-empty frame the field list is the column
    names minus those equal to an exclude entry and those matched, as
    a [*]-pattern, by an exclude entry that is not itself a column
    name. With [CREATED_*] in the exclude list and not among the
    columns, [CREATED_AT] and [CREATED_BY] are excluded; [UPDATED_AT]
    is kept when [CREATED_*] is the only entry. *)
Theorem available_fields_exclusion exclude_columns df :
  frame_empty df = false ->
  exists fields,
    _get_all_available_fields exclude_columns (Some df) = Returned fields /\
    (forall col,
       col ∈ fields <->
       col ∈ frame_columns df /\
       ~ loop_excluded (frame_columns df) exclude_columns col) /\
    ("CREATED_*" ∈ exclude_columns -> "CREATED_*" ∉ frame_columns df ->
     ("CREATED_AT" ∉ fields) /\ ("CREATED_BY" ∉ fields)) /\
    (exclude_columns = ["CREATED_*"] -> "UPDATED_AT" ∈ frame_columns df ->
     "UPDATED_AT" ∈ fields).
Proof.
  intros Hne.
  destruct (available_fields_spec exclude_columns df Hne) as (fields & Hrun & Hspec).
  exists fields. split; [exact Hrun|]. split; [exact Hspec|]. split.
  - intros Hentry Hnocol.
    split; intros Hin; apply Hspec in Hin as [_ Hnot]; apply Hnot;
      exists "CREATED_*"; (split; [exact Hentry|]);
      right; (split; [exact Hnocol|]); split; reflexivity.
  - intros -> Hcol. apply Hspec. split; [exact Hcol|].
    intros (entry & Hentry & Hcase).
    apply list_elem_of_singleton in Hentry as ->.
    destruct Hcase as [Heq|(_ & _ & Hm)]; discriminate.
Qed.

Lemma available_fields_exclusion_witness :
  exists fields,
    _get_all_available_fields ["CREATED_*"]
      (Some {| frame_columns :=
                 ["SALES"; "CREATED_AT"; "UPDATED_AT"; "CREATED_BY"];
               frame_rows := 2 |}) = Returned fields /\
    ("CREATED_AT" ∉ fields) /\ ("CREATED_BY" ∉ fields) /\ "UPDATED_AT" ∈ fields.
Proof.
  destruct (available_fields_exclusion ["CREATED_*"]
    {| frame_columns := ["SALES"; "CREATED_AT"; "UPDATED_AT"; "CREATED_BY"];
       frame_rows := 2 |} eq_refl) as (fields & Hrun & _ & Hcreated & Hupdated).
  exists fields. split; [exact Hrun|].
  destruct Hcreated as [Hat Hby].
  - apply list_elem_of_singleton; reflexivity.
  - intros Hin. repeat (apply elem_of_cons in Hin as [Hin|Hin]; [discriminate|]).
    by apply elem_of_nil in Hin.
  - split; [exact Hat|]. split; [exact Hby|].
    apply Hupdated; [reflexivity|].
    do 2 apply list_elem_of_further. apply list_elem_of_here.
Defined.

Example available_fields_sorted :
  _get_all_available_fields ["CREATED_*"; "ROW_ID"]
    (Some {| frame_columns :=
               ["UPDATED_AT"; "CREATED_AT"; "SALES"; "ROW_ID"; "CREATED_BY"];
             frame_rows := 3 |})
  = Returned ["SALES"; "UPDATED_AT"].
Proof. vm_compute. reflexivity. Qed.

Example empty_exclude_list_keeps_all_columns :
  _get_all_available_fields []
    (Some {| frame_columns := ["E"; "B"; "A"; "D"; "C"]; frame_rows := 1 |})
  = Returned ["A"; "B"; "C"; "D"; "E"].
Proof. vm_compute. reflexivity. Qed.

Example fnmatch_question_mark : fnmatch "abc" "a?c*" = true.
Proof. reflexivity. Qed.

Example fnmatch_class : fnmatch "abc" "a[b-d]?" = true.
Proof. reflexivity. Qed.

Example fnmatch_negated_class : fnmatch "abc" "a[!b-d]*" = false.
Proof. reflexivity. Qed.

Example fnmatch_unclosed_bracket : fnmatch "a[c" "a[*" = true.
Proof. reflexivity. Qed.

Example fnmatch_is_case_sensitive : fnmatch "created_at" "CREATED_*" = false.
Proof. reflexivity. Qed.

End SchemaReferenceProps.

(** ** Arithmetic of the float model *)

Module FloatFacts.

Lemma Qis_zero_false (q : Q) : ~ (q == 0)%Q -> Float.Qis_zero q = false.
Proof.
  intros Hq. unfold Float.Qis_zero.
  destruct (Qeq_bool q 0) eqn:E; [|reflexivity].
  apply Qeq_bool_eq in E. contradiction.
Qed.

Lemma Qis_zero_true (q : Q) : (q == 0)%Q -> Float.Qis_zero q = true.
Proof. intros Hq. unfold Float.Qis_zero. by apply Qeq_eq_bool. Qed.

Lemma Qlt_bool_true (x y : Q) : Float.Qlt_bool x y = true <-> (x < y)%Q.
Proof.
  unfold Float.Qlt_bool. rewrite negb_true_iff.
  split.
  - intros H. apply Qnot_le_lt. intros Hle.
    apply Qle_bool_iff in Hle. congruence.
  - intros H. destruct (Qle_bool y x) eqn:E; [|reflexivity].
    apply Qle_bool_iff in E. exfalso. exact (Qlt_not_le _ _ H E).
Qed.

Lemma div_fin (a b : Q) :
  ~ (b == 0)%Q -> Float.div (Fin a) (Fin b) = Fin (a / b).
Proof. intros Hb. simpl. by rewrite Qis_zero_false. Qed.

Lemma count_pos (n : nat) : (0 < n)%nat -> (0 < inject_Z (Z.of_nat n))%Q.
Proof.
  intros Hn. change 0%Q with (inject_Z 0). rewrite <- Zlt_Qlt. lia.
Qed.

Lemma count_le (k n : nat) :
  (k <= n)%nat -> (inject_Z (Z.of_nat k) <= inject_Z (Z.of_nat n))%Q.
Proof. intros H. rewrite <- Zle_Qle. lia. Qed.

Lemma count_nonneg (n : nat) : (0 <= inject_Z (Z.of_nat n))%Q.
Proof. change 0%Q with (inject_Z 0). rewrite <- Zle_Qle. lia. Qed.

(** A quotient [a / b] with [0 <= a <= b] and [0 < b] lies in [0, 1]. *)
Lemma ratio_unit (a b : Q) :
  (0 <= a)%Q -> (a <= b)%Q -> (0 < b)%Q -> (0 <= a / b /\ a / b <= 1)%Q.
Proof.
  intros Ha Hab Hb. split.
  - apply Qle_shift_div_l; [exact Hb|]. lra.
  - apply Qle_shift_div_r; [exact Hb|]. lra.
Qed.

End FloatFacts.

(** ** Doubles *)

Module DoubleFacts.

(** The doubles nearest to some fractions, as hexadecimal literals
    0x1.999999999999ap-4, 0x1.5555555555555p-2, 0x1.6666666666666p-1;
    a tie goes to the even mantissa, and a quotient beyond the largest
    double overflows. *)
Example nearest_doubles :
  Double.of_Q 0.1 = S754_finite false 7205759403792794 (-56) /\
  Double.of_Q (1 # 3) = S754_finite false 6004799503160661 (-54) /\
  Double.of_Q (- 0.7) = S754_finite true 6305039478318694 (-53) /\
  Double.of_Q (9007199254740993 # 1) = S754_finite false 4503599627370496 1 /\
  Double.of_Q (2 ^ 1024 # 1) = S754_infinity false.
Proof. repeat split; vm_compute; reflexivity. Qed.

(** Subtraction rounds: [1 - 1/3] is not the double nearest to 2/3. *)
Example subtraction_rounds :
  Double.sub (Double.of_Q 1) (Double.of_Q (1 # 3))
  = S754_finite false 6004799503160662 (-53) /\
  Double.of_Q (2 # 3) = S754_finite false 6004799503160661 (-53).
Proof. split; vm_compute; reflexivity. Qed.

End DoubleFacts.

(** ** The schema discovery agent *)

Module SchemaDiscoveryProps.
Import SchemaDiscovery Scenarios.

(** *** Merge *)

Lemma enrich_statistics config_field field_metadata :
  statistics (enrich config_field field_metadata) = statistics field_metadata.
Proof. reflexivity. Qed.

Lemma merge_step_statistics config_fields (st : store) item ref :
  statistics <$> (merge_step config_fields st item !! ref)
  = statistics <$> (st !! ref).
Proof.
  destruct item as [field_name r]. unfold merge_step.
  destruct (config_fields !! field_name) as [cf|]; [|reflexivity].
  destruct (st !! r) as [fm|] eqn:Hr; [|reflexivity].
  destruct (decide (r = ref)) as [->|Hne].
  - rewrite list_lookup_insert_eq by (by eapply lookup_lt_Some).
    rewrite Hr. reflexivity.
  - by rewrite list_lookup_insert_ne.
Qed.

Lemma merge_step_length config_fields (st : store) item :
  length (merge_step config_fields st item) = length st.
Proof.
  destruct item as [field_name r]. unfold merge_step.
  destruct (config_fields !! field_name); [|reflexivity].
  destruct (st !! r); [|reflexivity].
  apply length_insert.
Qed.

Lemma merge_fold_statistics config_fields (d : pydict) (st : store) ref :
  statistics <$> (foldl (merge_step config_fields) st d !! ref)
  = statistics <$> (st !! ref).
Proof.
  revert st. induction d as [|item d IH]; intros st; simpl; [reflexivity|].
  rewrite IH. apply merge_step_statistics.
Qed.

Lemma merge_fold_length config_fields (d : pydict) (st : store) :
  length (foldl (merge_step config_fields) st d) = length st.
Proof.
  revert st. induction d as [|item d IH]; intros st; simpl; [reflexivity|].
  rewrite IH. apply merge_step_length.
Qed.

(** An object that no entry of the dict refers to is not touched. *)
Lemma merge_fold_frame config_fields (d : pydict) (st : store) ref :
  ref ∉ map snd d ->
  foldl (merge_step config_fields) st d !! ref = st !! ref.
Proof.
  revert st. induction d as [|[k r] d IH]; intros st Hnot; simpl; [reflexivity|].
  simpl in Hnot. apply not_elem_of_cons in Hnot as [Hne Hnot].
  rewrite IH by exact Hnot. unfold merge_step.
  destruct (config_fields !! k); [|reflexivity].
  destruct (st !! r); [|reflexivity].
  by rewrite list_lookup_insert_ne.
Qed.

(** When no two names share an object, the object of a field is
    overlaid with its knowledge-base entry, and left as it is when
    there is none. *)
Lemma merge_fold_overlay config_fields (d : pydict) (st : store)
    field_name ref :
  NoDup (map snd d) -> (field_name, ref) ∈ d ->
  foldl (merge_step config_fields) st d !! ref
  = match config_fields !! field_name with
    | Some config_field => enrich config_field <$> st !! ref
    | None => st !! ref
    end.
Proof.
  revert st. induction d as [|[k r] d IH]; intros st Hnd Hin; simpl.
  - by apply elem_of_nil in Hin.
  - simpl in Hnd. apply NoDup_cons in Hnd as [Hr Hnd].
    apply elem_of_cons in Hin as [Heq|Hin].
    + injection Heq as <- <-.
      rewrite merge_fold_frame by exact Hr. unfold merge_step.
      destruct (config_fields !! field_name) as [cf|]; [|reflexivity].
      destruct (st !! ref) as [fm|] eqn:Hfm; [|by rewrite Hfm].
      rewrite list_lookup_insert_eq by (by eapply lookup_lt_Some).
      reflexivity.
    + rewrite IH by assumption.
      assert (r <> ref) as Hne.
      { intros ->. apply Hr. apply list_elem_of_fmap. by exists (field_name, ref). }
      unfold merge_step.
      destruct (config_fields !! k); [|reflexivity].
      destruct (st !! r); [|reflexivity].
      by rewrite list_lookup_insert_ne.
Qed.

(** C9. The merge returns the same dict of references, keeps every
    object of the store in place, and leaves the statistics of every
    object (name, data type, completeness, unique-value count, sample
    values) as they were: only the four semantic attributes can
    differ afterwards, whether or not the field has a knowledge-base
    entry. *)
Theorem merge_preserves_statistics (discovered_fields : pydict)
    (config_knowledge : config_knowledge) (st : store) :
  let result := _merge_discovery_with_config discovered_fields config_knowledge st in
  fst result = discovered_fields /\
  length (snd result) = length st /\
  forall ref, statistics <$> (snd result !! ref) = statistics <$> (st !! ref).
Proof.
  cbv zeta. unfold _merge_discovery_with_config. simpl.
  split; [reflexivity|]. split.
  - apply merge_fold_length.
  - intros ref. apply merge_fold_statistics.
Qed.

Example merge_overlays_sales :
  snd (_merge_discovery_with_config [("SALES", 0%nat)] sales_config [sales_fresh])
  = [ {| name := "SALES"; data_type := "numeric";
         business_purpose := "Weekly sales in dollars";
         importance_tier := 1; completeness := Fin 0.75; unique_values := 40;
         sample_values := ["10"; "20"]; business_rules := [];
         relationships := ["REGION"] |} ].
Proof. vm_compute. reflexivity. Qed.

(** *** Discovery over several sources *)

Lemma discover_fold read_csv data_paths discovered_fields log :
  foldl (analyze_path read_csv) (discovered_fields, log) data_paths
  = (fields_after read_csv data_paths discovered_fields,
     log ++ map (log_record_of read_csv) data_paths).
Proof.
  revert discovered_fields log.
  induction data_paths as [|file_path data_paths IH];
    intros discovered_fields log; simpl.
  - by rewrite app_nil_r.
  - unfold log_record_of at 1.
    destruct (read_csv file_path) as [df|e]; rewrite IH, <- app_assoc; reflexivity.
Qed.

Lemma discover_fresh_closed read_csv data_paths :
  _discover_fresh_schema read_csv data_paths
  = Returned (fields_after read_csv data_paths [],
              map (log_record_of read_csv) data_paths).
Proof. unfold _discover_fresh_schema. by rewrite discover_fold. Qed.

Lemma fields_after_app read_csv before after discovered_fields :
  fields_after read_csv (before ++ after) discovered_fields
  = fields_after read_csv after (fields_after read_csv before discovered_fields).
Proof. unfold fields_after. apply foldl_app. Qed.


Example discovery_of_one_readable_source :
  fst <$> (match _discover_fresh_schema one_readable ["missing.csv"; "stores.csv"] with
           | Returned r => Some r | Raised _ => None end)
  = Some
      [ ("STORE",
         {| name := "STORE"; data_type := "text"; business_purpose := "";
            importance_tier := 3; completeness := Fin (1 + - (0 / 4));
            unique_values := 3; sample_values := ["A"; "B"; "A"; "C"];
            business_rules := []; relationships := [] |});
        ("SALES",
         {| name := "SALES"; data_type := "numeric"; business_purpose := "";
            importance_tier := 3; completeness := Fin (1 + - (1 / 4));
            unique_values := 2; sample_values := ["10.0"; "30.0"; "10.0"];
            business_rules := []; relationships := [] |}) ].
Proof. vm_compute. reflexivity. Qed.

(** A header without data rows is read without error, and its fields
    get a completeness that is not a number. *)
Example header_only_completeness :
  map (fun kv => completeness (snd kv))
      (fields_after (fun _ => Returned header_only_frame) ["empty.csv"] [])
  = [NaN].
Proof. vm_compute. reflexivity. Qed.

(** *** Learning insights *)

Lemma learning_fold config_fields acc discovered_fields :
  let result := foldl (learning_step config_fields) acc discovered_fields in
  new_fields result
  = new_fields acc ++ omap (as_new_field config_fields) discovered_fields /\
  updated_statistics result
  = updated_statistics acc
    ++ omap (as_updated_statistic config_fields) discovered_fields.
Proof.
  cbv zeta. revert acc.
  induction discovered_fields as [|[field_name field_metadata] l IH];
    intros acc.
  - simpl. by rewrite !app_nil_r.
  - cbn [foldl].
    destruct (IH (learning_step config_fields acc (field_name, field_metadata)))
      as [Hnew Hupd].
    rewrite Hnew, Hupd. clear IH Hnew Hupd.
    unfold learning_step, as_new_field, as_updated_statistic. simpl.
    destruct (config_fields !! field_name) as [cf|]; simpl.
    + destruct (completeness_changed field_metadata cf); simpl;
        rewrite <- ?app_assoc; split; reflexivity.
    + rewrite <- ?app_assoc; split; reflexivity.
Qed.





(** Exactly 0.1 apart in decimals, the rounded doubles decide: a fresh
    0.7 against a stored 0.8 is listed as updated, a fresh 0.3 against
    a stored 0.2 is not. *)
Example tenth_apart_is_decided_on_doubles :
  differs_by_more_than_a_tenth (Fin 0.7) (Fin 0.8) = true /\
  differs_by_more_than_a_tenth (Fin 0.3) (Fin 0.2) = false /\
  Double.of_float (Fin 0.1) = S754_finite false 7205759403792794 (-56) /\
  Double.abs (Double.sub (Double.of_float (Fin 0.7)) (Double.of_float (Fin 0.8)))
  = S754_finite false 7205759403792800 (-56).
Proof. repeat split; vm_compute; reflexivity. Qed.

(** A completeness that is not a number is never listed as updated. *)
Example nan_is_never_updated (stored : pyfloat) :
  differs_by_more_than_a_tenth NaN stored = false.
Proof. unfold differs_by_more_than_a_tenth. simpl. by destruct (Double.of_float stored). Qed.

(** An entry of the [field_definitions] section alone does not count:
    the field is reported as new, although the merge enriches it. *)
Example learning_reads_the_fields_section :
  map nf_field_name
    (new_fields
       (_identify_config_learning_opportunities [("SALES", sales_with 0.75)]
          {| field_definitions := Some {[ "SALES" := sales_entry ]};
             fields := None; other_sections := [] |}))
  = ["SALES"].
Proof. vm_compute. reflexivity. Qed.

(** *** Discovery confidence *)

Lemma py_sum_from (l : list (string * FieldMetadata)) (acc : Q) :
  Forall unit_completeness l ->
  exists total,
    foldl Float.add (Fin acc) (map (fun kv => completeness (snd kv)) l) = Fin total /\
    (total == acc + fold_right Qplus 0
                      (map (fun kv => to_Q (completeness (snd kv))) l))%Q /\
    (acc <= total /\ total <= acc + count_Q (length l))%Q.
Proof.
  intros Hall. revert acc.
  induction Hall as [|[k fm] l Hx _ IH]; intros acc.
  - exists acc. cbn [map foldl fold_right length]. unfold count_Q.
    change (inject_Z (Z.of_nat 0)) with 0%Q.
    split; [reflexivity|]. repeat split; lra.
  - unfold unit_completeness in Hx. simpl in Hx.
    destruct (completeness fm) as [q| |] eqn:Hq; simpl in Hx; try contradiction.
    destruct (IH (acc + q)%Q) as (total & Hfold & Hsum & Hlo & Hhi).
    exists total. cbn [map foldl fold_right length snd].
    rewrite Hq. cbn [Float.add to_Q]. split; [exact Hfold|].
    unfold count_Q in *.
    rewrite Nat2Z.inj_succ, <- Z.add_1_r, inject_Z_plus.
    change (inject_Z 1) with 1%Q.
    repeat split; lra.
Qed.




Example confidence_of_full_known_data_is_capped :
  Float.eqv
    (_calculate_discovery_confidence [("SALES", sales_with 1)] sales_config)
    (Fin 0.95).
Proof. vm_compute. reflexivity. Qed.

Example confidence_of_nothing_discovered :
  _calculate_discovery_confidence [] sales_config = Fin 0.
Proof. reflexivity. Qed.

(** Fields measured on a frame with at least one row have a
    completeness in [0, 1]. *)
Lemma analyze_column_completeness df column :
  (0 < csv_rows df)%nat ->
  length (col_cells column) = csv_rows df ->
  Float.within 0 1 (completeness (analyze_column df column)).
Proof.
  intros Hrows Hlen. unfold analyze_column. cbn [completeness].
  unfold Float.of_nat.
  pose proof (FloatFacts.count_pos _ Hrows) as Hn.
  assert (isnull_sum (col_cells column) <= csv_rows df)%nat as Hk
    by (rewrite <- Hlen; apply length_filter).
  pose proof (FloatFacts.count_le _ _ Hk) as Hkn.
  pose proof (FloatFacts.count_nonneg (isnull_sum (col_cells column))) as Hk0.
  rewrite FloatFacts.div_fin by lra.
  destruct (FloatFacts.ratio_unit _ _ Hk0 Hkn Hn) as [H0 H1].
  simpl. lra.
Qed.

End SchemaDiscoveryProps.

(** ** The data filter agent *)

Module DataFilterProps.
Import DataFilter Scenarios.

(** *** Minimum and maximum of a column of numbers *)

Lemma drop_nan_fin (qs : list Q) : drop_nan (map Fin qs) = map Fin qs.
Proof.
  unfold drop_nan. induction qs as [|q qs IH]; [reflexivity|].
  cbn [map]. rewrite filter_cons_True by reflexivity.
  f_equal. exact IH.
Qed.

Lemma fold_min_fin (a : Q) (xs : list Q) :
  exists m,
    foldl (fun m v => if Float.lt v m then v else m) (Fin a) (map Fin xs) = Fin m /\
    m ∈ a :: xs /\ (m <= a)%Q /\ Forall (fun x => (m <= x)%Q) xs.
Proof.
  revert a. induction xs as [|x xs IH]; intros a.
  - exists a. repeat split; [apply list_elem_of_here|lra|constructor].
  - cbn [map foldl Float.lt].
    destruct (Float.Qlt_bool x a) eqn:Hlt.
    + apply FloatFacts.Qlt_bool_true in Hlt.
      destruct (IH x) as (m & Hfold & Hin & Hle & Hall).
      exists m. repeat split; [exact Hfold| |lra|by constructor].
      by apply list_elem_of_further.
    + assert (a <= x)%Q as Hax.
      { apply Qnot_lt_le. intros H. apply FloatFacts.Qlt_bool_true in H. congruence. }
      destruct (IH a) as (m & Hfold & Hin & Hle & Hall).
      exists m. repeat split; [exact Hfold| |lra|constructor; [lra|exact Hall]].
      apply elem_of_cons in Hin as [->|Hin];
        [apply list_elem_of_here|by do 2 apply list_elem_of_further].
Qed.

Lemma fold_max_fin (a : Q) (xs : list Q) :
  exists m,
    foldl (fun m v => if Float.lt m v then v else m) (Fin a) (map Fin xs) = Fin m /\
    m ∈ a :: xs /\ (a <= m)%Q /\ Forall (fun x => (x <= m)%Q) xs.
Proof.
  revert a. induction xs as [|x xs IH]; intros a.
  - exists a. repeat split; [apply list_elem_of_here|lra|constructor].
  - cbn [map foldl Float.lt].
    destruct (Float.Qlt_bool a x) eqn:Hlt.
    + apply FloatFacts.Qlt_bool_true in Hlt.
      destruct (IH x) as (m & Hfold & Hin & Hle & Hall).
      exists m. repeat split; [exact Hfold| |lra|by constructor].
      by apply list_elem_of_further.
    + assert (x <= a)%Q as Hax.
      { apply Qnot_lt_le. intros H. apply FloatFacts.Qlt_bool_true in H. congruence. }
      destruct (IH a) as (m & Hfold & Hin & Hle & Hall).
      exists m. repeat split; [exact Hfold| |lra|constructor; [lra|exact Hall]].
      apply elem_of_cons in Hin as [->|Hin];
        [apply list_elem_of_here|by do 2 apply list_elem_of_further].
Qed.

Lemma series_min_fin (qs : list Q) :
  qs <> [] ->
  exists m, series_min (map Fin qs) = Fin m /\ m ∈ qs /\
            Forall (fun x => (m <= x)%Q) qs.
Proof.
  intros Hne. unfold series_min. rewrite drop_nan_fin.
  destruct qs as [|a xs]; [contradiction|]. cbn [map].
  destruct (fold_min_fin a xs) as (m & Hfold & Hin & Hle & Hall).
  exists m. repeat split; [exact Hfold|exact Hin|by constructor].
Qed.

Lemma series_max_fin (qs : list Q) :
  qs <> [] ->
  exists m, series_max (map Fin qs) = Fin m /\ m ∈ qs /\
            Forall (fun x => (x <= m)%Q) qs.
Proof.
  intros Hne. unfold series_max. rewrite drop_nan_fin.
  destruct qs as [|a xs]; [contradiction|]. cbn [map].
  destruct (fold_max_fin a xs) as (m & Hfold & Hin & Hle & Hall).
  exists m. repeat split; [exact Hfold|exact Hin|by constructor].
Qed.

(** *** Min-max normalization *)

Lemma map_constant {A B} (f : A -> B) (c : B) (l : list A) :
  Forall (fun x => f x = c) l -> map f l = repeat c (length l).
Proof. induction 1 as [|x l Hx _ IH]; simpl; [reflexivity|]. by rewrite Hx, IH. Qed.

(** A constant column: every quotient is zero over zero. *)
Lemma min_max_constant (qs : list Q) (c : Q) :
  qs <> [] -> Forall (fun q => (q == c)%Q) qs ->
  min_max (map Fin qs) = repeat NaN (length qs).
Proof.
  intros Hne Hall. unfold min_max.
  destruct (series_min_fin qs Hne) as (lo & -> & Hlo & _).
  destruct (series_max_fin qs Hne) as (hi & -> & Hhi & _).
  rewrite List.Forall_forall in Hall.
  assert (lo == c)%Q as Elo by (apply Hall; by apply list_elem_of_In).
  assert (hi == c)%Q as Ehi by (apply Hall; by apply list_elem_of_In).
  rewrite <- (length_map Fin qs). apply map_constant.
  apply List.Forall_forall. intros v Hv.
  apply in_map_iff in Hv as (q & <- & Hq).
  assert (q == c)%Q as Eq by (by apply Hall).
  cbn [Float.sub Float.neg Float.add Float.div].
  rewrite !FloatFacts.Qis_zero_true by lra. reflexivity.
Qed.


(** C1. The normalization has no branch for a constant column: when
    every value of a present, non-empty priority (or volume) column
    equals the same number, which includes every single-row frame,
    each row's score is zero divided by zero, not a number, and not
    0.5. *)
Theorem degenerate_column_normalizes_to_nan
    (data : DataFrame) (qs : list Q) (c : Q) :
  qs <> [] -> Forall (fun q => (q == c)%Q) qs ->
  (column "priority_score" data = Some (map Fin qs) ->
   _normalize_priority_score data = repeat NaN (length qs)) /\
  (column "sales_volume" data = Some (map Fin qs) ->
   _normalize_volume_score data = repeat NaN (length qs)).
Proof.
  intros Hne Hall. split; intros Hcol.
  - unfold _normalize_priority_score. rewrite Hcol.
    by apply (min_max_constant qs c).
  - unfold _normalize_volume_score. rewrite Hcol.
    by apply (min_max_constant qs c).
Qed.

Lemma degenerate_column_normalizes_to_nan_witness :
  _normalize_priority_score constant_priority = [NaN; NaN; NaN].
Proof.
  apply (degenerate_column_normalizes_to_nan constant_priority [150; 150; 150]%Q 150%Q).
  - discriminate.
  - repeat constructor.
  - reflexivity.
Defined.

Example single_row_scores :
  _normalize_priority_score single_store = [NaN] /\
  _normalize_volume_score single_store = [NaN].
Proof. split; vm_compute; reflexivity. Qed.

Example normalization_of_three_stores :
  Forall2 Float.eqv (_normalize_priority_score three_stores)
    [Fin 0; Fin 1; Fin 0.5].
Proof. repeat constructor. Qed.

Example absent_column_scores_one_half :
  _normalize_volume_score constant_priority = [Fin 0.5; Fin 0.5; Fin 0.5].
Proof. reflexivity. Qed.

(** *** Selection scores *)

Lemma find_replaced name (values : list pyfloat) (l : list (string * list pyfloat)) :
  existsb (fun kv => String.eqb (fst kv) name) l = true ->
  List.find (fun kv => String.eqb (fst kv) name)
    (map (fun kv => if String.eqb (fst kv) name then (name, values) else kv) l)
  = Some (name, values).
Proof.
  induction l as [|kv l IH]; simpl; [discriminate|].
  destruct (String.eqb (fst kv) name) eqn:E; simpl.
  - by rewrite String.eqb_refl.
  - rewrite E. exact IH.
Qed.

Lemma find_appended name (values : list pyfloat) (l : list (string * list pyfloat)) :
  existsb (fun kv => String.eqb (fst kv) name) l = false ->
  List.find (fun kv => String.eqb (fst kv) name) (l ++ [(name, values)])
  = Some (name, values).
Proof.
  induction l as [|kv l IH]; simpl.
  - by rewrite String.eqb_refl.
  - destruct (String.eqb (fst kv) name); simpl; [discriminate|exact IH].
Qed.

(** Reading back a column that was just assigned. *)
Lemma column_set_column name values df :
  column name (set_column name values df) = Some values.
Proof.
  unfold column, set_column. cbn [columns].
  destruct (existsb _ (columns df)) eqn:E.
  - by rewrite find_replaced.
  - by rewrite find_appended.
Qed.

Lemma selection_scores_returned config data criteria g a b c :
  let weights :=
    default (selection_weights config) (c_selection_weights criteria) in
  weights !! "representative" = Some a ->
  weights !! "priority_score" = Some b ->
  weights !! "sales_volume" = Some c ->
  exists scored scores,
    fst (_calculate_selection_scores config data criteria g) = Returned scored /\
    column "selection_score" scored = Some scores.
Proof.
  intros weights Ha Hb Hc. subst weights.
  unfold _calculate_selection_scores. cbn [_calculate_representative_score
    np_random_random fst]. unfold weight. rewrite Ha, Hb, Hc. cbn [obind].
  do 2 eexists. split; [reflexivity|]. apply column_set_column.
Qed.

Lemma selection_scores_never_reject config data criteria g :
  fst (_calculate_selection_scores config data criteria g)
  <> Raised InvalidWeightsError.
Proof.
  unfold _calculate_selection_scores. cbn [_calculate_representative_score
    np_random_random fst]. unfold weight.
  repeat match goal with
         | |- context [match ?m !! ?k with _ => _ end] => destruct (m !! k)
         end; cbn [obind]; discriminate.
Qed.

(** *** Selection *)

(** C3. The selection depends on the draws of the random number
    generator: on the same three rows and the same criteria, one
    sequence of draws selects the row labelled 2 and another the row
    labelled 1. *)
Theorem selection_depends_on_random_draws :
  selected_index (filter_data _load_config three_stores (Some top_one) draws_first)
  = Some [2%nat] /\
  selected_index (filter_data _load_config three_stores (Some top_one) draws_second)
  = Some [1%nat] /\
  fst (filter_data _load_config three_stores (Some top_one) draws_first)
  <> fst (filter_data _load_config three_stores (Some top_one) draws_second).
Proof.
  assert (selected_index
            (filter_data _load_config three_stores (Some top_one) draws_first)
          = Some [2%nat]) as H1 by (vm_compute; reflexivity).
  assert (selected_index
            (filter_data _load_config three_stores (Some top_one) draws_second)
          = Some [1%nat]) as H2 by (vm_compute; reflexivity).
  split; [exact H1|]. split; [exact H2|].
  intros Heq. unfold selected_index in H1, H2. rewrite Heq in H1.
  rewrite H1 in H2. discriminate.
Qed.

(** With the draws fixed, the selection is a function of its input. *)
Example selection_with_equal_draws :
  selected_index (filter_data _load_config three_stores None draws_first)
  = Some [2; 1; 0]%nat.
Proof. vm_compute. reflexivity. Qed.

(** Rows with equal scores keep their original order. *)
Example rank_desc_is_stable :
  rank_desc [Fin 1; Fin 3; NaN; Fin 3; Fin 2; Fin 1] = [1; 3; 4; 0; 5; 2]%nat.
Proof. vm_compute. reflexivity. Qed.

(** An empty frame makes the rationale divide by zero. *)
Example empty_frame_raises :
  fst (filter_data _load_config {| index := []; columns := [] |} None draws_first)
  = Raised ZeroDivisionError.
Proof. vm_compute. reflexivity. Qed.

End DataFilterProps.

(** * Further properties *)

(** ** Letter case *)

Module CaseFacts.
Import PyStrExt.

Ltac all_ascii c :=
  destruct c as [[] [] [] [] [] [] [] []]; reflexivity.

Lemma lower_ascii_not_upper c : is_upper_ascii (PyStr.lower_ascii c) = false.
Proof. all_ascii c. Qed.

Lemma lower_ascii_idem c :
  PyStr.lower_ascii (PyStr.lower_ascii c) = PyStr.lower_ascii c.
Proof. all_ascii c. Qed.

Lemma lower_upper_ascii c :
  PyStr.lower_ascii (upper_ascii c) = PyStr.lower_ascii c.
Proof. all_ascii c. Qed.

Lemma upper_ascii_idem c : upper_ascii (upper_ascii c) = upper_ascii c.
Proof. all_ascii c. Qed.

Lemma upper_lower_ascii c : upper_ascii (PyStr.lower_ascii c) = upper_ascii c.
Proof. all_ascii c. Qed.

Lemma lower_has_no_upper s : has_upper (PyStr.lower s) = false.
Proof.
  induction s as [|c s IH]; simpl; [reflexivity|].
  by rewrite lower_ascii_not_upper, IH.
Qed.

Lemma lower_idem s : PyStr.lower (PyStr.lower s) = PyStr.lower s.
Proof. induction s as [|c s IH]; simpl; [reflexivity|]. by rewrite lower_ascii_idem, IH. Qed.

Lemma lower_upper s : PyStr.lower (upper s) = PyStr.lower s.
Proof. induction s as [|c s IH]; simpl; [reflexivity|]. by rewrite lower_upper_ascii, IH. Qed.

Lemma upper_idem s : upper (upper s) = upper s.
Proof. induction s as [|c s IH]; simpl; [reflexivity|]. by rewrite upper_ascii_idem, IH. Qed.

Lemma upper_lower s : upper (PyStr.lower s) = upper s.
Proof. induction s as [|c s IH]; simpl; [reflexivity|]. by rewrite upper_lower_ascii, IH. Qed.

Lemma startswith_upper p s :
  PyStr.startswith p s = true -> has_upper p = true -> has_upper s = true.
Proof.
  revert s. induction p as [|a p IH]; intros s Hstart Hup; simpl in *; [discriminate|].
  destruct s as [|b s]; [discriminate|].
  destruct (Ascii.eqb_spec a b) as [->|]; [|discriminate].
  simpl. apply orb_true_iff in Hup as [Hb|Hp].
  - by rewrite Hb.
  - rewrite (IH s Hstart Hp). apply orb_true_r.
Qed.

Lemma contains_upper s p :
  PyStr.contains s p = true -> has_upper p = true -> has_upper s = true.
Proof.
  induction s as [|c s IH]; simpl; intros Hc Hup.
  - rewrite orb_false_r in Hc. exact (startswith_upper p "" Hc Hup).
  - apply orb_true_iff in Hc as [Hstart|Hrest].
    + exact (startswith_upper p (String c s) Hstart Hup).
    + rewrite (IH Hrest Hup). apply orb_true_r.
Qed.

Lemma uppercase_pattern_unmatched question p :
  has_upper p = true -> PyStr.contains (PyStr.lower question) p = false.
Proof.
  intros Hup. destruct (PyStr.contains (PyStr.lower question) p) eqn:Hc; [|reflexivity].
  pose proof (contains_upper _ _ Hc Hup) as H.
  rewrite lower_has_no_upper in H. discriminate.
Qed.

End CaseFacts.

(** ** The question analyzer *)

Module QuestionAnalyzerMore.
Import QuestionAnalyzer QuestionAnalysis PyStrExt.

Lemma any_pattern_in_drop_uppercase question ps :
  any_pattern_in (PyStr.lower question)
    (filter (fun p => has_upper p = false) ps)
  = any_pattern_in (PyStr.lower question) ps.
Proof.
  unfold any_pattern_in. induction ps as [|p ps IH]; [reflexivity|].
  destruct (has_upper p) eqn:Hup.
  - rewrite filter_cons_False by congruence. simpl.
    rewrite (CaseFacts.uppercase_pattern_unmatched _ _ Hup). exact IH.
  - rewrite filter_cons_True by exact Hup. simpl. by rewrite IH.
Qed.

Lemma patterns_get_drop_uppercase (question_patterns : gmap string (list string)) key :
  patterns_get (filter (fun p => has_upper p = false) <$> question_patterns) key
  = filter (fun p => has_upper p = false) (patterns_get question_patterns key).
Proof.
  unfold patterns_get. rewrite lookup_fmap.
  destruct (question_patterns !! key); reflexivity.
Qed.

(** X1. The question is lower-cased before matching, so a pattern that
    contains an upper-case letter can never match: removing such
    patterns from every table leaves the classification of every
    question unchanged. The configured pattern [what should I do] is
    one of them, which leaves three effective recommendation
    patterns. *)
Theorem uppercase_patterns_are_dead
    (question_patterns : gmap string (list string)) (question : string) :
  _classify_question_type
    (filter (fun p => has_upper p = false) <$> question_patterns) question
  = _classify_question_type question_patterns question /\
  patterns_get (filter (fun p => has_upper p = false) <$> _load_question_patterns)
    "recommendation_generation"
  = [ "recommendations"; "actions to take"; "how to improve" ].
Proof.
  split.
  - unfold _classify_question_type.
    rewrite !patterns_get_drop_uppercase, !any_pattern_in_drop_uppercase.
    reflexivity.
  - vm_compute. reflexivity.
Qed.

(** X2. Classification ignores letter case: upper-casing or
    lower-casing the question does not change its type. *)
Theorem classification_ignores_case
    (question_patterns : gmap string (list string)) (question : string) :
  _classify_question_type question_patterns (upper question)
  = _classify_question_type question_patterns question /\
  _classify_question_type question_patterns (PyStr.lower question)
  = _classify_question_type question_patterns question.
Proof.
  unfold _classify_question_type.
  rewrite CaseFacts.lower_upper, CaseFacts.lower_idem. split; reflexivity.
Qed.

(** X3. Whatever the question, the analysis pairs its type with the
    approach of the lookup table, and only four pairs occur: correlation
    analysis is never selected, and comparative analysis only for a
    location comparison. *)
Theorem analysis_type_and_approach
    (question_patterns : gmap string (list string)) (question : string) :
  let analysis := analyze_question question_patterns question in
  (question_type analysis, analytical_approach analysis)
  ∈ [ (PERFORMANCE_ANALYSIS, RANKING_ANALYSIS);
      (LOCATION_COMPARISON, COMPARATIVE_ANALYSIS);
      (TREND_IDENTIFICATION, TREND_ANALYSIS);
      (RECOMMENDATION_GENERATION, THRESHOLD_ANALYSIS) ].
Proof.
  cbv zeta. unfold analyze_question. cbn [question_type analytical_approach].
  unfold _classify_question_type.
  repeat match goal with
         | |- context [if ?b then _ else _] => destruct b
         end; cbn [_determine_analytical_approach];
    repeat first [apply list_elem_of_here | apply list_elem_of_further].
Qed.

End QuestionAnalyzerMore.

(** ** Frames *)

Module FrameFacts.
Import DataFilter Frames.

Lemma keep_masked_nil_l {A} (l : list A) : keep_masked [] l = [].
Proof. reflexivity. Qed.

Lemma keep_masked_nil_r {A} (mask : list bool) : keep_masked mask (@nil A) = [].
Proof. destruct mask; reflexivity. Qed.

Lemma keep_masked_cons {A} b (mask : list bool) (x : A) l :
  keep_masked (b :: mask) (x :: l)
  = if b then x :: keep_masked mask l else keep_masked mask l.
Proof.
  unfold keep_masked. cbn [zip zip_with].
  destruct b.
  - by rewrite filter_cons_True.
  - by rewrite filter_cons_False.
Qed.

Lemma keep_masked_sublist {A} (mask : list bool) (l : list A) :
  keep_masked mask l `sublist_of` l.
Proof.
  revert l. induction mask as [|b mask IH]; intros l.
  - apply sublist_nil_l.
  - destruct l as [|x l]; [rewrite keep_masked_nil_r; constructor|].
    rewrite keep_masked_cons. destruct b.
    + by apply sublist_skip.
    + by apply sublist_cons.
Qed.

Lemma keep_masked_self {A} (f : A -> bool) (l : list A) :
  Forall (fun x => f x = true) (keep_masked (map f l) l).
Proof.
  induction l as [|x l IH]; [constructor|].
  cbn [map]. rewrite keep_masked_cons.
  destruct (f x) eqn:Hx; [by constructor|exact IH].
Qed.

Lemma keep_masked_Forall {A} (P : A -> Prop) (mask : list bool) (l : list A) :
  Forall P l -> Forall P (keep_masked mask l).
Proof.
  intros Hall. apply List.Forall_forall. intros x Hx.
  rewrite List.Forall_forall in Hall. apply Hall.
  apply list_elem_of_In. apply list_elem_of_In in Hx.
  exact (elem_of_sublist _ _ _ Hx (keep_masked_sublist mask l)).
Qed.

Lemma keep_masked_length {A B} (mask : list bool) (l : list A) (k : list B) :
  length l = length k -> length (keep_masked mask l) = length (keep_masked mask k).
Proof.
  revert l k. induction mask as [|b mask IH]; intros l k Hlen; [reflexivity|].
  destruct l as [|x l], k as [|y k]; try discriminate.
  - by rewrite !keep_masked_nil_r.
  - rewrite !keep_masked_cons. injection Hlen as Hlen.
    destruct b; simpl; by rewrite (IH l k Hlen).
Qed.

Lemma find_key_map {V} (f : list V -> list V) name (l : list (string * list V)) :
  List.find (fun kv => String.eqb (fst kv) name)
    (map (fun kv => (fst kv, f (snd kv))) l)
  = (fun kv => (fst kv, f (snd kv)))
      <$> List.find (fun kv => String.eqb (fst kv) name) l.
Proof.
  induction l as [|kv l IH]; [reflexivity|]. simpl.
  destruct (String.eqb (fst kv) name); [reflexivity|exact IH].
Qed.

Lemma column_select_rows name mask df :
  column name (select_rows mask df) = keep_masked mask <$> column name df.
Proof.
  unfold column, select_rows. cbn [columns]. rewrite find_key_map.
  destruct (List.find _ (columns df)); reflexivity.
Qed.

Lemma column_take_rows name positions df :
  column name (take_rows positions df) = pick positions <$> column name df.
Proof.
  unfold column, take_rows. cbn [columns]. rewrite find_key_map.
  destruct (List.find _ (columns df)); reflexivity.
Qed.

Lemma column_names_select_rows mask df :
  column_names (select_rows mask df) = column_names df.
Proof.
  unfold column_names, select_rows. cbn [columns].
  rewrite map_map. reflexivity.
Qed.

Lemma find_other name other (values : list pyfloat) (l : list (string * list pyfloat)) :
  name <> other ->
  List.find (fun kv => String.eqb (fst kv) name)
    (map (fun kv => if String.eqb (fst kv) other then (other, values) else kv) l)
  = List.find (fun kv => String.eqb (fst kv) name) l.
Proof.
  intros Hne. induction l as [|kv l IH]; [reflexivity|]. simpl.
  destruct (String.eqb_spec (fst kv) other) as [Ho|Ho]; simpl.
  - rewrite Ho. destruct (String.eqb_spec other name) as [->|_]; [contradiction|].
    destruct (String.eqb_spec other name) as [->|_]; [contradiction|].
    exact IH.
  - destruct (String.eqb (fst kv) name); [reflexivity|exact IH].
Qed.

Lemma find_app_other name other (values : list pyfloat) (l : list (string * list pyfloat)) :
  name <> other ->
  List.find (fun kv => String.eqb (fst kv) name) (l ++ [(other, values)])
  = List.find (fun kv => String.eqb (fst kv) name) l.
Proof.
  intros Hne. induction l as [|kv l IH]; simpl.
  - destruct (String.eqb_spec other name) as [->|_]; [contradiction|reflexivity].
  - destruct (String.eqb (fst kv) name); [reflexivity|exact IH].
Qed.

(** Assigning one column leaves the others as they are. *)
Lemma column_set_column_ne name other values df :
  name <> other -> column name (set_column other values df) = column name df.
Proof.
  intros Hne. unfold column, set_column. cbn [columns].
  destruct (existsb _ (columns df)).
  - by rewrite find_other.
  - by rewrite find_app_other.
Qed.

Lemma index_set_column name values df :
  index (set_column name values df) = index df.
Proof. reflexivity. Qed.

End FrameFacts.

(** ** The data filter: thresholds and failures *)

Module DataFilterMore.
Import DataFilter Frames Scenarios.

Lemma threshold_rows_index name minimum df :
  index (threshold_rows name minimum df) `sublist_of` index df.
Proof.
  unfold threshold_rows. destruct (column name df); [|reflexivity].
  apply FrameFacts.keep_masked_sublist.
Qed.

Lemma threshold_rows_names name minimum df :
  column_names (threshold_rows name minimum df) = column_names df.
Proof.
  unfold threshold_rows. destruct (column name df); [|reflexivity].
  apply FrameFacts.column_names_select_rows.
Qed.

Lemma threshold_rows_applied name minimum df :
  Forall (fun v => Float.ge v minimum = true)
    (default [] (column name (threshold_rows name minimum df))).
Proof.
  unfold threshold_rows. destruct (column name df) as [col|] eqn:Hcol.
  - rewrite FrameFacts.column_select_rows, Hcol. simpl.
    apply (FrameFacts.keep_masked_self (fun v => Float.ge v minimum)).
  - rewrite Hcol. constructor.
Qed.

Lemma threshold_rows_keeps (P : pyfloat -> Prop) name other minimum df :
  Forall P (default [] (column other df)) ->
  Forall P (default [] (column other (threshold_rows name minimum df))).
Proof.
  intros Hall. unfold threshold_rows. destruct (column name df); [|exact Hall].
  rewrite FrameFacts.column_select_rows.
  destruct (column other df); simpl in *; [|constructor].
  by apply FrameFacts.keep_masked_Forall.
Qed.

(** X4. The threshold filter only removes rows: the surviving row
    labels are a subsequence of the input's, the columns are the same,
    and every surviving cell of the priority column (respectively the
    volume column) is at least the configured minimum; a cell that is
    not a number never survives. *)
Theorem threshold_filter_contract config data criteria :
  let kept := _apply_basic_filters config data criteria in
  let min_priority :=
    default (min_priority_score config) (c_min_priority_score criteria) in
  let min_volume :=
    default (min_sales_volume config) (c_min_sales_volume criteria) in
  index kept `sublist_of` index data /\
  column_names kept = column_names data /\
  Forall (fun v => Float.ge v min_priority = true /\ Float.is_nan v = false)
    (default [] (column "priority_score" kept)) /\
  Forall (fun v => Float.ge v min_volume = true /\ Float.is_nan v = false)
    (default [] (column "sales_volume" kept)).
Proof.
  cbv zeta. unfold _apply_basic_filters.
  assert (forall v m, Float.ge v m = true -> Float.ge v m = true /\ Float.is_nan v = false)
    as Hnum by (intros [] []; simpl; intros; by split).
  repeat split.
  - etransitivity; apply threshold_rows_index.
  - by rewrite !threshold_rows_names.
  - eapply Forall_impl; [|intros v; apply Hnum].
    apply threshold_rows_keeps, threshold_rows_applied.
  - eapply Forall_impl; [|intros v; apply Hnum].
    apply threshold_rows_applied.
Qed.

Example thresholds_on_three_stores :
  index (_apply_basic_filters _load_config three_stores
           {| c_max_rows := None; c_selection_weights := None;
              c_min_priority_score := Some (Fin 160);
              c_min_sales_volume := Some (Fin 800) |})
  = [2%nat].
Proof. vm_compute. reflexivity. Qed.

Lemma select_subset_returns config scored criteria scores :
  column "selection_score" scored = Some scores ->
  _select_representative_subset config scored criteria
  = Returned
      (drop_columns score_columns
         (take_rows
            (take (Z.to_nat (default (max_rows config) (c_max_rows criteria)))
                  (rank_desc scores))
            scored)).
Proof.
  intros Hcol. unfold _select_representative_subset, nlargest.
  rewrite Hcol. reflexivity.
Qed.

(** X5. With the three weights available, [filter_data] raises
    [ZeroDivisionError] when the input frame has no rows, and returns
    whenever it has at least one, even if the thresholds remove every
    row; the reported original row count is the input's. *)
Theorem filter_data_fails_on_empty_input config data criteria g a b c :
  let weights :=
    default (selection_weights config)
            (c_selection_weights (default empty_criteria criteria)) in
  weights !! "representative" = Some a ->
  weights !! "priority_score" = Some b ->
  weights !! "sales_volume" = Some c ->
  (len data = 0%nat ->
   fst (filter_data config data criteria g) = Raised ZeroDivisionError) /\
  ((0 < len data)%nat ->
   exists output,
     fst (filter_data config data criteria g) = Returned output /\
     original_row_count output = len data /\
     filtered_row_count output = len (filtered_data output)).
Proof.
  intros weights Ha Hb Hc. subst weights.
  unfold filter_data.
  destruct (DataFilterProps.selection_scores_returned config
              (_apply_basic_filters config data (default empty_criteria criteria))
              (default empty_criteria criteria) g a b c Ha Hb Hc)
    as (scored & scores & Hscored & Hcol).
  destruct (_calculate_selection_scores config _ _ g) as [result g'].
  simpl in Hscored. subst result. cbn [fst obind].
  rewrite (select_subset_returns _ _ _ _ Hcol). cbn [obind].
  unfold _generate_selection_rationale.
  split.
  - intros Hlen. rewrite Hlen. reflexivity.
  - intros Hlen. destruct (len data) as [|n] eqn:Hn; [lia|].
    cbn [obind]. eexists. split; [reflexivity|]. split; reflexivity.
Qed.

Lemma filter_data_fails_on_empty_input_witness :
  fst (filter_data _load_config {| index := []; columns := [] |} None draws_first)
  = Raised ZeroDivisionError /\
  exists output,
    fst (filter_data _load_config three_stores None draws_first) = Returned output /\
    original_row_count output = 3%nat /\
    filtered_row_count output = len (filtered_data output).
Proof.
  split.
  - apply (filter_data_fails_on_empty_input _load_config
             {| index := []; columns := [] |} None draws_first 0.4%Q 0.4%Q 0.2%Q);
      vm_compute; reflexivity.
  - apply (filter_data_fails_on_empty_input _load_config three_stores None
             draws_first 0.4%Q 0.4%Q 0.2%Q); try (vm_compute; reflexivity).
    vm_compute. lia.
Defined.

(** Thresholds that remove every row of a non-empty frame give an empty
    selection, not an exception. *)
Example thresholds_can_empty_the_selection :
  selected_index
    (filter_data _load_config three_stores
       (Some {| c_max_rows := None; c_selection_weights := None;
                c_min_priority_score := Some (Fin 1000);
                c_min_sales_volume := None |}) draws_first)
  = Some [].
Proof. vm_compute. reflexivity. Qed.

End DataFilterMore.

(** ** The data filter: what is selected *)

Module SelectionFacts.
Import DataFilter Frames Scenarios.

(** *** Ranking is a permutation of the row positions *)

Lemma insert_ranked_perm p sorted : insert_ranked p sorted ≡ₚ p :: sorted.
Proof.
  induction sorted as [|q rest IH]; simpl; [reflexivity|].
  destruct (ranks_before (snd q) (snd p)); [|reflexivity].
  rewrite IH. apply Permutation_swap.
Qed.

Lemma rank_fold_perm (l : list (nat * pyfloat)) : foldr insert_ranked [] l ≡ₚ l.
Proof.
  induction l as [|p l IH]; simpl; [reflexivity|].
  rewrite insert_ranked_perm. by rewrite IH.
Qed.

Lemma positions_from (k : nat) (scores : list pyfloat) :
  map fst (imap (fun i v => ((k + i)%nat, v)) scores) = seq k (length scores).
Proof.
  revert k. induction scores as [|x scores IH]; intros k; [reflexivity|].
  cbn [imap map length seq fst]. f_equal; [lia|].
  rewrite <- (IH (S k)). f_equal. apply imap_ext. intros i v _. simpl.
  f_equal. lia.
Qed.

Lemma positions_of_scores (scores : list pyfloat) :
  map fst (imap (fun i v => (i, v)) scores) = seq 0 (length scores).
Proof. exact (positions_from 0 scores). Qed.

Lemma rank_desc_perm scores : rank_desc scores ≡ₚ seq 0 (length scores).
Proof.
  unfold rank_desc. rewrite <- positions_of_scores.
  apply Permutation_map, rank_fold_perm.
Qed.

Lemma rank_desc_length scores : length (rank_desc scores) = length scores.
Proof. rewrite (Permutation_length (rank_desc_perm scores)). apply length_seq. Qed.

Lemma rank_desc_NoDup scores : NoDup (rank_desc scores).
Proof. rewrite rank_desc_perm. apply NoDup_seq. Qed.

Lemma rank_desc_bound scores : Forall (fun i => (i < length scores)%nat) (rank_desc scores).
Proof.
  rewrite rank_desc_perm. apply Forall_seq. intros j Hj. lia.
Qed.

(** *** Picking rows by position *)

Lemma pick_length {A} positions (l : list A) :
  Forall (fun i => (i < length l)%nat) positions ->
  length (pick positions l) = length positions.
Proof.
  unfold pick. induction 1 as [|i positions Hi _ IH]; [reflexivity|].
  cbn [omap list_omap].
  destruct (lookup_lt_is_Some_2 l i Hi) as [x Hx]. rewrite Hx. simpl.
  f_equal. exact IH.
Qed.

Lemma pick_elem_of {A} positions (l : list A) x :
  x ∈ pick positions l -> x ∈ l.
Proof.
  unfold pick. intros Hx. apply list_elem_of_omap in Hx as (i & _ & Hi).
  apply list_elem_of_lookup. by exists i.
Qed.

Lemma pick_NoDup {A} positions (l : list A) :
  NoDup l -> NoDup positions -> NoDup (pick positions l).
Proof.
  intros Hl. unfold pick. induction 1 as [|i positions Hi _ IH]; [constructor|].
  cbn [omap list_omap]. destruct (l !! i) as [x|] eqn:Hx; [|exact IH].
  simpl. constructor; [|exact IH].
  intros Hin. apply list_elem_of_omap in Hin as (j & Hj & Hjx).
  assert (i = j) as -> by exact (NoDup_lookup l i j x Hl Hx Hjx).
  contradiction.
Qed.

(** *** Score columns never reach the output *)

Lemma filter_set_column names name values (l : list (string * list pyfloat)) :
  existsb (String.eqb name) names = true ->
  filter (fun kv => negb (existsb (String.eqb (fst kv)) names) = true)
    (map (fun kv => if String.eqb (fst kv) name then (name, values) else kv) l)
  = filter (fun kv => negb (existsb (String.eqb (fst kv)) names) = true) l.
Proof.
  intros Hin. induction l as [|kv l IH]; [reflexivity|]. cbn [map].
  destruct (String.eqb_spec (fst kv) name) as [Heq|Hne].
  - rewrite !filter_cons_False; [exact IH| |].
    + rewrite Heq, Hin. discriminate.
    + cbn [fst]. rewrite Hin. discriminate.
  - destruct (existsb (String.eqb (fst kv)) names) eqn:E.
    + rewrite !filter_cons_False by (rewrite E; discriminate). exact IH.
    + rewrite !filter_cons_True by (by rewrite E). by rewrite IH.
Qed.

Lemma drop_set_column names name values df :
  existsb (String.eqb name) names = true ->
  drop_columns names (set_column name values df) = drop_columns names df.
Proof.
  intros Hin. unfold drop_columns, set_column. cbn [index columns]. f_equal.
  destruct (existsb _ (columns df)).
  - by apply filter_set_column.
  - rewrite filter_app. rewrite filter_cons_False, filter_nil, app_nil_r; [reflexivity|].
    cbn [fst]. rewrite Hin. discriminate.
Qed.

Lemma drop_take_rows names positions df :
  drop_columns names (take_rows positions df)
  = take_rows positions (drop_columns names df).
Proof.
  unfold drop_columns, take_rows. cbn [index columns]. f_equal.
  induction (columns df) as [|kv l IH]; [reflexivity|]. cbn [map].
  destruct (existsb (String.eqb (fst kv)) names) eqn:E.
  - rewrite !filter_cons_False by (cbn [fst]; rewrite E; discriminate). exact IH.
  - rewrite !filter_cons_True by (cbn [fst]; by rewrite E).
    cbn [map]. by rewrite IH.
Qed.

(** The scored frame, once its score columns are dropped, is the frame
    that was scored. *)
Lemma drop_scored config data criteria g scored :
  fst (_calculate_selection_scores config data criteria g) = Returned scored ->
  drop_columns score_columns scored = drop_columns score_columns data.
Proof.
  unfold _calculate_selection_scores.
  cbn [_calculate_representative_score np_random_random fst]. unfold weight.
  repeat match goal with
         | |- context [match ?m !! ?k with _ => _ end] => destruct (m !! k)
         end; cbn [obind]; try discriminate.
  intros [= <-].
  rewrite !drop_set_column by reflexivity. reflexivity.
Qed.

(** *** Well-formed frames *)

Lemma wf_select_rows mask df : wf_frame df -> wf_frame (select_rows mask df).
Proof.
  unfold wf_frame, select_rows. cbn [index columns]. intros Hwf.
  apply Forall_map. eapply Forall_impl; [exact Hwf|].
  intros kv Hlen. cbn [snd]. by apply FrameFacts.keep_masked_length.
Qed.

Lemma wf_threshold_rows name minimum df :
  wf_frame df -> wf_frame (threshold_rows name minimum df).
Proof.
  intros Hwf. unfold threshold_rows. destruct (column name df); [|exact Hwf].
  by apply wf_select_rows.
Qed.

Lemma wf_apply_basic_filters config data criteria :
  wf_frame data -> wf_frame (_apply_basic_filters config data criteria).
Proof. intros Hwf. unfold _apply_basic_filters. by do 2 apply wf_threshold_rows. Qed.

Lemma column_length name df col :
  wf_frame df -> column name df = Some col -> length col = len df.
Proof.
  unfold wf_frame, column, len. intros Hwf Hcol.
  destruct (List.find _ (columns df)) as [kv|] eqn:Hfind; [|discriminate].
  injection Hcol as <-. apply find_some in Hfind as [Hin _].
  rewrite List.Forall_forall in Hwf. by apply Hwf.
Qed.

Lemma min_max_length col : length (min_max col) = length col.
Proof. unfold min_max. apply length_map. Qed.

Lemma normalize_priority_length df :
  wf_frame df -> length (_normalize_priority_score df) = len df.
Proof.
  intros Hwf. unfold _normalize_priority_score.
  destruct (column "priority_score" df) as [col|] eqn:Hcol.
  - rewrite min_max_length. by apply (column_length "priority_score").
  - apply repeat_length.
Qed.

Lemma normalize_volume_length df :
  wf_frame df -> length (_normalize_volume_score df) = len df.
Proof.
  intros Hwf. unfold _normalize_volume_score.
  destruct (column "sales_volume" df) as [col|] eqn:Hcol.
  - rewrite min_max_length. by apply (column_length "sales_volume").
  - apply repeat_length.
Qed.

Lemma draws_length n g : length (draws n g) = n.
Proof. unfold draws, np_random_random. cbn [fst]. by rewrite length_map, length_seq. Qed.

Lemma composite_length a b c R P V n :
  length R = n -> length P = n -> length V = n ->
  length (composite a b c R P V) = n.
Proof.
  intros HR HP HV. unfold composite, add_series, scale.
  rewrite !length_zip_with, !length_map. lia.
Qed.

(** The scored frame carries the weighted sum of the three component
    series in its [selection_score] column. *)
Lemma selection_scores_closed config data criteria g a b c :
  let weights :=
    default (selection_weights config) (c_selection_weights criteria) in
  weights !! "representative" = Some a ->
  weights !! "priority_score" = Some b ->
  weights !! "sales_volume" = Some c ->
  exists scored,
    fst (_calculate_selection_scores config data criteria g) = Returned scored /\
    column "selection_score" scored
    = Some (composite a b c (draws (len data) g)
              (_normalize_priority_score data) (_normalize_volume_score data)).
Proof.
  intros weights Ha Hb Hc. subst weights.
  unfold _calculate_selection_scores.
  cbn [_calculate_representative_score np_random_random fst]. unfold weight.
  rewrite Ha, Hb, Hc. cbn [obind].
  eexists. split; [reflexivity|].
  rewrite DataFilterProps.column_set_column.
  rewrite !FrameFacts.column_set_column_ne by discriminate.
  rewrite DataFilterProps.column_set_column.
  rewrite !(FrameFacts.column_set_column_ne "priority_score_norm") by discriminate.
  rewrite DataFilterProps.column_set_column.
  rewrite DataFilterProps.column_set_column.
  reflexivity.
Qed.

End SelectionFacts.

(** ** The data filter: the selection weights *)

Module SelectionWeightProps.
Import DataFilter Frames Scenarios SelectionFacts.

Lemma composite_lookup a b c R P V i r p v :
  R !! i = Some r -> P !! i = Some p -> V !! i = Some v ->
  composite a b c R P V !! i
  = Some (Float.add (Float.add (Float.mul (Fin a) r) (Float.mul (Fin b) p))
                    (Float.mul (Fin c) v)).
Proof.
  intros Hr Hp Hv. unfold composite, add_series, scale.
  apply lookup_zip_with_Some. do 2 eexists. split; [reflexivity|]. split.
  - apply lookup_zip_with_Some. do 2 eexists. split; [reflexivity|].
    change (map (Float.mul (Fin a)) R) with (Float.mul (Fin a) <$> R).
    change (map (Float.mul (Fin b)) P) with (Float.mul (Fin b) <$> P).
    by rewrite !list_lookup_fmap, Hr, Hp.
  - change (map (Float.mul (Fin c)) V) with (Float.mul (Fin c) <$> V).
    by rewrite list_lookup_fmap, Hv.
Qed.

Lemma missing_weight_raises config data criteria g :
  let weights :=
    default (selection_weights config) (c_selection_weights criteria) in
  weights !! "representative" = None \/ weights !! "priority_score" = None
  \/ weights !! "sales_volume" = None ->
  fst (_calculate_selection_scores config data criteria g) = Raised KeyError.
Proof.
  intros weights Hmissing. subst weights.
  unfold _calculate_selection_scores.
  cbn [_calculate_representative_score np_random_random fst]. unfold weight.
  destruct (_ !! "representative") as [a|]; [|reflexivity].
  destruct (_ !! "priority_score") as [b|]; [|reflexivity].
  destruct (_ !! "sales_volume") as [c|]; [|reflexivity].
  destruct Hmissing as [|[|]]; discriminate.
Qed.

(** C2, as stated, fails: three weights of 1 sum to 3, and the rows
    are scored with them. *)
Lemma unit_weights_are_scored :
  ~ (forall config data criteria g a b c,
       let weights :=
         default (selection_weights config) (c_selection_weights criteria) in
       weights !! "representative" = Some a ->
       weights !! "priority_score" = Some b ->
       weights !! "sales_volume" = Some c ->
       ~ (Qabs (a + b + c - 1) <= 0.000001)%Q ->
       fst (_calculate_selection_scores config data criteria g)
       = Raised InvalidWeightsError).
Proof.
  intros H.
  apply (DataFilterProps.selection_scores_never_reject _load_config three_stores
           unit_weights draws_first).
  apply (H _load_config three_stores unit_weights draws_first 1%Q 1%Q 1%Q);
    try (vm_compute; reflexivity).
  vm_compute. intros Hle. apply Hle. reflexivity.
Qed.

(** C2, amended. The data filter does not validate the selection
    weights: scoring never raises [InvalidWeightsError]. Whenever the
    three weights are present, whatever their sum, the selection score
    of every row is the first weight times its representativeness
    score plus the second times its normalized priority plus the third
    times its normalized volume; when one of the three keys is
    missing, scoring raises [KeyError]. The weights of the built-in
    configuration are 0.4, 0.4 and 0.2, which sum to 1. *)
Theorem selection_weights_are_not_validated config data criteria g :
  let weights :=
    default (selection_weights config) (c_selection_weights criteria) in
  fst (_calculate_selection_scores config data criteria g)
  <> Raised InvalidWeightsError /\
  (forall a b c,
     weights !! "representative" = Some a ->
     weights !! "priority_score" = Some b ->
     weights !! "sales_volume" = Some c ->
     exists scored scores,
       fst (_calculate_selection_scores config data criteria g) = Returned scored /\
       column "selection_score" scored = Some scores /\
       scores = composite a b c (draws (len data) g)
                  (_normalize_priority_score data) (_normalize_volume_score data) /\
       (forall i r p v,
          draws (len data) g !! i = Some r ->
          _normalize_priority_score data !! i = Some p ->
          _normalize_volume_score data !! i = Some v ->
          scores !! i
          = Some (Float.add (Float.add (Float.mul (Fin a) r) (Float.mul (Fin b) p))
                            (Float.mul (Fin c) v)))) /\
  (weights !! "representative" = None \/ weights !! "priority_score" = None
   \/ weights !! "sales_volume" = None ->
   fst (_calculate_selection_scores config data criteria g) = Raised KeyError) /\
  (exists a b c,
     selection_weights _load_config !! "representative" = Some a /\
     selection_weights _load_config !! "priority_score" = Some b /\
     selection_weights _load_config !! "sales_volume" = Some c /\
     (a + b + c == 1)%Q).
Proof.
  intros weights.
  split; [apply DataFilterProps.selection_scores_never_reject|].
  split; [|split].
  - intros a b c Ha Hb Hc.
    destruct (selection_scores_closed config data criteria g a b c Ha Hb Hc)
      as (scored & Hrun & Hcol).
    exists scored. eexists. split; [exact Hrun|]. split; [exact Hcol|].
    split; [reflexivity|].
    intros i r p v. apply composite_lookup.
  - apply missing_weight_raises.
  - exists 0.4%Q, 0.4%Q, 0.2%Q.
    repeat split; vm_compute; reflexivity.
Qed.

Lemma selection_weights_are_not_validated_witness :
  (exists scored,
     fst (_calculate_selection_scores _load_config three_stores unit_weights
            draws_first) = Returned scored /\
     Forall2 Float.eqv (default [] (column "selection_score" scored))
       [Fin 0.5; Fin 1.5; Fin 2.4]) /\
  fst (_calculate_selection_scores _load_config three_stores two_weights
         draws_first) = Raised KeyError.
Proof.
  split.
  - destruct (selection_weights_are_not_validated _load_config three_stores
                unit_weights draws_first) as (_ & Hrun & _).
    destruct (Hrun 1%Q 1%Q 1%Q) as (scored & scores & Hscored & Hcol & Hscores & _);
      try (vm_compute; reflexivity).
    exists scored. split; [exact Hscored|].
    rewrite Hcol, Hscores. vm_compute. repeat constructor.
  - destruct (selection_weights_are_not_validated _load_config three_stores
                two_weights draws_first) as (_ & _ & Hmissing & _).
    apply Hmissing. right. right. vm_compute. reflexivity.
Defined.

(** The same rows under the built-in weights: the scores change with
    the weights. *)
Example default_weights_are_scored :
  match fst (_calculate_selection_scores _load_config three_stores empty_criteria
               draws_first) with
  | Returned scored =>
      Forall2 Float.eqv (default [] (column "selection_score" scored))
        [Fin 0.2; Fin 0.5; Fin 0.76]
  | Raised _ => False
  end.
Proof. vm_compute. repeat constructor. Qed.

End SelectionWeightProps.

Module SelectionProps.
Import DataFilter Frames Scenarios SelectionFacts.

Lemma filter_data_closed config data criteria g a b c :
  let crit := default empty_criteria criteria in
  let kept := _apply_basic_filters config data crit in
  let weights := default (selection_weights config) (c_selection_weights crit) in
  weights !! "representative" = Some a ->
  weights !! "priority_score" = Some b ->
  weights !! "sales_volume" = Some c ->
  (0 < len data)%nat ->
  exists output,
    fst (filter_data config data criteria g) = Returned output /\
    original_row_count output = len data /\
    filtered_row_count output = len (filtered_data output) /\
    filtered_data output
    = take_rows
        (take (Z.to_nat (default (max_rows config) (c_max_rows crit)))
           (rank_desc
              (composite a b c (draws (len kept) g)
                 (_normalize_priority_score kept) (_normalize_volume_score kept))))
        (drop_columns score_columns kept).
Proof.
  intros crit kept weights Ha Hb Hc Hlen. subst weights.
  unfold filter_data. fold crit. fold kept.
  destruct (selection_scores_closed config kept crit g a b c Ha Hb Hc)
    as (scored & Hscored & Hcol).
  pose proof (drop_scored _ _ _ _ _ Hscored) as Hdrop.
  destruct (_calculate_selection_scores config kept crit g) as [result g'].
  simpl in Hscored. subst result. cbn [fst obind].
  rewrite (DataFilterMore.select_subset_returns _ _ _ _ Hcol). cbn [obind].
  unfold _generate_selection_rationale.
  destruct (len data) as [|n] eqn:Hn; [lia|]. cbn [obind].
  eexists. split; [reflexivity|]. cbn [original_row_count filtered_row_count filtered_data].
  repeat split. by rewrite drop_take_rows, Hdrop.
Qed.

(** X6. On a well-formed, non-empty frame with the three weights
    available, [filter_data] returns whole rows of the thresholded
    input: the selected frame is the thresholded frame without the four
    score columns, restricted to a duplicate-free list of row positions
    whose length is the smaller of [max_rows] and the number of rows
    that passed the thresholds. Hence the reported count is that
    length, never exceeds the original count, and the selected labels
    are labels of the input, distinct when the input's are. *)
Theorem selection_picks_whole_rows config data criteria g a b c :
  let crit := default empty_criteria criteria in
  let kept := _apply_basic_filters config data crit in
  let weights := default (selection_weights config) (c_selection_weights crit) in
  wf_frame data ->
  weights !! "representative" = Some a ->
  weights !! "priority_score" = Some b ->
  weights !! "sales_volume" = Some c ->
  (0 < len data)%nat ->
  exists output positions,
    fst (filter_data config data criteria g) = Returned output /\
    filtered_data output = take_rows positions (drop_columns score_columns kept) /\
    NoDup positions /\
    Forall (fun i => (i < len kept)%nat) positions /\
    length positions
    = Nat.min (Z.to_nat (default (max_rows config) (c_max_rows crit))) (len kept) /\
    filtered_row_count output = length positions /\
    (filtered_row_count output <= original_row_count output)%nat /\
    index (filtered_data output) ⊆ index data /\
    (NoDup (index data) -> NoDup (index (filtered_data output))).
Proof.
  intros crit kept weights Hwf Ha Hb Hc Hlen.
  destruct (filter_data_closed config data criteria g a b c Ha Hb Hc Hlen)
    as (output & Hrun & Horig & Hcount & Hframe).
  fold crit in Hframe. fold kept in Hframe.
  set (scores := composite a b c (draws (len kept) g)
                   (_normalize_priority_score kept) (_normalize_volume_score kept))
    in *.
  set (n := Z.to_nat (default (max_rows config) (c_max_rows crit))) in *.
  assert (wf_frame kept) as Hwfk by (by apply wf_apply_basic_filters).
  assert (length scores = len kept) as Hscores.
  { apply composite_length;
      [apply draws_length|by apply normalize_priority_length
      |by apply normalize_volume_length]. }
  assert (Forall (fun i => (i < len kept)%nat) (take n (rank_desc scores))) as Hbound.
  { apply Forall_take. rewrite <- Hscores. apply rank_desc_bound. }
  assert (NoDup (take n (rank_desc scores))) as Hnd.
  { exact (sublist_NoDup _ _ (rank_desc_NoDup _) (sublist_take _ _)). }
  assert (length (take n (rank_desc scores)) = Nat.min n (len kept)) as Hlenp.
  { by rewrite length_take, rank_desc_length, Hscores. }
  assert (index kept `sublist_of` index data) as Hsub.
  { unfold kept, _apply_basic_filters. etransitivity; apply DataFilterMore.threshold_rows_index. }
  assert (index (filtered_data output) = pick (take n (rank_desc scores)) (index kept))
    as Hindex by (by rewrite Hframe).
  assert (filtered_row_count output = length (take n (rank_desc scores))) as Hrows.
  { rewrite Hcount. unfold len at 1. rewrite Hindex. by apply pick_length. }
  exists output, (take n (rank_desc scores)).
  split; [exact Hrun|]. split; [exact Hframe|]. split; [exact Hnd|].
  split; [exact Hbound|]. split; [exact Hlenp|]. split; [exact Hrows|].
  split; [|split].
  - rewrite Hrows, Hlenp, Horig.
    pose proof (sublist_length _ _ Hsub). unfold len in *. lia.
  - rewrite Hindex. intros x Hx. apply pick_elem_of in Hx.
    exact (elem_of_sublist _ _ _ Hx Hsub).
  - intros Hlabels. rewrite Hindex. apply pick_NoDup; [|exact Hnd].
    exact (sublist_NoDup _ _ Hlabels Hsub).
Qed.

Lemma selection_picks_whole_rows_witness :
  exists output positions,
    fst (filter_data _load_config three_stores (Some top_one) draws_first)
    = Returned output /\
    filtered_data output
    = take_rows positions (drop_columns score_columns three_stores) /\
    length positions = 1%nat.
Proof.
  destruct (selection_picks_whole_rows _load_config three_stores (Some top_one)
              draws_first 0.4%Q 0.4%Q 0.2%Q)
    as (output & positions & Hrun & Hframe & _ & _ & Hlen & _);
    try (vm_compute; reflexivity).
  - repeat constructor.
  - vm_compute. lia.
  - exists output, positions. split; [exact Hrun|]. split; [exact Hframe|exact Hlen].
Defined.

End SelectionProps.

(** ** The data filter: order of the selection *)

Module RankingFacts.
Import DataFilter Frames SelectionFacts.

Lemma Qlt_bool_false (x y : Q) : Float.Qlt_bool x y = false <-> (y <= x)%Q.
Proof.
  split.
  - intros H. apply Qnot_lt_le. intros Hlt.
    apply FloatFacts.Qlt_bool_true in Hlt. congruence.
  - intros H. destruct (Float.Qlt_bool x y) eqn:E; [|reflexivity].
    apply FloatFacts.Qlt_bool_true in E. exfalso. exact (Qlt_not_le _ _ E H).
Qed.

Ltac order_cases :=
  repeat match goal with
         | x : pyfloat |- _ => destruct x as [?|[]|]
         end;
  unfold ranks_before, Float.gt, Float.lt; cbn [negb andb];
  try reflexivity; try discriminate.

(** Not being beaten is transitive. *)
Lemma ranks_before_trans x y z :
  ranks_before y x = false -> ranks_before z y = false -> ranks_before z x = false.
Proof.
  order_cases; rewrite ?Qlt_bool_false; try discriminate; intros; lra.
Qed.

Lemma ranks_before_asym x y : ranks_before x y = true -> ranks_before y x = false.
Proof.
  order_cases. rewrite FloatFacts.Qlt_bool_true, Qlt_bool_false. intros; lra.
Qed.

Lemma insert_ranked_sorted p sorted :
  StronglySorted ranked_before sorted ->
  Forall (fun q => (fst p < fst q)%nat) sorted ->
  StronglySorted ranked_before (insert_ranked p sorted).
Proof.
  induction 1 as [|q rest Hrest IH Hq]; intros Hidx; simpl.
  - repeat constructor.
  - apply Forall_cons in Hidx as [Hpq Hidx].
    destruct (ranks_before (snd q) (snd p)) eqn:Hbeats.
    + constructor; [by apply IH|].
      rewrite insert_ranked_perm. constructor; [|exact Hq].
      split; [by apply ranks_before_asym|by left].
    + constructor; [by constructor|].
      constructor; [split; [exact Hbeats|by right]|].
      rewrite List.Forall_forall in Hq, Hidx. apply List.Forall_forall.
      intros r Hr. destruct (Hq r Hr) as [Hrq _]. split.
      * exact (ranks_before_trans _ _ _ Hbeats Hrq).
      * right. by apply Hidx.
Qed.

Lemma rank_fold_sorted k (scores : list pyfloat) :
  StronglySorted ranked_before
    (foldr insert_ranked [] (imap (fun i v => ((k + i)%nat, v)) scores)).
Proof.
  revert k. induction scores as [|x scores IH]; intros k; [constructor|].
  cbn [imap foldr].
  assert (imap ((fun i v => ((k + i)%nat, v)) ∘ S) scores
          = imap (fun i v => ((S k + i)%nat, v)) scores) as ->.
  { apply imap_ext. intros i v _. simpl. f_equal. lia. }
  apply insert_ranked_sorted; [apply IH|].
  rewrite rank_fold_perm. apply List.Forall_forall. intros q Hq.
  apply list_elem_of_In in Hq. apply elem_of_lookup_imap in Hq as (i & v & -> & _).
  simpl. lia.
Qed.

Lemma rank_fold_lookup (scores : list pyfloat) p :
  p ∈ foldr insert_ranked [] (imap (fun i v => (i, v)) scores) ->
  scores !! fst p = Some (snd p).
Proof.
  rewrite rank_fold_perm. intros Hp.
  apply elem_of_lookup_imap in Hp as (i & v & -> & Hv). exact Hv.
Qed.

End RankingFacts.

Module RankingProps.
Import DataFilter Frames Scenarios MoreScenarios SelectionFacts RankingFacts.

Lemma rank_desc_member scores q vq :
  scores !! q = Some vq -> q ∈ rank_desc scores.
Proof.
  intros Hq. rewrite rank_desc_perm. apply elem_of_seq.
  apply lookup_lt_Some in Hq. lia.
Qed.

(** X7. The selection is the top of the ranking: no row left out has a
    selection score that beats the score of a selected row (a score
    that is not a number ranks last), and between two rows whose scores
    do not beat each other the selected one is the earlier row. For two
    numbers, not beating means being at most as large. *)
Theorem selection_takes_the_top_rows config scored criteria scores :
  column "selection_score" scored = Some scores ->
  exists positions,
    _select_representative_subset config scored criteria
    = Returned (drop_columns score_columns (take_rows positions scored)) /\
    (forall p q vp vq,
       p ∈ positions -> q ∉ positions ->
       scores !! p = Some vp -> scores !! q = Some vq ->
       ranks_before vq vp = false /\
       (ranks_before vp vq = true \/ (p < q)%nat) /\
       (forall a b, vp = Fin a -> vq = Fin b -> (b <= a)%Q)).
Proof.
  intros Hcol.
  set (n := Z.to_nat (default (max_rows config) (c_max_rows criteria))).
  exists (take n (rank_desc scores)).
  split; [by apply DataFilterMore.select_subset_returns|].
  intros p q vp vq Hp Hq Hvp Hvq.
  set (sp := foldr insert_ranked [] (imap (fun i v => (i, v)) scores)) in *.
  assert (rank_desc scores = fst <$> sp) as Hrank by reflexivity.
  assert (StronglySorted ranked_before (take n sp ++ drop n sp)) as Hsorted.
  { rewrite take_drop. exact (rank_fold_sorted 0 scores). }
  rewrite Hrank, <- fmap_take in Hp, Hq.
  apply list_elem_of_fmap in Hp as (pp & -> & Hpp).
  assert (q ∈ fst <$> drop n sp) as Hqd.
  { pose proof (rank_desc_member scores q vq Hvq) as Hin.
    rewrite Hrank, <- (take_drop n sp), fmap_app in Hin.
    apply elem_of_app in Hin as [Hin|Hin]; [contradiction|exact Hin]. }
  apply list_elem_of_fmap in Hqd as (qq & -> & Hqq).
  destruct (StronglySorted_app_1_elem_of _ _ _ _ _ Hsorted Hpp Hqq) as [Hnot Htie].
  assert (snd pp = vp) as <-.
  { pose proof (rank_fold_lookup scores pp) as Hl. fold sp in Hl.
    rewrite Hl in Hvp; [by injection Hvp|].
    exact (elem_of_sublist _ _ _ Hpp (sublist_take _ _)). }
  assert (snd qq = vq) as <-.
  { pose proof (rank_fold_lookup scores qq) as Hl. fold sp in Hl.
    rewrite Hl in Hvq; [by injection Hvq|].
    exact (elem_of_sublist _ _ _ Hqq (sublist_drop _ _)). }
  split; [exact Hnot|]. split; [exact Htie|].
  intros a b Ha Hb. rewrite Ha, Hb in Hnot.
  unfold ranks_before, Float.gt, Float.lt in Hnot.
  by apply Qlt_bool_false in Hnot.
Qed.

Lemma selection_takes_the_top_rows_witness :
  exists positions,
    _select_representative_subset _load_config scored_stores top_one
    = Returned (drop_columns score_columns (take_rows positions scored_stores)) /\
    (2%nat ∈ positions -> 0%nat ∉ positions -> (0.2 <= 0.76)%Q).
Proof.
  destruct (selection_takes_the_top_rows _load_config scored_stores top_one
              [Fin 0.2; Fin 0.5; Fin 0.76] eq_refl) as (positions & Hrun & Htop).
  exists positions. split; [exact Hrun|].
  intros H2 H0.
  destruct (Htop 2%nat 0%nat (Fin 0.76) (Fin 0.2) H2 H0 eq_refl eq_refl)
    as (_ & _ & Hle).
  exact (Hle 0.76%Q 0.2%Q eq_refl eq_refl).
Defined.

End RankingProps.

(** ** The data filter: component scores *)

Module ScoreProps.
Import DataFilter Frames Scenarios MoreScenarios SelectionFacts.




(** *** The composite score *)









End ScoreProps.

(** ** The data filter: what the selection depends on *)

Module DependenceProps.
Import DataFilter Frames Scenarios MoreScenarios SelectionFacts RankingFacts.
Import QuestionAnalyzer QuestionAnalysis.

Lemma eqv_refl x : Float.eqv x x.
Proof. destruct x; simpl; [reflexivity|reflexivity|exact I]. Qed.

Lemma Qlt_bool_eqv (a a' b b' : Q) :
  (a == a')%Q -> (b == b')%Q -> Float.Qlt_bool a b = Float.Qlt_bool a' b'.
Proof.
  intros Ha Hb.
  destruct (Float.Qlt_bool a b) eqn:E, (Float.Qlt_bool a' b') eqn:E';
    try reflexivity.
  - apply FloatFacts.Qlt_bool_true in E. apply Qlt_bool_false in E'. lra.
  - apply FloatFacts.Qlt_bool_true in E'. apply Qlt_bool_false in E. lra.
Qed.

Lemma ranks_before_eqv x x' y y' :
  Float.eqv x x' -> Float.eqv y y' -> ranks_before x y = ranks_before x' y'.
Proof.
  destruct x as [a|s|], x' as [a'|s'|], y as [b|t|], y' as [b'|t'|];
    simpl; try contradiction; intros Hx Hy; subst; try reflexivity.
  unfold Float.gt, Float.lt. by apply Qlt_bool_eqv.
Qed.

Lemma add_eqv x x' y y' :
  Float.eqv x x' -> Float.eqv y y' -> Float.eqv (Float.add x y) (Float.add x' y').
Proof.
  destruct x as [a|s|], x' as [a'|s'|], y as [b|t|], y' as [b'|t'|];
    simpl; try contradiction; intros Hx Hy; subst; try reflexivity; try exact I.
  - lra.
  - destruct (Bool.eqb s' t'); [reflexivity|exact I].
Qed.

Lemma insert_ranked_eqv p q l k :
  same_rank p q -> Forall2 same_rank l k ->
  Forall2 same_rank (insert_ranked p l) (insert_ranked q k).
Proof.
  intros Hpq. induction 1 as [|x y l k Hxy Hlk IH]; simpl.
  - constructor; [exact Hpq|constructor].
  - destruct Hpq as [Hi Hv], Hxy as [Hj Hw].
    rewrite (ranks_before_eqv _ _ _ _ Hw Hv).
    destruct (ranks_before (snd y) (snd q)).
    + constructor; [by split|exact IH].
    + constructor; [by split|]. constructor; [by split|]. assumption.
Qed.

Lemma rank_fold_eqv l k :
  Forall2 same_rank l k ->
  Forall2 same_rank (foldr insert_ranked [] l) (foldr insert_ranked [] k).
Proof.
  induction 1 as [|p q l k Hpq _ IH]; simpl; [constructor|].
  by apply insert_ranked_eqv.
Qed.

Lemma imap_same_rank n (s1 s2 : list pyfloat) :
  Forall2 Float.eqv s1 s2 ->
  Forall2 same_rank (imap (fun i v => ((n + i)%nat, v)) s1)
                    (imap (fun i v => ((n + i)%nat, v)) s2).
Proof.
  intros H. revert n. induction H as [|x y s1 s2 Hxy _ IH]; intros n; [constructor|].
  cbn [imap]. constructor; [by split|].
  assert (forall s : list pyfloat,
            imap ((fun i v => ((n + i)%nat, v)) ∘ S) s
            = imap (fun i v => ((S n + i)%nat, v)) s) as Hshift.
  { intros s. apply imap_ext. intros i v _. simpl. f_equal. lia. }
  rewrite !Hshift. apply IH.
Qed.

(** Scores that are equal as numbers rank the rows the same way. *)
Lemma rank_desc_eqv s1 s2 :
  Forall2 Float.eqv s1 s2 -> rank_desc s1 = rank_desc s2.
Proof.
  intros H. unfold rank_desc.
  pose proof (rank_fold_eqv _ _ (imap_same_rank 0 s1 s2 H)) as Hsame.
  simpl in Hsame.
  induction Hsame as [|p q l k [Hi _] _ IH]; [reflexivity|].
  cbn [map]. by rewrite Hi, IH.
Qed.

Lemma composite_ignores_draws a b c (l1 l2 : list Q) P V :
  (a == 0)%Q -> length l1 = length l2 ->
  Forall2 Float.eqv (composite a b c (map Fin l1) P V)
                    (composite a b c (map Fin l2) P V).
Proof.
  intros Ha. revert l2 P V.
  induction l1 as [|r1 l1 IH]; intros [|r2 l2] P V Hlen; try discriminate.
  - constructor.
  - destruct P as [|p P]; [constructor|]. destruct V as [|v V]; [constructor|].
    unfold composite, add_series, scale. cbn [map zip_with].
    constructor.
    + apply add_eqv; [|apply eqv_refl]. apply add_eqv; [|apply eqv_refl].
      simpl. rewrite Ha. ring.
    + apply (IH l2 P V). by injection Hlen.
Qed.

Lemma draws_are_numbers n g : draws n g = map Fin (map g (seq 0 n)).
Proof. unfold draws, np_random_random. cbn [fst]. by rewrite map_map. Qed.

Lemma filter_data_empty config data criteria g a b c :
  let weights :=
    default (selection_weights config)
            (c_selection_weights (default empty_criteria criteria)) in
  weights !! "representative" = Some a ->
  weights !! "priority_score" = Some b ->
  weights !! "sales_volume" = Some c ->
  len data = 0%nat ->
  fst (filter_data config data criteria g) = Raised ZeroDivisionError.
Proof.
  intros weights Ha Hb Hc Hlen. subst weights. unfold filter_data.
  destruct (DataFilterProps.selection_scores_returned config
              (_apply_basic_filters config data (default empty_criteria criteria))
              (default empty_criteria criteria) g a b c Ha Hb Hc)
    as (scored & scores & Hscored & Hcol).
  destruct (_calculate_selection_scores config _ _ g) as [result g'].
  simpl in Hscored. subst result. cbn [fst obind].
  rewrite (DataFilterMore.select_subset_returns _ _ _ _ Hcol). cbn [obind].
  unfold _generate_selection_rationale. rewrite Hlen. reflexivity.
Qed.

(** X10. When the weight of the representativeness score is zero, the
    random draws have no influence: two runs of [filter_data] on the
    same frame and criteria select the same frame, or raise the same
    exception, whatever the states of the generator. *)
Theorem zero_representative_weight_is_deterministic
    config data criteria g1 g2 a b c :
  let weights :=
    default (selection_weights config)
            (c_selection_weights (default empty_criteria criteria)) in
  weights !! "representative" = Some a ->
  weights !! "priority_score" = Some b ->
  weights !! "sales_volume" = Some c ->
  (a == 0)%Q ->
  selected_frame (filter_data config data criteria g1)
  = selected_frame (filter_data config data criteria g2).
Proof.
  intros weights Ha Hb Hc Hzero. unfold selected_frame.
  destruct (len data) as [|n] eqn:Hlen.
  - by rewrite !(filter_data_empty config data criteria _ a b c Ha Hb Hc Hlen).
  - assert (0 < len data)%nat as Hpos by lia.
    destruct (SelectionProps.filter_data_closed config data criteria g1 a b c
                Ha Hb Hc Hpos) as (o1 & -> & _ & _ & H1).
    destruct (SelectionProps.filter_data_closed config data criteria g2 a b c
                Ha Hb Hc Hpos) as (o2 & -> & _ & _ & H2).
    rewrite H1, H2. do 3 f_equal.
    apply rank_desc_eqv. rewrite !draws_are_numbers.
    apply composite_ignores_draws; [exact Hzero|].
    by rewrite !length_map.
Qed.

Lemma zero_representative_weight_is_deterministic_witness :
  selected_frame (filter_data _load_config three_stores (Some priority_only) draws_first)
  = selected_frame (filter_data _load_config three_stores (Some priority_only) draws_second).
Proof.
  apply (zero_representative_weight_is_deterministic _load_config three_stores
           (Some priority_only) draws_first draws_second 0%Q 1%Q 0%Q);
    try (vm_compute; reflexivity).
Defined.

Example priority_only_selection :
  selected_index (filter_data _load_config three_stores (Some priority_only) draws_first)
  = Some [1; 2]%nat.
Proof. vm_compute. reflexivity. Qed.

(** *** From the question analyzer to the data filter *)

Lemma filter_data_reads_four_keys config data c1 c2 g :
  default (max_rows config) (c_max_rows c1)
  = default (max_rows config) (c_max_rows c2) ->
  default (selection_weights config) (c_selection_weights c1)
  = default (selection_weights config) (c_selection_weights c2) ->
  default (min_priority_score config) (c_min_priority_score c1)
  = default (min_priority_score config) (c_min_priority_score c2) ->
  default (min_sales_volume config) (c_min_sales_volume c1)
  = default (min_sales_volume config) (c_min_sales_volume c2) ->
  selected_frame (filter_data config data (Some c1) g)
  = selected_frame (filter_data config data (Some c2) g).
Proof.
  intros Hrows Hweights Hpri Hvol.
  unfold selected_frame, filter_data.
  change (default empty_criteria (Some c1)) with c1.
  change (default empty_criteria (Some c2)) with c2.
  unfold _apply_basic_filters, _calculate_selection_scores,
    _select_representative_subset.
  cbn [fst _calculate_representative_score np_random_random].
  rewrite Hrows, Hweights, Hpri, Hvol. unfold weight.
  repeat match goal with
         | |- context [match ?m !! ?k with _ => _ end] => destruct (m !! k)
         end; cbn [obind fst]; try reflexivity.
  match goal with
  | |- context [nlargest ?n ?name ?df] => destruct (nlargest n name df)
  end; cbn [obind]; [|reflexivity].
  destruct (_generate_selection_rationale _ _); reflexivity.
Qed.

(** X11. The criteria that the question analyzer hands over carry a
    row limit of 25 and neither selection weights nor thresholds under
    the keys the data filter reads (its weights are stored under
    [priority_weight], [representative_weight] and [volume_weight]).
    With the built-in configuration the filter therefore selects
    exactly what it selects when it is given no criteria at all. *)
Theorem question_criteria_leave_filter_defaults
    (question_patterns : gmap string (list string)) (question : string)
    (data : DataFrame) (g : rng) :
  exists crit,
    criteria_of_dict
      (filtering_criteria (analyze_question question_patterns question))
    = Some crit /\
    c_max_rows crit = Some 25%Z /\
    c_selection_weights crit = None /\
    c_min_priority_score crit = None /\
    c_min_sales_volume crit = None /\
    selected_frame (filter_data _load_config data (Some crit) g)
    = selected_frame (filter_data _load_config data None g).
Proof.
  eexists. split; [reflexivity|]. repeat (split; [reflexivity|]).
  apply (filter_data_reads_four_keys _load_config data _ empty_criteria g);
    reflexivity.
Qed.

End DependenceProps.

(** ** Schema discovery: what is discovered *)

Module DiscoveryProps.
Import SchemaDiscovery SchemaDiscoverySave Scenarios MoreScenarios.

Lemma dict_has_elem {V} (d : list (string * V)) k :
  dict_has d k = true <-> k ∈ map fst d.
Proof.
  unfold dict_has. induction d as [|kv d IH]; simpl.
  - split; [discriminate|]. intros H. by apply elem_of_nil in H.
  - rewrite orb_true_iff, IH, elem_of_cons, String.eqb_eq.
    split; (intros [H|H]; [left; by symmetry|by right]).
Qed.

Lemma analyze_column_fresh df column :
  fresh_field (col_name column, analyze_column df column).
Proof. repeat split. Qed.

(** One frame: fields are only appended, keys stay unique. *)
Lemma analyze_columns_spec df columns d :
  NoDup (map fst d) -> Forall fresh_field d ->
  let d' :=
    foldl (fun discovered column =>
             if dict_has discovered (col_name column) then discovered
             else discovered ++ [(col_name column, analyze_column df column)])
          d columns in
  d `prefix_of` d' /\ NoDup (map fst d') /\ Forall fresh_field d' /\
  (forall k, k ∈ map fst d' <-> k ∈ map fst d \/ k ∈ map col_name columns).
Proof.
  cbv zeta. revert d. induction columns as [|c columns IH]; intros d Hnd Hfresh.
  - simpl. split; [reflexivity|]. split; [exact Hnd|]. split; [exact Hfresh|].
    intros k. split; [by left|]. intros [H|H]; [exact H|by apply elem_of_nil in H].
  - cbn [foldl map].
    destruct (dict_has d (col_name c)) eqn:Hhas.
    + destruct (IH d Hnd Hfresh) as (Hpre & Hnd' & Hfresh' & Hkeys).
      split; [exact Hpre|]. split; [exact Hnd'|]. split; [exact Hfresh'|].
      intros k. rewrite Hkeys, elem_of_cons.
      apply dict_has_elem in Hhas.
      split; [tauto|]. intros [H|[->|H]]; tauto.
    + assert (col_name c ∉ map fst d) as Hnew.
      { intros Hin. apply dict_has_elem in Hin. congruence. }
      destruct (IH (d ++ [(col_name c, analyze_column df c)])) as (Hpre & Hnd' & Hfresh' & Hkeys).
      * rewrite map_app. apply NoDup_app. split; [exact Hnd|]. split.
        -- intros x Hx Hx'. simpl in Hx'. apply list_elem_of_singleton in Hx'.
           by subst x.
        -- apply NoDup_singleton.
      * apply Forall_app. split; [exact Hfresh|].
        constructor; [apply analyze_column_fresh|constructor].
      * split; [by eapply prefix_app_l|]. split; [exact Hnd'|].
        split; [exact Hfresh'|].
        intros k. rewrite Hkeys, map_app, elem_of_app, elem_of_cons. simpl.
        rewrite list_elem_of_singleton. tauto.
Qed.

Lemma fields_after_spec read_csv data_paths d :
  NoDup (map fst d) -> Forall fresh_field d ->
  let d' := fields_after read_csv data_paths d in
  d `prefix_of` d' /\ NoDup (map fst d') /\ Forall fresh_field d' /\
  (forall k, k ∈ map fst d' <->
     k ∈ map fst d \/
     exists file_path df, file_path ∈ data_paths /\
       read_csv file_path = Returned df /\ k ∈ csv_column_names df).
Proof.
  cbv zeta. revert d. induction data_paths as [|file_path data_paths IH];
    intros d Hnd Hfresh.
  - simpl. split; [reflexivity|]. split; [exact Hnd|]. split; [exact Hfresh|].
    intros k. split; [by left|]. intros [H|(f & df & Hin & _)]; [exact H|].
    by apply elem_of_nil in Hin.
  - unfold fields_after. cbn [foldl]. fold (fields_after read_csv data_paths).
    destruct (read_csv file_path) as [df|e] eqn:Hread.
    + destruct (analyze_columns_spec df (csv_columns df) d Hnd Hfresh)
        as (Hpre1 & Hnd1 & Hfresh1 & Hkeys1).
      fold (analyze_frame df d) in Hpre1, Hnd1, Hfresh1, Hkeys1.
      destruct (IH (analyze_frame df d) Hnd1 Hfresh1) as (Hpre & Hnd' & Hfresh' & Hkeys).
      split; [by etransitivity|]. split; [exact Hnd'|]. split; [exact Hfresh'|].
      intros k. rewrite Hkeys, Hkeys1. split.
      * intros [[H|H]|(f & df' & Hin & Hr & Hk)].
        -- by left.
        -- right. exists file_path, df. split; [apply list_elem_of_here|]. by split.
        -- right. exists f, df'. split; [by apply list_elem_of_further|]. by split.
      * intros [H|(f & df' & Hin & Hr & Hk)]; [by left; left|].
        apply elem_of_cons in Hin as [->|Hin].
        -- rewrite Hread in Hr. injection Hr as <-. left. by right.
        -- right. exists f, df'. by repeat split.
    + destruct (IH d Hnd Hfresh) as (Hpre & Hnd' & Hfresh' & Hkeys).
      split; [exact Hpre|]. split; [exact Hnd'|]. split; [exact Hfresh'|].
      intros k. rewrite Hkeys. split.
      * intros [H|(f & df' & Hin & Hr & Hk)]; [by left|].
        right. exists f, df'. split; [by apply list_elem_of_further|]. by split.
      * intros [H|(f & df' & Hin & Hr & Hk)]; [by left|].
        apply elem_of_cons in Hin as [->|Hin]; [congruence|].
        right. exists f, df'. by repeat split.
Qed.

(** X12. Discovery returns a dict with unique keys in which every
    field is named after its key and carries the defaults of an
    unenriched field (empty purpose, tier 3, no rules, no
    relationships). A name is discovered exactly when it is a column of
    some listed source that can be read, and the log has one record per
    listed path. *)
Theorem discovered_fields_invariants read_csv data_paths :
  exists discovered_fields log,
    _discover_fresh_schema read_csv data_paths = Returned (discovered_fields, log) /\
    NoDup (map fst discovered_fields) /\
    Forall fresh_field discovered_fields /\
    (forall k, k ∈ map fst discovered_fields <->
       exists file_path df, file_path ∈ data_paths /\
         read_csv file_path = Returned df /\ k ∈ csv_column_names df) /\
    length log = length data_paths.
Proof.
  rewrite SchemaDiscoveryProps.discover_fresh_closed.
  do 2 eexists. split; [reflexivity|].
  destruct (fields_after_spec read_csv data_paths []) as (_ & Hnd & Hfresh & Hkeys);
    [constructor|constructor|].
  split; [exact Hnd|]. split; [exact Hfresh|]. split; [|apply length_map].
  intros k. rewrite Hkeys. split; [|by right].
  intros [H|H]; [by apply elem_of_nil in H|exact H].
Qed.

(** X13. Listing further sources never changes what earlier sources
    gave: the fields discovered from a list of paths are a prefix, in
    order and in content, of the fields discovered when more paths are
    appended, so a column found in several sources keeps the metadata of
    the first one. *)
Theorem discovery_only_appends read_csv before after :
  exists fields_before log_before fields_all log_all,
    _discover_fresh_schema read_csv before = Returned (fields_before, log_before) /\
    _discover_fresh_schema read_csv (before ++ after) = Returned (fields_all, log_all) /\
    fields_before `prefix_of` fields_all /\
    log_before `prefix_of` log_all.
Proof.
  rewrite !SchemaDiscoveryProps.discover_fresh_closed.
  do 4 eexists. split; [reflexivity|]. split; [reflexivity|].
  rewrite SchemaDiscoveryProps.fields_after_app. split.
  - destruct (fields_after_spec read_csv [] []) as (_ & Hnd0 & Hf0 & _);
      [constructor|constructor|].
    destruct (fields_after_spec read_csv before []) as (_ & Hnd & Hfresh & _);
      [constructor|constructor|].
    by destruct (fields_after_spec read_csv after _ Hnd Hfresh) as (Hpre & _).
  - rewrite map_app. by apply prefix_app_r.
Qed.

Example first_source_wins :
  map (fun kv => (fst kv, data_type (snd kv)))
      (fields_after two_readable ["stores.csv"; "regions.csv"] [])
  = [ ("STORE", "text"); ("SALES", "numeric"); ("REGION", "text") ].
Proof. vm_compute. reflexivity. Qed.

End DiscoveryProps.

(** ** Schema discovery: statistics and scores *)

Module StatisticsProps.
Import SchemaDiscovery SchemaDiscoverySave Scenarios MoreScenarios.

Lemma nulls_and_values (cells : list (option string)) :
  (isnull_sum cells + length (non_null cells) = length cells)%nat.
Proof.
  unfold isnull_sum, non_null. induction cells as [|[v|] cells IH]; [reflexivity| |].
  - rewrite filter_cons_False by discriminate. cbn [omap list_omap id length].
    simpl. lia.
  - rewrite filter_cons_True by reflexivity. cbn [omap list_omap id length].
    simpl. lia.
Qed.

Lemma nunique_le (cells : list (option string)) :
  (nunique cells <= length (non_null cells))%nat.
Proof.
  unfold nunique. apply submseteq_length, NoDup_submseteq.
  - apply NoDup_remove_dups.
  - intros x. by rewrite elem_of_remove_dups.
Qed.

(** X14. On a frame with at least one row, the statistics of a
    column are consistent: its completeness is the fraction of non-null
    cells, a number in [0, 1]; its unique-value count is at most the
    number of non-null cells; it has at most five sample values, the
    first non-null cells in order; and its type is one of [numeric],
    [datetime], [categorical] and [text], [categorical] only when fewer
    than half as many distinct values as rows were seen. *)
Theorem column_statistics_are_consistent df column :
  (0 < csv_rows df)%nat ->
  length (col_cells column) = csv_rows df ->
  let f := analyze_column df column in
  (exists c, completeness f = Fin c /\
     (c == count_Q (length (non_null (col_cells column))) / count_Q (csv_rows df))%Q /\
     (0 <= c /\ c <= 1)%Q) /\
  (unique_values f <= length (non_null (col_cells column)))%nat /\
  (length (non_null (col_cells column)) <= csv_rows df)%nat /\
  sample_values f = take 5 (non_null (col_cells column)) /\
  (length (sample_values f) <= 5)%nat /\
  data_type f ∈ ["numeric"; "datetime"; "categorical"; "text"] /\
  (data_type f = "categorical" -> (2 * unique_values f < csv_rows df)%nat).
Proof.
  intros Hrows Hlen. cbv zeta.
  pose proof (nulls_and_values (col_cells column)) as Hsplit.
  pose proof (FloatFacts.count_pos _ Hrows) as Hn.
  split; [|split; [|split; [|split; [|split; [|split]]]]].
  - unfold analyze_column. cbn [completeness]. unfold Float.of_nat.
    rewrite FloatFacts.div_fin by lra.
    eexists. split; [reflexivity|].
    assert (inject_Z (Z.of_nat (isnull_sum (col_cells column)))
            + count_Q (length (non_null (col_cells column)))
            == count_Q (csv_rows df))%Q as Hsum.
    { unfold count_Q. rewrite <- inject_Z_plus, <- Nat2Z.inj_add, Hsplit, Hlen.
      reflexivity. }
    fold (count_Q (csv_rows df)) in Hn |- *.
    assert (0 <= count_Q (length (non_null (col_cells column))))%Q
      by apply FloatFacts.count_nonneg.
    assert (0 <= inject_Z (Z.of_nat (isnull_sum (col_cells column))))%Q
      by apply FloatFacts.count_nonneg.
    assert (1 + - (inject_Z (Z.of_nat (isnull_sum (col_cells column)))
                   / count_Q (csv_rows df))
            == count_Q (length (non_null (col_cells column)))
               / count_Q (csv_rows df))%Q as Heq.
    { field_simplify_eq; [|lra]. lra. }
    split; [exact Heq|]. rewrite Heq.
    apply FloatFacts.ratio_unit; lra.
  - apply nunique_le.
  - lia.
  - reflexivity.
  - unfold analyze_column. cbn [sample_values]. rewrite length_take. lia.
  - unfold analyze_column. cbn [data_type].
    destruct (col_dtype column);
      [|apply list_elem_of_further|
       destruct (_ <? _)%nat; do 2 apply list_elem_of_further;
         [|apply list_elem_of_further]];
      apply list_elem_of_here.
  - unfold analyze_column. cbn [data_type unique_values].
    destruct (col_dtype column); try discriminate.
    destruct (2 * nunique (col_cells column) <? csv_rows df)%nat eqn:E;
      [|discriminate].
    intros _. by apply Nat.ltb_lt in E.
Qed.

Lemma column_statistics_are_consistent_witness :
  exists c,
    completeness
      (analyze_column stores_frame
         {| col_name := "SALES"; col_dtype := DNumeric;
            col_cells := [Some "10.0"; None; Some "30.0"; Some "10.0"] |}) = Fin c /\
    (0 <= c /\ c <= 1)%Q.
Proof.
  destruct (column_statistics_are_consistent stores_frame
              {| col_name := "SALES"; col_dtype := DNumeric;
                 col_cells := [Some "10.0"; None; Some "30.0"; Some "10.0"] |})
    as ((c & Hc & _ & Hrange) & _).
  - simpl. lia.
  - reflexivity.
  - exists c. split; [exact Hc|exact Hrange].
Defined.

(** X15. A source that is read without error but has no rows (a
    header only) still contributes its columns: each gets a
    completeness that is not a number, zero unique values and no sample
    values, and a column of strings is typed [text]. *)
Theorem header_only_source_gives_nan df column :
  csv_rows df = 0%nat -> col_cells column = [] ->
  let f := analyze_column df column in
  completeness f = NaN /\ unique_values f = 0%nat /\ sample_values f = [] /\
  (col_dtype column = DObject -> data_type f = "text").
Proof.
  intros Hrows Hcells. cbv zeta. unfold analyze_column.
  cbn [completeness unique_values sample_values data_type].
  rewrite Hrows, Hcells. repeat split.
  intros ->. reflexivity.
Qed.

Lemma header_only_source_gives_nan_witness :
  map (fun kv => completeness (snd kv))
      (fields_after (fun _ => Returned header_only_frame) ["empty.csv"] [])
  = [NaN].
Proof.
  assert (fields_after (fun _ => Returned header_only_frame) ["empty.csv"] []
          = [("STORE", analyze_column header_only_frame
                         {| col_name := "STORE"; col_dtype := DObject;
                            col_cells := [] |})]) as -> by reflexivity.
  cbn [map snd].
  destruct (header_only_source_gives_nan header_only_frame
              {| col_name := "STORE"; col_dtype := DObject; col_cells := [] |}
              eq_refl eq_refl) as (-> & _).
  reflexivity.
Defined.

(** *** A completeness that is not a number *)

Lemma add_nan_l x : Float.add NaN x = NaN.
Proof. reflexivity. Qed.

Lemma add_nan_r x : Float.add x NaN = NaN.
Proof. by destruct x. Qed.

Lemma fold_add_nan (l : list pyfloat) : foldl Float.add NaN l = NaN.
Proof. induction l as [|x l IH]; [reflexivity|]. simpl. exact IH. Qed.

Lemma py_sum_nan (l : list pyfloat) : NaN ∈ l -> Float.py_sum l = NaN.
Proof.
  unfold Float.py_sum. generalize (Fin 0).
  induction l as [|x l IH]; intros acc Hin; [by apply elem_of_nil in Hin|].
  simpl. apply elem_of_cons in Hin as [<-|Hin].
  - rewrite add_nan_r. apply fold_add_nan.
  - by apply IH.
Qed.

(** X16. One field whose completeness is not a number makes both
    scores not a number: neither the cap of the discovery confidence at
    0.95 nor the cap of the data-quality score at 1.0 applies. *)
Theorem nan_completeness_reaches_both_scores
    (discovered_fields : list (string * FieldMetadata))
    (config_knowledge : config_knowledge) k f :
  (k, f) ∈ discovered_fields -> completeness f = NaN ->
  _calculate_discovery_confidence discovered_fields config_knowledge = NaN /\
  _assess_data_quality discovered_fields = NaN.
Proof.
  intros Hin Hnan.
  assert (NaN ∈ map (fun kv => completeness (snd kv)) discovered_fields) as Hmem.
  { apply list_elem_of_fmap. exists (k, f). by split. }
  assert (discovered_fields <> []) as Hne
    by (intros ->; by apply elem_of_nil in Hin).
  split.
  - unfold _calculate_discovery_confidence.
    destruct discovered_fields as [|kv l]; [contradiction|].
    rewrite (py_sum_nan _ Hmem). reflexivity.
  - unfold _assess_data_quality.
    destruct discovered_fields as [|kv l]; [contradiction|].
    rewrite (py_sum_nan _ Hmem). reflexivity.
Qed.

Lemma nan_completeness_reaches_both_scores_witness :
  _calculate_discovery_confidence
    (fields_after (fun _ => Returned header_only_frame) ["empty.csv"] [])
    no_config = NaN.
Proof.
  apply (nan_completeness_reaches_both_scores
           (fields_after (fun _ => Returned header_only_frame) ["empty.csv"] [])
           no_config "STORE"
           (analyze_column header_only_frame
              {| col_name := "STORE"; col_dtype := DObject; col_cells := [] |})).
  - apply list_elem_of_here.
  - reflexivity.
Defined.

End StatisticsProps.

(** ** Schema discovery: the pipeline as a whole *)

Module PipelineProps.
Import SchemaDiscovery SchemaDiscoverySave SchemaDiscoveryPipeline Scenarios
  MoreScenarios.

(** X17. For a non-empty set of fields whose completeness values are
    fractions in [0, 1], the data-quality score is 0.7 times the mean
    completeness plus 0.3 times the fraction of fields with a non-empty
    business purpose; it lies in [0, 1], so the cap at 1.0 never takes
    effect. *)
Theorem data_quality_formula (field_metadata : list (string * FieldMetadata)) :
  field_metadata <> [] ->
  Forall (fun kv => Float.within 0 1 (completeness (snd kv))) field_metadata ->
  exists q,
    _assess_data_quality field_metadata = Fin q /\
    (q == 0.7 * mean_completeness field_metadata
          + 0.3 * purpose_fraction field_metadata)%Q /\
    (0 <= q /\ q <= 1)%Q.
Proof.
  intros Hne Hall.
  destruct (SchemaDiscoveryProps.py_sum_from field_metadata 0 Hall)
    as (total & Hfold & Hsum & Hlo & Hhi).
  assert (0 < length field_metadata)%nat as Hlen
    by (destruct field_metadata; [contradiction|simpl; lia]).
  pose proof (FloatFacts.count_pos _ Hlen) as Hn.
  set (known := filter (fun kv => business_purpose (snd kv) <> "") field_metadata).
  assert (length known <= length field_metadata)%nat as Hk by apply length_filter.
  pose proof (FloatFacts.count_le _ _ Hk) as Hkn.
  pose proof (FloatFacts.count_nonneg (length known)) as Hk0.
  assert (_assess_data_quality field_metadata
          = Float.py_min
              (Fin (total / count_Q (length field_metadata) * 0.7
                    + count_Q (length known) / count_Q (length field_metadata) * 0.3))
              (Fin 1)) as Hrun.
  { unfold _assess_data_quality.
    destruct field_metadata as [|kv l]; [contradiction|].
    unfold Float.py_sum. rewrite Hfold, length_map. fold known.
    unfold Float.of_nat. fold (count_Q (length (kv :: l))).
    fold (count_Q (length known)).
    rewrite !FloatFacts.div_fin by (unfold count_Q; lra).
    reflexivity. }
  rewrite Hrun. unfold Float.py_min, Float.lt.
  unfold mean_completeness, purpose_fraction. fold known.
  fold (count_Q (length field_metadata)) in Hn, Hkn, Hhi.
  fold (count_Q (length known)) in Hkn, Hk0.
  set (n := count_Q (length field_metadata)) in *.
  set (k := count_Q (length known)) in *.
  set (sum := fold_right Qplus 0%Q
                (map (fun kv => to_Q (completeness (snd kv))) field_metadata)) in *.
  assert (0 <= total / n /\ total / n <= 1)%Q as [Hm0 Hm1]
    by (apply FloatFacts.ratio_unit; lra).
  assert (0 <= k / n /\ k / n <= 1)%Q as [Hf0 Hf1]
    by (apply FloatFacts.ratio_unit; lra).
  assert (total / n == sum / n)%Q as Hmean
    by (apply Qmult_comp; [lra|reflexivity]).
  assert (Float.Qlt_bool 1 (total / n * 0.7 + k / n * 0.3) = false) as ->.
  { apply RankingFacts.Qlt_bool_false. lra. }
  eexists. split; [reflexivity|]. split; lra.
Qed.

Lemma data_quality_formula_witness :
  exists q,
    _assess_data_quality [("SALES", sales_with 0.75); ("STORE", sales_with 1)] = Fin q /\
    (0 <= q /\ q <= 1)%Q.
Proof.
  destruct (data_quality_formula [("SALES", sales_with 0.75); ("STORE", sales_with 1)])
    as (q & Hrun & _ & Hrange).
  - discriminate.
  - repeat constructor; simpl; lra.
  - exists q. split; [exact Hrun|exact Hrange].
Defined.

(** *** Allocation, merge and the views of the two dicts *)

Lemma refs_from (n : nat) (fresh : list (string * FieldMetadata)) :
  map snd (imap (fun i kv => (fst kv, (n + i)%nat)) fresh) = seq n (length fresh).
Proof.
  revert n. induction fresh as [|kv fresh IH]; intros n; [reflexivity|].
  cbn [imap map length seq snd]. f_equal; [lia|].
  rewrite <- (IH (S n)). f_equal. apply imap_ext. intros i x _. simpl.
  f_equal. lia.
Qed.

Lemma items_from (st : store) (h : string * FieldMetadata -> FieldMetadata)
    (n : nat) (suffix : list (string * FieldMetadata)) :
  (forall j kv, suffix !! j = Some kv -> st !! (n + j)%nat = Some (h kv)) ->
  items st (imap (fun i kv => (fst kv, (n + i)%nat)) suffix)
  = map (fun kv => (fst kv, h kv)) suffix.
Proof.
  revert n. induction suffix as [|kv suffix IH]; intros n Hst; [reflexivity|].
  unfold items. cbn [imap omap list_omap map].
  rewrite (Hst 0%nat kv eq_refl). cbn [fmap option_fmap option_map]. f_equal.
  assert (imap ((fun i kv => (fst kv, (n + i)%nat)) ∘ S) suffix
          = imap (fun i kv => (fst kv, (S n + i)%nat)) suffix) as ->.
  { apply imap_ext. intros i x _. simpl. f_equal. lia. }
  apply (IH (S n)). intros j x Hx.
  replace (S n + j)%nat with (n + S j)%nat by lia. by apply Hst.
Qed.

(** After the merge, both dicts show every fresh field overlaid with
    its knowledge-base entry. *)
Lemma merged_view (config_knowledge : config_knowledge)
    (fresh : list (string * FieldMetadata)) :
  let '(discovered_fields, st0) := alloc fresh in
  let '(enriched, st) :=
    _merge_discovery_with_config discovered_fields config_knowledge st0 in
  items st enriched = map (with_knowledge config_knowledge) fresh /\
  items st discovered_fields = map (with_knowledge config_knowledge) fresh /\
  length enriched = length fresh.
Proof.
  unfold alloc, _merge_discovery_with_config.
  set (dict := imap (fun i kv => (fst kv, i)) fresh).
  set (kb := default ∅ (field_definitions config_knowledge)).
  assert (items (foldl (merge_step kb) (map snd fresh) dict) dict
          = map (with_knowledge config_knowledge) fresh) as Hitems.
  { apply (items_from _ (fun kv => snd (with_knowledge config_knowledge kv)) 0 fresh).
    intros j kv Hkv. simpl.
    rewrite (SchemaDiscoveryProps.merge_fold_overlay kb dict _ (fst kv) j).
    - fold kb.
      change (map snd fresh) with (snd <$> fresh).
      rewrite list_lookup_fmap, Hkv. simpl.
      destruct (kb !! fst kv); reflexivity.
    - replace (map snd dict) with (seq 0 (length fresh))
        by (symmetry; exact (refs_from 0 fresh)).
      apply NoDup_seq.
    - apply list_elem_of_lookup. exists j. unfold dict.
      rewrite list_lookup_imap, Hkv. reflexivity. }
  split; [exact Hitems|]. split; [exact Hitems|].
  unfold dict. apply length_imap.
Qed.

Lemma learning_step_statistics cfg config_fields acc kv :
  learning_step config_fields acc (with_knowledge cfg kv)
  = learning_step config_fields acc kv.
Proof.
  destruct kv as [k f]. unfold with_knowledge, learning_step. cbn [fst snd].
  destruct (default ∅ (field_definitions cfg) !! k); reflexivity.
Qed.

Lemma learning_after_merge cfg cfg' (fresh : list (string * FieldMetadata)) :
  _identify_config_learning_opportunities (map (with_knowledge cfg) fresh) cfg'
  = _identify_config_learning_opportunities fresh cfg'.
Proof.
  unfold _identify_config_learning_opportunities.
  generalize ({| new_fields := []; updated_statistics := [];
                 potential_relationships := []; data_quality_insights := [] |}).
  induction fresh as [|kv fresh IH]; intros acc; [reflexivity|].
  cbn [map foldl]. rewrite learning_step_statistics. apply IH.
Qed.

Lemma known_count_after_merge cfg (kb : gmap string config_field)
    (fresh : list (string * FieldMetadata)) :
  length (filter (fun kv => is_Some (kb !! fst kv)) (map (with_knowledge cfg) fresh))
  = length (filter (fun kv => is_Some (kb !! fst kv)) fresh).
Proof.
  induction fresh as [|kv fresh IH]; [reflexivity|]. cbn [map].
  destruct (decide (is_Some (kb !! fst kv))) as [Hk|Hk].
  - rewrite !filter_cons_True by exact Hk. simpl. by rewrite IH.
  - rewrite !filter_cons_False by exact Hk. exact IH.
Qed.

Lemma confidence_ext (l1 l2 : list (string * FieldMetadata)) cfg :
  map (fun kv => completeness (snd kv)) l1 = map (fun kv => completeness (snd kv)) l2 ->
  length (filter (fun kv => is_Some (default ∅ (fields cfg) !! fst kv)) l1)
  = length (filter (fun kv => is_Some (default ∅ (fields cfg) !! fst kv)) l2) ->
  _calculate_discovery_confidence l1 cfg = _calculate_discovery_confidence l2 cfg.
Proof.
  intros Hc Hk.
  assert (length l1 = length l2) as Hl.
  { rewrite <- (length_map (fun kv => completeness (snd kv)) l1), Hc.
    apply length_map. }
  unfold _calculate_discovery_confidence.
  destruct l1 as [|p l1], l2 as [|q l2]; try discriminate; [reflexivity|].
  by rewrite Hc, Hk, Hl.
Qed.

Lemma confidence_after_merge cfg cfg' (fresh : list (string * FieldMetadata)) :
  _calculate_discovery_confidence (map (with_knowledge cfg) fresh) cfg'
  = _calculate_discovery_confidence fresh cfg'.
Proof.
  apply confidence_ext.
  - rewrite map_map. apply map_ext. intros [k f]. unfold with_knowledge.
    cbn [fst snd]. destruct (default ∅ (field_definitions cfg) !! k); reflexivity.
  - apply known_count_after_merge.
Qed.

(** *** The entry point *)

Lemma omap_nothing {A B} (f : A -> option B) (l : list A) :
  (forall x, f x = None) -> omap f l = [].
Proof.
  intros Hf. induction l as [|x l IH]; [reflexivity|].
  cbn [omap list_omap]. by rewrite Hf.
Qed.


(** A well-formed section trips no lookup. *)
Lemma well_formed_lookups b section names :
  well_formed b section -> section_error b section names = None.
Proof.
  destruct section as [[entries|items|text|]|]; simpl; try contradiction;
    [|reflexivity].
  intros Hwf. rewrite omap_nothing; [reflexivity|].
  intros field_name. unfold lookup_error.
  destruct (entries !! field_name) as [entry|] eqn:Hentry; [|reflexivity].
  specialize (Hwf field_name entry Hentry). simpl in Hwf.
  destruct entry as [cf|cf|]; [reflexivity| |by destruct Hwf as [? [=]]].
  simpl in Hwf. destruct b; [by destruct Hwf as [? [=]]|reflexivity].
Qed.




(** X18. When both sections of the knowledge base are absent or
    mappings of readable entries, and the learning insights can be
    written, [discover_schema] returns, and its output is determined
    by the freshly discovered fields: the field metadata are the fresh
    fields, in discovery order, each overlaid with its entry of the
    [field_definitions] section; the field count is their number; the
    data-quality score is computed on the enriched fields; and
    although the merge updates the shared objects in place before the
    learning insights and the confidence are computed, both equal what
    the fresh fields alone give. When the insights cannot be written,
    the same run raises [OSError] if there is anything to save and
    returns the same result otherwise. *)
Theorem discover_schema_output read_csv config_file data_paths :
  let document := _load_config_knowledge config_file in
  well_formed false (doc_field_definitions document) ->
  well_formed true (doc_fields document) ->
  exists fresh log output insights,
    _discover_fresh_schema read_csv data_paths = Returned (fresh, log) /\
    discover_schema read_csv config_file true data_paths
    = Returned (output, insights, log) /\
    field_metadata output = map (with_knowledge (knowledge document)) fresh /\
    total_fields output = length fresh /\
    data_quality_score output
    = _assess_data_quality (map (with_knowledge (knowledge document)) fresh) /\
    confidence_score output
    = _calculate_discovery_confidence fresh (knowledge document) /\
    insights = _identify_config_learning_opportunities fresh (knowledge document) /\
    data_sources output = data_paths /\
    discover_schema read_csv config_file false data_paths
    = if insights_saved insights then Raised OSError
      else Returned (output, insights, log).
Proof.
  intros document Hdefinitions Hfields.
  unfold discover_schema.
  rewrite SchemaDiscoveryProps.discover_fresh_closed. cbn [obind fst snd].
  set (fresh := fields_after read_csv data_paths []).
  pose proof (merged_view (knowledge document) fresh) as Hview.
  cbv zeta. fold document.
  destruct (alloc fresh) as [discovered_fields st0].
  rewrite !(well_formed_lookups false _ _ Hdefinitions).
  cbn [raise_if_any obind].
  destruct (_merge_discovery_with_config discovered_fields (knowledge document) st0)
    as [enriched st].
  destruct Hview as (Henriched & Hdiscovered & Hlen).
  rewrite !(well_formed_lookups true _ _ Hfields).
  cbn [raise_if_any obind].
  rewrite Henriched, Hdiscovered, Hlen.
  rewrite confidence_after_merge, learning_after_merge.
  unfold _save_learning_insights.
  destruct (insights_saved
              (_identify_config_learning_opportunities fresh (knowledge document)))
    eqn:Hsaved; cbn [obind];
    do 4 eexists; (split; [reflexivity|]); (split; [reflexivity|]);
    cbn [field_metadata total_fields data_quality_score confidence_score
         data_sources];
    rewrite ?Hsaved; repeat split.
Qed.

Lemma discover_schema_output_witness :
  exists output insights log,
    discover_schema one_readable (Some sales_document) true ["stores.csv"]
    = Returned (output, insights, log) /\
    map fst (field_metadata output) = ["STORE"; "SALES"] /\
    discover_schema one_readable (Some sales_document) false ["stores.csv"]
    = Raised OSError.
Proof.
  destruct (discover_schema_output one_readable (Some sales_document)
              ["stores.csv"])
    as (fresh & log & output & insights & Hfresh & Hrun & Hfields & _ & _ & _
        & Hinsights & _ & Hrefused).
  - intros k entry Hk. apply lookup_singleton_Some in Hk as [_ <-]. by eexists.
  - intros k entry Hk. apply lookup_singleton_Some in Hk as [_ <-]. by eexists.
  - exists output, insights, log. split; [exact Hrun|].
    vm_compute in Hfresh. injection Hfresh as <- <-.
    split.
    + rewrite Hfields. rewrite map_map. reflexivity.
    + rewrite Hrefused, Hinsights.
      assert (insights_saved
                (_identify_config_learning_opportunities
                   (fields_after one_readable ["stores.csv"] [])
                   (knowledge (_load_config_knowledge (Some sales_document))))
              = true) as Hsaved by (vm_compute; reflexivity).
      vm_compute fields_after in Hsaved.
      by rewrite Hsaved.
Defined.

Example discover_schema_enriches_sales :
  match discover_schema one_readable (Some sales_document) true ["stores.csv"] with
  | Returned (output, _, _) =>
      map (fun kv => (fst kv, business_purpose (snd kv), importance_tier (snd kv)))
          (field_metadata output)
  | Raised _ => []
  end
  = [ ("STORE", "", 3%Z); ("SALES", "Weekly sales in dollars", 1%Z) ].
Proof. vm_compute. reflexivity. Qed.

(** A [fields:] key without a value makes the learning step raise as
    soon as one field is discovered. *)
Example null_fields_section_raises :
  discover_schema one_readable (Some null_fields_document) true ["stores.csv"]
  = Raised TypeError.
Proof. vm_compute. reflexivity. Qed.

(** A [field_definitions:] key without a value makes the loader fall
    back to an empty knowledge base: the [fields] section is lost
    with it, and [SALES] is reported as new. *)
Example null_definitions_section_is_no_knowledge :
  match discover_schema one_readable (Some null_definitions_document) true
          ["stores.csv"] with
  | Returned (output, insights, _) =>
      (business_context_available output, map nf_field_name (new_fields insights))
  | Raised _ => (true, [])
  end
  = (false, ["STORE"; "SALES"]).
Proof. vm_compute. reflexivity. Qed.

(** A [field_definitions] section that lists the names makes the
    merge raise, and an entry that is a string does too. *)
Example malformed_definitions_raise :
  discover_schema one_readable (Some listed_definitions_document) true
    ["stores.csv"] = Raised TypeError /\
  discover_schema one_readable (Some text_entry_document) true
    ["stores.csv"] = Raised AttributeError.
Proof. split; vm_compute; reflexivity. Qed.

(** Without any knowledge base, every discovered field is new, so
    there is something to save and an unwritable directory makes the
    agent raise. *)
Example unwritable_directory_raises :
  discover_schema one_readable None false ["stores.csv"] = Raised OSError.
Proof. vm_compute. reflexivity. Qed.

End PipelineProps.

(** ** Schema discovery: sources that cannot be read *)

Module UnreadableSourceProps.
Import SchemaDiscovery SchemaDiscoverySave SchemaDiscoveryPipeline Scenarios
  MoreScenarios.




End UnreadableSourceProps.

(** ** Schema discovery: learning insights *)

Module LearningProps.
Import SchemaDiscovery SchemaDiscoverySave Scenarios MoreScenarios.

Lemma new_names config_fields (l : list (string * FieldMetadata)) :
  map nf_field_name (omap (as_new_field config_fields) l)
  = filter (fun k => config_fields !! k = None) (map fst l).
Proof.
  induction l as [|[k f] l IH]; [reflexivity|].
  cbn [omap list_omap map fst]. unfold as_new_field at 1. cbn [fst snd].
  destruct (config_fields !! k) eqn:Hk.
  - rewrite filter_cons_False by (rewrite Hk; discriminate). exact IH.
  - rewrite filter_cons_True by exact Hk. simpl. by rewrite IH.
Qed.

Lemma updated_names config_fields (l : list (string * FieldMetadata)) :
  map us_field_name (omap (as_updated_statistic config_fields) l)
  `sublist_of` filter (fun k => is_Some (config_fields !! k)) (map fst l).
Proof.
  induction l as [|[k f] l IH]; [reflexivity|].
  cbn [omap list_omap map fst]. unfold as_updated_statistic at 1. cbn [fst snd].
  destruct (config_fields !! k) as [cf|] eqn:Hk.
  - rewrite filter_cons_True by (rewrite Hk; by eexists).
    destruct (completeness_changed f cf); simpl.
    + by apply sublist_skip.
    + by apply sublist_cons.
  - rewrite filter_cons_False by (rewrite Hk; by intros [? ?]). exact IH.
Qed.

Lemma one_list_per_field config_fields (l : list (string * FieldMetadata)) :
  (length (omap (as_new_field config_fields) l)
   + length (omap (as_updated_statistic config_fields) l) <= length l)%nat.
Proof.
  induction l as [|[k f] l IH]; [reflexivity|].
  cbn [omap list_omap]. unfold as_new_field at 1, as_updated_statistic at 1.
  cbn [fst snd]. destruct (config_fields !! k) as [cf|].
  - destruct (completeness_changed f cf); simpl; lia.
  - simpl. lia.
Qed.

Lemma other_lists_stay_empty config_fields acc (l : list (string * FieldMetadata)) :
  potential_relationships (foldl (learning_step config_fields) acc l)
  = potential_relationships acc /\
  data_quality_insights (foldl (learning_step config_fields) acc l)
  = data_quality_insights acc.
Proof.
  revert acc. induction l as [|[k f] l IH]; intros acc; [by split|].
  cbn [foldl]. destruct (IH (learning_step config_fields acc (k, f))) as [-> ->].
  unfold learning_step. destruct (config_fields !! k) as [cf|]; [|by split].
  destruct (completeness_changed f cf); by split.
Qed.

(** X19. The learning insights report every discovered field at most
    once: the new fields are, in discovery order, exactly the fields
    without an entry in the [fields] section; the updated statistics
    name only fields that have one, in discovery order; the other two
    lists stay empty. The insights are saved exactly when one of the
    two lists is non-empty, and without a [fields] section every
    discovered field is new and none is updated. *)
Theorem learning_insights_partition
    (discovered_fields : list (string * FieldMetadata))
    (config_knowledge : config_knowledge) :
  let insights :=
    _identify_config_learning_opportunities discovered_fields config_knowledge in
  let known := default ∅ (fields config_knowledge) in
  map nf_field_name (new_fields insights)
  = filter (fun k => known !! k = None) (map fst discovered_fields) /\
  map us_field_name (updated_statistics insights)
  `sublist_of` filter (fun k => is_Some (known !! k)) (map fst discovered_fields) /\
  (length (new_fields insights) + length (updated_statistics insights)
   <= length discovered_fields)%nat /\
  potential_relationships insights = [] /\
  data_quality_insights insights = [] /\
  (insights_saved insights = true <->
   new_fields insights <> [] \/ updated_statistics insights <> []) /\
  (fields config_knowledge = None ->
   map nf_field_name (new_fields insights) = map fst discovered_fields /\
   updated_statistics insights = []).
Proof.
  intros insights known.
  assert (new_fields insights = omap (as_new_field known) discovered_fields /\
          updated_statistics insights
          = omap (as_updated_statistic known) discovered_fields) as [Hnew Hupd]
    by exact (SchemaDiscoveryProps.learning_fold known _ discovered_fields).
  destruct (other_lists_stay_empty known
              {| new_fields := []; updated_statistics := [];
                 potential_relationships := []; data_quality_insights := [] |}
              discovered_fields) as [Hrel Hdq].
  change (potential_relationships insights = []) in Hrel.
  change (data_quality_insights insights = []) in Hdq.
  split; [rewrite Hnew; apply new_names|].
  split; [rewrite Hupd; apply updated_names|].
  split; [rewrite Hnew, Hupd; apply one_list_per_field|].
  split; [exact Hrel|]. split; [exact Hdq|]. split.
  - unfold insights_saved. rewrite Hrel, Hdq.
    destruct (new_fields insights), (updated_statistics insights); simpl;
      split; try discriminate; try tauto; intros _; try reflexivity;
      first [by left | by right].
  - intros Hnone. split.
    + rewrite Hnew, new_names. subst known. rewrite Hnone. simpl.
      clear. induction (map fst discovered_fields) as [|k l IH]; [reflexivity|].
      rewrite filter_cons_True by apply lookup_empty. by rewrite IH.
    + rewrite Hupd. subst known. rewrite Hnone. simpl. clear.
      induction discovered_fields as [|[k f] l IH]; [reflexivity|].
      cbn [omap list_omap]. unfold as_updated_statistic at 1. cbn [fst].
      rewrite lookup_empty. exact IH.
Qed.

Lemma learning_insights_partition_witness :
  map nf_field_name
    (new_fields (_identify_config_learning_opportunities
                   [("SALES", sales_with 0.75); ("STORE", sales_with 1)] no_config))
  = ["SALES"; "STORE"] /\
  updated_statistics
    (_identify_config_learning_opportunities
       [("SALES", sales_with 0.75); ("STORE", sales_with 1)] no_config) = [].
Proof.
  destruct (learning_insights_partition
              [("SALES", sales_with 0.75); ("STORE", sales_with 1)] no_config)
    as (_ & _ & _ & _ & _ & _ & Hnone).
  exact (Hnone eq_refl).
Defined.

End LearningProps.

(** ** Field selection and field helpers of the schema reference *)

Module SchemaReferenceMore.
Import SchemaReference SchemaReferenceFields PyStrExt.

Lemma str_le_total : Total str_le.
Proof. intros a b. unfold str_le. apply String.leb_total. Qed.

Lemma leb_ne_ltb a b : String.leb a b = true -> a <> b -> String.ltb a b = true.
Proof.
  unfold String.leb, String.ltb. intros Hle Hne.
  destruct (String.compare a b) eqn:E; try reflexivity; try discriminate.
  apply String.compare_eq_iff in E. contradiction.
Qed.

Lemma sorted_strictly (l : list string) :
  Sorted str_le l -> NoDup l -> Sorted (fun a b => String.ltb a b = true) l.
Proof.
  induction 1 as [|a l Hs IH Hhd]; intros Hnd; [constructor|].
  apply NoDup_cons in Hnd as [Ha Hnd].
  constructor; [by apply IH|].
  destruct Hhd as [|b l' Hab]; constructor.
  apply leb_ne_ltb; [exact Hab|]. intros ->. apply Ha. apply list_elem_of_here.
Qed.

(** X20. The list of available fields is strictly ascending in the
    order of the character codes, hence free of duplicates, and it
    contains only columns of the frame, so it is never longer than the
    frame is wide, even when the frame repeats a column name. *)
Theorem available_fields_are_sorted exclude_columns df fields :
  _get_all_available_fields exclude_columns df = Returned fields ->
  Sorted (fun a b => String.ltb a b = true) fields /\
  NoDup fields /\
  (exists frame, df = Some frame /\ frame_empty frame = false /\
     fields ⊆ frame_columns frame /\
     (length fields <= length (frame_columns frame))%nat).
Proof.
  unfold _get_all_available_fields.
  destruct df as [frame|]; [|discriminate].
  destruct (frame_empty frame) eqn:Hempty; [discriminate|].
  intros [= <-].
  set (kept := list_to_set (frame_columns frame)
               ∖ set_bind (excluded_by (list_to_set (frame_columns frame)))
                   (list_to_set exclude_columns) : gset string).
  assert (NoDup (merge_sort str_le (elements kept))) as Hnd.
  { rewrite merge_sort_Permutation. apply NoDup_elements. }
  assert (merge_sort str_le (elements kept) ⊆ frame_columns frame) as Hsub.
  { intros x. rewrite merge_sort_Permutation, elem_of_elements.
    unfold kept. rewrite elem_of_difference, elem_of_list_to_set. tauto. }
  split; [|split; [exact Hnd|]].
  - apply sorted_strictly; [|exact Hnd].
    apply (@Sorted_merge_sort _ str_le _ str_le_total).
  - exists frame. split; [reflexivity|]. split; [exact Hempty|].
    split; [exact Hsub|].
    apply submseteq_length, NoDup_submseteq; [exact Hnd|exact Hsub].
Qed.

Lemma available_fields_are_sorted_witness :
  Sorted (fun a b => String.ltb a b = true) ["SALES"; "UPDATED_AT"].
Proof.
  assert (_get_all_available_fields ["CREATED_*"; "ROW_ID"]
            (Some {| frame_columns :=
                       ["UPDATED_AT"; "CREATED_AT"; "SALES"; "ROW_ID"; "SALES"];
                     frame_rows := 3 |})
          = Returned ["SALES"; "UPDATED_AT"]) as Hrun
    by (vm_compute; reflexivity).
  exact (proj1 (available_fields_are_sorted _ _ _ Hrun)).
Defined.

(** X21. When no exclude entry contains a [*], which holds of the
    built-in exclude list, exclusion is plain set difference: a column
    is kept exactly when it is not listed. *)
Theorem plain_exclude_list_is_set_difference exclude_columns df :
  Forall (fun entry => PyStr.has_char "*" entry = false) exclude_columns ->
  frame_empty df = false ->
  exists fields,
    _get_all_available_fields exclude_columns (Some df) = Returned fields /\
    (forall col, col ∈ fields <-> col ∈ frame_columns df /\ col ∉ exclude_columns) /\
    Forall (fun entry => PyStr.has_char "*" entry = false) default_exclude_columns.
Proof.
  intros Hplain Hne.
  destruct (SchemaReferenceProps.available_fields_spec exclude_columns df Hne)
    as (fields & Hrun & Hspec).
  exists fields. split; [exact Hrun|]. split; [|repeat constructor].
  intros col. rewrite Hspec. rewrite List.Forall_forall in Hplain.
  split; intros [Hcol Hnot]; (split; [exact Hcol|]).
  - intros Hin. apply Hnot. exists col. split; [exact Hin|by left].
  - intros (entry & Hentry & [->|(_ & Hstar & _)]); [contradiction|].
    apply list_elem_of_In in Hentry. rewrite (Hplain entry Hentry) in Hstar.
    discriminate.
Qed.

Lemma plain_exclude_list_is_set_difference_witness :
  exists fields,
    _get_all_available_fields default_exclude_columns
      (Some {| frame_columns := ["SALES"; "ROW_ID"; "VERSION"; "STORE"];
               frame_rows := 1 |}) = Returned fields /\
    ("SALES" ∈ fields <->
     "SALES" ∈ ["SALES"; "ROW_ID"; "VERSION"; "STORE"]
     /\ "SALES" ∉ default_exclude_columns).
Proof.
  destruct (plain_exclude_list_is_set_difference default_exclude_columns
              {| frame_columns := ["SALES"; "ROW_ID"; "VERSION"; "STORE"];
                 frame_rows := 1 |}) as (fields & Hrun & Hspec & _).
  - repeat constructor.
  - reflexivity.
  - exists fields. split; [exact Hrun|]. apply Hspec.
Defined.

(** *** Field helpers *)

Lemma append_not_empty (a b : string) : a <> "" -> (a ++ b)%string <> "".
Proof. destruct a; [contradiction|discriminate]. Qed.

Lemma description_fallback_not_empty field_name :
  description_fallback field_name <> "".
Proof.
  unfold description_fallback.
  repeat match goal with
         | |- context [if ?b then _ else _] => destruct b
         end; try discriminate; by apply append_not_empty.
Qed.

(** X22. The description of a field is never empty and does not
    depend on the letter case of the field name: a non-empty
    description stored under the upper-cased name is returned as it is,
    and every other case falls back to a pattern-based text. *)
Theorem field_description_is_never_empty
    (field_descs : gmap string (option string)) (field_name : string) :
  _get_field_description field_descs field_name <> "" /\
  _get_field_description field_descs (PyStr.lower field_name)
  = _get_field_description field_descs field_name /\
  _get_field_description field_descs (upper field_name)
  = _get_field_description field_descs field_name /\
  (forall d, field_descs !! upper field_name = Some (Some d) -> d <> "" ->
     _get_field_description field_descs field_name = d) /\
  (field_descs !! upper field_name = None ->
   _get_field_description field_descs field_name
   = description_fallback (upper field_name)).
Proof.
  split; [|split; [|split; [|split]]].
  - unfold _get_field_description.
    destruct (field_descs !! upper field_name) as [entry|];
      [|apply description_fallback_not_empty].
    destruct (String.eqb_spec (default "" entry) "") as [_|Hne];
      [apply description_fallback_not_empty|exact Hne].
  - unfold _get_field_description. by rewrite CaseFacts.upper_lower.
  - unfold _get_field_description. by rewrite CaseFacts.upper_idem.
  - intros d Hd Hne. unfold _get_field_description. rewrite Hd. simpl.
    by destruct (String.eqb_spec d "").
  - intros Hnone. unfold _get_field_description. by rewrite Hnone.
Qed.

Lemma field_description_is_never_empty_witness :
  _get_field_description {[ "SALES_WOW" := Some "Weekly change of sales" ]}
    "sales_wow" = "Weekly change of sales" /\
  _get_field_description ∅ "is_open_sunday"
  = "Flag indicating if the location open sunday".
Proof.
  split.
  - destruct (field_description_is_never_empty
                {[ "SALES_WOW" := Some "Weekly change of sales" ]} "sales_wow")
      as (_ & _ & _ & Hstored & _).
    apply Hstored; [|discriminate]. apply lookup_singleton_eq.
  - destruct (field_description_is_never_empty ∅ "is_open_sunday")
      as (_ & _ & _ & _ & Hfallback).
    rewrite Hfallback by apply lookup_empty. reflexivity.
Defined.

(** X23. Both type mappings, from a dtype name and from a field name,
    return one of [number], [boolean], [datetime] and [string], and
    neither depends on letter case. *)
Theorem type_mappings_ignore_case (text : string) :
  _map_pandas_dtype_to_json_type text ∈ ["number"; "boolean"; "datetime"; "string"] /\
  _get_field_type_fallback text ∈ ["number"; "boolean"; "datetime"; "string"] /\
  _map_pandas_dtype_to_json_type (upper text) = _map_pandas_dtype_to_json_type text /\
  _get_field_type_fallback (PyStr.lower text) = _get_field_type_fallback text /\
  _get_field_interpretation (PyStr.lower text) = _get_field_interpretation text.
Proof.
  split; [|split; [|split; [|split]]].
  - unfold _map_pandas_dtype_to_json_type.
    repeat match goal with
           | |- context [if ?b then _ else _] => destruct b
           end; repeat first [apply list_elem_of_here | apply list_elem_of_further].
  - unfold _get_field_type_fallback.
    repeat match goal with
           | |- context [if ?b then _ else _] => destruct b
           end; repeat first [apply list_elem_of_here | apply list_elem_of_further].
  - unfold _map_pandas_dtype_to_json_type. by rewrite CaseFacts.lower_upper.
  - unfold _get_field_type_fallback. by rewrite CaseFacts.upper_lower.
  - unfold _get_field_interpretation. by rewrite CaseFacts.upper_lower.
Qed.

Example interval_dtype_counts_as_number :
  _map_pandas_dtype_to_json_type "interval[int64, right]" = "number" /\
  _get_field_type_fallback "is_top_sales_store" = "number".
Proof. split; reflexivity. Qed.

End SchemaReferenceMore.
